(** * CalendarAppChallenge: the calendar model of [src/app/model/calendar.py]

    A shallow embedding of the classes [Reminder], [Event], [Day] and
    [Calendar], followed by the properties of the slot grid, of booking and
    of the event life cycle.

    Python objects are mutated in place and an exception leaves every
    mutation made before it; methods are therefore functions from the
    object's state to the new state paired with an outcome. *)

From Stdlib Require Import ZArith List String Bool Lia.
Import ListNotations.
Local Open Scope Z_scope.

(** ** Keys: equality as the dictionaries use it *)

Class EqB (K : Type) := { eqb : K -> K -> bool }.

(** [eqb] decides equality; shown for each key type further down. *)
Class EqBLaws (K : Type) `{EqB K} := {
  eqb_eq : forall a b : K, eqb a b = true <-> a = b
}.

#[export] Instance EqB_string : EqB string := {| eqb := String.eqb |}.

(** ** [datetime.date] and [datetime.time]

    Both compare field by field, most significant first. *)

Record date := mk_date { year : Z; month : Z; day : Z }.

Definition date_eqb (a b : date) : bool :=
  (year a =? year b) && (month a =? month b) && (day a =? day b).

Definition date_ltb (a b : date) : bool :=
  (year a <? year b)
  || ((year a =? year b)
      && ((month a <? month b) || ((month a =? month b) && (day a <? day b)))).

#[export] Instance EqB_date : EqB date := {| eqb := date_eqb |}.

Record time := mk_time { hour : Z; minute : Z; second : Z; microsecond : Z }.

(** [time(h, m)]: seconds and microseconds default to zero. *)
Definition time_of (h m : Z) : time := mk_time h m 0 0.

Definition time_eqb (a b : time) : bool :=
  (hour a =? hour b) && (minute a =? minute b)
  && (second a =? second b) && (microsecond a =? microsecond b).

Definition time_ltb (a b : time) : bool :=
  (hour a <? hour b)
  || ((hour a =? hour b)
      && ((minute a <? minute b)
          || ((minute a =? minute b)
              && ((second a <? second b)
                  || ((second a =? second b)
                      && (microsecond a <? microsecond b)))))).

Definition time_leb (a b : time) : bool := time_ltb a b || time_eqb a b.

#[export] Instance EqB_time : EqB time := {| eqb := time_eqb |}.

(** [(datetime.combine(d, t) + timedelta(minutes=n)).time()]: the time of day
    [n] minutes after [t]; the carry into the date is dropped by [.time()],
    so the date [d] plays no part. *)
Definition time_plus_minutes (t : time) (n : Z) : time :=
  let total := hour t * 60 + minute t + n in
  mk_time ((total / 60) mod 24) (total mod 60) (second t) (microsecond t).

Record datetime := mk_datetime { dt_date : date; dt_time : time }.

(** ** Insertion-ordered dictionaries

    A Python [dict] iterates in insertion order, and both [Day] and
    [Calendar] depend on that order, so a dictionary is the list of its
    items. Assigning to a key that is present replaces the value where it
    stands; assigning to a new key appends an item. *)

Section Dict.
Context {K V : Type} `{EqB K}.

Definition dict := list (K * V).

Fixpoint dict_get (k : K) (d : dict) : option V :=
  match d with
  | [] => None
  | (k', v) :: rest => if eqb k k' then Some v else dict_get k rest
  end.

Fixpoint dict_set (k : K) (v : V) (d : dict) : dict :=
  match d with
  | [] => [(k, v)]
  | (k', v') :: rest =>
      if eqb k k' then (k', v) :: rest else (k', v') :: dict_set k v rest
  end.

Fixpoint dict_pop (k : K) (d : dict) : dict :=
  match d with
  | [] => []
  | (k', v') :: rest => if eqb k k' then rest else (k', v') :: dict_pop k rest
  end.

Definition dict_contains (k : K) (d : dict) : bool :=
  match dict_get k d with Some _ => true | None => false end.

Definition dict_keys (d : dict) : list K := map fst d.
Definition dict_values (d : dict) : list V := map snd d.

(** What being a dictionary means: no key twice. *)
Definition dict_ok (d : dict) : Prop := NoDup (dict_keys d).
End Dict.

Arguments dict K V : clear implicits.

(** ** Outcomes and the method monad *)

(** Modelled from the spec: the helpers of [app.services.util]
    ([reminder_not_found_error], [slot_not_available_error],
    [event_not_found_error], [date_lower_than_today_error]) are not part of
    the sources at hand; each "aborts the in-progress operation
    immediately", that is, raises the error of its name. [KeyError] is
    Python's own, for a subscript on a missing key. *)
Inductive error :=
| ReminderNotFound
| SlotNotAvailable
| EventNotFound
| DateLowerThanToday
| KeyError.

Inductive result (A : Type) :=
| Ok (a : A)
| Raise (e : error).
Arguments Ok {A} a.
Arguments Raise {A} e.

(** A method on an object of state [S] returning an [A]: the state after the
    call is always there, also when the call raises. *)
Definition M (S A : Type) : Type := S -> S * result A.

Definition ret {S A} (a : A) : M S A := fun s => (s, Ok a).
Definition raise {S A} (e : error) : M S A := fun s => (s, Raise e).
Definition bind {S A B} (m : M S A) (f : A -> M S B) : M S B :=
  fun s =>
    match m s with
    | (s', Ok a) => f a s'
    | (s', Raise e) => (s', Raise e)
    end.
Definition get {S} : M S S := fun s => (s, Ok s).
Definition put {S} (s : S) : M S unit := fun _ => (s, Ok tt).

Declare Scope method_scope.
Delimit Scope method_scope with method.
Notation "x <- m ;; k" := (bind m (fun x => k))
  (at level 61, m at next level, right associativity) : method_scope.
Notation "m ;; k" := (bind m (fun _ => k))
  (at level 61, right associativity) : method_scope.
Local Open Scope method_scope.

(** [if cond: helper_error()] *)
Definition raise_if {S} (cond : bool) (e : error) : M S unit :=
  if cond then raise e else ret tt.

(** ** [class Reminder] *)

Module Reminder.
Definition EMAIL : string := "email".
Definition SYSTEM : string := "system".

Record t := mk { date_time : datetime; type : string }.
End Reminder.

(** [del l[i]] for an index in range. *)
Fixpoint list_del {A} (i : nat) (l : list A) : list A :=
  match l, i with
  | [], _ => []
  | _ :: rest, O => rest
  | x :: rest, S i' => x :: list_del i' rest
  end.

(** ** [class Event] *)

Module Event.
Record t := mk {
  title : string;
  description : string;
  date_ : date;
  start_at : time;
  end_at : time;
  id : string;
  reminders : list Reminder.t
}.

Definition set_reminders (l : list Reminder.t) (self : t) : t :=
  mk (title self) (description self) (date_ self) (start_at self)
     (end_at self) (id self) l.

Definition add_reminder (date_time : datetime) (type_ : string) : M t unit :=
  fun self =>
    (set_reminders (reminders self ++ [Reminder.mk date_time type_]) self,
     Ok tt).

Definition delete_reminder (reminder_index : Z) : M t unit :=
  fun self =>
    if (0 <=? reminder_index)
       && (reminder_index <? Z.of_nat (List.length (reminders self)))
    then (set_reminders (list_del (Z.to_nat reminder_index) (reminders self))
                        self, Ok tt)
    else (self, Raise ReminderNotFound).
End Event.

(** ** [class Day] *)

(** A slot value: [None] or an event id. *)
Abbreviation slot_value := (option string).

(** [saved_id == event_id] *)
Definition is_id (saved_id : slot_value) (event_id : string) : bool :=
  match saved_id with
  | Some s => String.eqb s event_id
  | None => false
  end.

(** [v is not None] *)
Definition is_not_none (v : slot_value) : bool :=
  match v with Some _ => true | None => false end.

(** The truth value of [v] in [if v:]: [None] and the empty string are
    false. *)
Definition truthy (v : slot_value) : bool :=
  match v with
  | Some s => negb (String.eqb s "")
  | None => false
  end.

(** [start_at <= slot < end_at] *)
Definition in_range (start_at end_at slot : time) : bool :=
  time_leb start_at slot && time_ltb slot end_at.

Module Day.
Record t := mk { date_ : date; slots : dict time slot_value }.

(** [self.slots[slot]] and [self.slots[slot] = v] *)
Definition getitem (slot : time) : M t slot_value :=
  fun self =>
    match dict_get slot (slots self) with
    | Some v => (self, Ok v)
    | None => (self, Raise KeyError)
    end.

Definition setitem (slot : time) (v : slot_value) : M t unit :=
  fun self => (mk (date_ self) (dict_set slot v (slots self)), Ok tt).

(** The [while] loop of [_init_slots]; [fuel] bounds the number of
    iterations, [None] when it does not suffice. *)
Fixpoint _init_slots_loop (fuel : nat) (slot_time : time)
    (slots : dict time slot_value) : option (dict time slot_value) :=
  match fuel with
  | O => None
  | S fuel' =>
      if time_ltb slot_time (time_of 23 45)
      then _init_slots_loop fuel' (time_plus_minutes slot_time 15)
                            (dict_set slot_time None slots)
      else Some slots
  end.

Definition _init_slots (fuel : nat) : option (dict time slot_value) :=
  _init_slots_loop fuel (time_of 0 0) [].

(** The loop leaves after 95 iterations: fuel 96 suffices, less does not,
    and more changes nothing ([_init_slots_total], [_init_slots_short]). *)
Definition init_fuel : nat := 96.

(** [Day(date_)]; the [None] branch is never taken. *)
Definition init (date_ : date) : t :=
  mk date_ (match _init_slots init_fuel with Some s => s | None => [] end).

(** The body of [add_event], over the keys of [self.slots] in order. *)
Fixpoint add_event_loop (event_id : string) (start_at end_at : time)
    (keys : list time) : M t unit :=
  match keys with
  | [] => ret tt
  | slot :: rest =>
      if in_range start_at end_at slot
      then v <- getitem slot ;;
           raise_if (is_not_none v) SlotNotAvailable ;;
           setitem slot (Some event_id) ;;
           add_event_loop event_id start_at end_at rest
      else add_event_loop event_id start_at end_at rest
  end.

Definition add_event (event_id : string) (start_at end_at : time) : M t unit :=
  self <- get ;;
  add_event_loop event_id start_at end_at (dict_keys (slots self)).

(** The loop of [delete_event]; [deleted] is the flag of the source. *)
Fixpoint delete_event_loop (event_id : string) (keys : list time)
    (deleted : bool) : M t bool :=
  match keys with
  | [] => ret deleted
  | slot :: rest =>
      saved_id <- getitem slot ;;
      if is_id saved_id event_id
      then setitem slot None ;; delete_event_loop event_id rest true
      else delete_event_loop event_id rest deleted
  end.

Definition delete_event (event_id : string) : M t unit :=
  self <- get ;;
  deleted <- delete_event_loop event_id (dict_keys (slots self)) false ;;
  raise_if (negb deleted) EventNotFound.

(** The two loops of [update_event]. *)
Fixpoint update_event_clear (event_id : string) (keys : list time) : M t unit :=
  match keys with
  | [] => ret tt
  | slot :: rest =>
      v <- getitem slot ;;
      if is_id v event_id
      then setitem slot None ;; update_event_clear event_id rest
      else update_event_clear event_id rest
  end.

Fixpoint update_event_book (event_id : string) (start_at end_at : time)
    (keys : list time) : M t unit :=
  match keys with
  | [] => ret tt
  | slot :: rest =>
      if in_range start_at end_at slot
      then v <- getitem slot ;;
           (if truthy v
            then raise SlotNotAvailable
            else setitem slot (Some event_id)) ;;
           update_event_book event_id start_at end_at rest
      else update_event_book event_id start_at end_at rest
  end.

Definition update_event (event_id : string) (start_at end_at : time)
    : M t unit :=
  self <- get ;;
  update_event_clear event_id (dict_keys (slots self)) ;;
  self <- get ;;
  update_event_book event_id start_at end_at (dict_keys (slots self)).

(** [event_id in self.slots.values()] *)
Definition holds (event_id : string) (self : t) : bool :=
  existsb (fun v => is_id v event_id) (dict_values (slots self)).
End Day.

(** ** [class Calendar] *)

Module Calendar.
Record t := mk {
  days : dict date Day.t;
  events : dict string Event.t
}.

(** [Calendar()] *)
Definition init : t := mk [] [].

(** [self.days[date_] = day] and [self.events[event_id] = event] *)
Definition set_day (date_ : date) (day : Day.t) : M t unit :=
  fun self => (mk (dict_set date_ day (days self)) (events self), Ok tt).

Definition set_event (event_id : string) (event : Event.t) : M t unit :=
  fun self => (mk (days self) (dict_set event_id event (events self)), Ok tt).

(** [self.events.pop(event_id)] for a key that is present *)
Definition pop_event (event_id : string) : M t unit :=
  fun self => (mk (days self) (dict_pop event_id (events self)), Ok tt).

(** [self.days[date_].method(...)]: the [Day] object is looked up and
    mutated where it is stored, whatever the outcome of the method. *)
Definition on_day {A} (date_ : date) (method : M Day.t A) : M t A :=
  fun self =>
    match dict_get date_ (days self) with
    | None => (self, Raise KeyError)
    | Some day =>
        let (day', r) := method day in
        (mk (dict_set date_ day' (days self)) (events self), r)
    end.

(** [day] of [for day in self.days.values()], reached through its key. *)
Definition get_day (date_ : date) : M t Day.t :=
  fun self =>
    match dict_get date_ (days self) with
    | None => (self, Raise KeyError)
    | Some day => (self, Ok day)
    end.

(** The same for an [Event] object of the registry. *)
Definition on_event {A} (event_id : string) (method : M Event.t A) : M t A :=
  fun self =>
    match dict_get event_id (events self) with
    | None => (self, Raise KeyError)
    | Some event =>
        let (event', r) := method event in
        (mk (days self) (dict_set event_id event' (events self)), r)
    end.

(** [if date_ not in self.days: self.days[date_] = Day(date_)] *)
Definition ensure_day (date_ : date) : M t unit :=
  self <- get ;;
  if negb (dict_contains date_ (days self))
  then set_day date_ (Day.init date_)
  else ret tt.

(** [today] is the value of [datetime.now().date()] at the call, and
    [new_id] the string that [generate_unique_id()] returns for the new
    [Event]; the generator is called only once the date test has
    passed. *)
Definition add_event (today : date) (new_id : string)
    (title description : string) (date_ : date) (start_at end_at : time)
    : M t string :=
  raise_if (date_ltb date_ today) DateLowerThanToday ;;
  ensure_day date_ ;;
  let event := Event.mk title description date_ start_at end_at new_id [] in
  on_day date_ (Day.add_event (Event.id event) start_at end_at) ;;
  set_event (Event.id event) event ;;
  ret (Event.id event).

Definition add_reminder (event_id : string) (date_time : datetime)
    (type_ : string) : M t unit :=
  self <- get ;;
  match dict_get event_id (events self) with
  | None => raise EventNotFound
  | Some _ => on_event event_id (Event.add_reminder date_time type_)
  end.

Definition find_available_slots (date_ : date) (self : t) : list time :=
  match dict_get date_ (days self) with
  | Some day =>
      map fst (filter (fun item => negb (is_not_none (snd item)))
                      (Day.slots day))
  | None => []
  end.

(** The loop of [delete_event] over [self.days.values()], in the order of
    the dictionary; each [Day] is reached through its key. The first
    branch ends the loop ([break]). *)
Fixpoint delete_event_loop (event_id : string) (keys : list date) : M t unit :=
  match keys with
  | [] => ret tt
  | d :: rest =>
      day <- get_day d ;;
      if Day.holds event_id day
      then on_day d (Day.delete_event event_id)
      else delete_event_loop event_id rest
  end.

Definition delete_event (event_id : string) : M t unit :=
  self <- get ;;
  raise_if (negb (dict_contains event_id (events self))) EventNotFound ;;
  pop_event event_id ;;
  delete_event_loop event_id (dict_keys (days self)).

(** The closing loop of [update_event]; [event_id'] is [event.id]. *)
Fixpoint update_event_loop (is_new_date : bool) (event_id event_id' : string)
    (start_at end_at : time) (keys : list date) : M t unit :=
  match keys with
  | [] => ret tt
  | d :: rest =>
      day <- get_day d ;;
      (if negb is_new_date && Day.holds event_id day
       then on_day d (Day.delete_event event_id') ;;
            on_day d (Day.update_event event_id' start_at end_at)
       else ret tt) ;;
      update_event_loop is_new_date event_id event_id' start_at end_at rest
  end.

Definition update_event (event_id : string) (title description : string)
    (date_ : date) (start_at end_at : time) : M t unit :=
  self <- get ;;
  match dict_get event_id (events self) with
  | None => raise EventNotFound
  | Some event =>
      let is_new_date := negb (date_eqb (Event.date_ event) date_) in
      event' <-
        (if is_new_date
         then delete_event event_id ;;
              let event :=
                Event.mk title description date_ start_at end_at event_id [] in
              set_event event_id event ;;
              ensure_day date_ ;;
              on_day date_ (Day.add_event event_id start_at end_at) ;;
              ret event
         else let event :=
                Event.mk title description date_ start_at end_at
                         (Event.id event) (Event.reminders event) in
              set_event event_id event ;;
              ret event) ;;
      self <- get ;;
      update_event_loop is_new_date event_id (Event.id event') start_at end_at
                        (dict_keys (days self))
  end.

Definition find_events (start_at end_at : date) (self : t)
    : dict date (list Event.t) :=
  fold_left
    (fun acc item =>
       let event := snd item in
       if negb (date_ltb (Event.date_ event) start_at)
          && negb (date_ltb end_at (Event.date_ event))
       then dict_set (Event.date_ event)
              (match dict_get (Event.date_ event) acc with
               | Some l => l ++ [event]
               | None => [event]
               end) acc
       else acc)
    (events self) [].

Definition delete_reminder (event_id : string) (reminder_index : Z) : M t unit :=
  self <- get ;;
  match dict_get event_id (events self) with
  | None => raise EventNotFound
  | Some _ => on_event event_id (Event.delete_reminder reminder_index)
  end.

Definition list_reminders (event_id : string) : M t (list Reminder.t) :=
  self <- get ;;
  match dict_get event_id (events self) with
  | None => raise EventNotFound
  | Some event => ret (Event.reminders event)
  end.
End Calendar.

(** ** What the loops compute

    The loops of [Day] reach every slot through its key. On a dictionary
    (no key twice) each of them is one pass over the items; the functions
    below are those passes, and the loops are shown equal to them further
    down. *)

(** The item after [self.slots[slot] = event_id] for a slot of the range. *)
Definition assign (event_id : string) (start_at end_at : time)
    (item : time * slot_value) : time * slot_value :=
  if in_range start_at end_at (fst item) then (fst item, Some event_id) else item.

(** The item after [self.slots[slot] = None] for a slot holding [event_id]. *)
Definition clear (event_id : string) (item : time * slot_value)
    : time * slot_value :=
  if is_id (snd item) event_id then (fst item, None) else item.

(** One pass of [Day.add_event]: stops at the first occupied slot of the
    range. *)
Fixpoint book (event_id : string) (start_at end_at : time)
    (items : dict time slot_value) : dict time slot_value * result unit :=
  match items with
  | [] => ([], Ok tt)
  | (slot, v) :: rest =>
      if in_range start_at end_at slot
      then if is_not_none v
           then ((slot, v) :: rest, Raise SlotNotAvailable)
           else let (rest', r) := book event_id start_at end_at rest in
                ((slot, Some event_id) :: rest', r)
      else let (rest', r) := book event_id start_at end_at rest in
           ((slot, v) :: rest', r)
  end.

(** One pass of the second loop of [Day.update_event]. *)
Fixpoint rebook (event_id : string) (start_at end_at : time)
    (items : dict time slot_value) : dict time slot_value * result unit :=
  match items with
  | [] => ([], Ok tt)
  | (slot, v) :: rest =>
      if in_range start_at end_at slot
      then if truthy v
           then ((slot, v) :: rest, Raise SlotNotAvailable)
           else let (rest', r) := rebook event_id start_at end_at rest in
                ((slot, Some event_id) :: rest', r)
      else let (rest', r) := rebook event_id start_at end_at rest in
           ((slot, v) :: rest', r)
  end.

(** The slot grid of a new [Day]: item [i] is the [i]-th quarter of an
    hour after midnight, free. *)
Definition quarter (i : nat) : time :=
  time_of (Z.of_nat i / 4) (15 * (Z.of_nat i mod 4)).

Definition grid : dict time slot_value :=
  map (fun i => (quarter i, None)) (seq 0 95).

(** A time of day on the quarter-hour grid and strictly below 23:45. *)
Definition is_slot_time (t : time) : bool :=
  (0 <=? hour t) && (hour t <=? 23)
  && ((minute t =? 0) || (minute t =? 15) || (minute t =? 30) || (minute t =? 45))
  && (second t =? 0) && (microsecond t =? 0)
  && time_ltb t (time_of 23 45).

(** Every slot of the range [start_at..end_at) is free in [items]. *)
Definition range_free (start_at end_at : time) (items : dict time slot_value)
    : Prop :=
  forall slot v, In (slot, v) items -> in_range start_at end_at slot = true ->
                 v = None.

(** The [Day] after every slot holding [event_id] has been set free, and
    after every slot of the range has been given to [event_id]. *)
Definition cleared (event_id : string) (day : Day.t) : Day.t :=
  Day.mk (Day.date_ day) (map (clear event_id) (Day.slots day)).

Definition booked (event_id : string) (start_at end_at : time) (day : Day.t)
    : Day.t :=
  Day.mk (Day.date_ day) (map (assign event_id start_at end_at) (Day.slots day)).

(** One pass of the loop of [Calendar.delete_event]: the first [Day] that
    holds [event_id] is cleared, and the loop ends there. *)
Fixpoint clear_first (event_id : string) (days : dict date Day.t)
    : dict date Day.t :=
  match days with
  | [] => []
  | (d, day) :: rest =>
      if Day.holds event_id day
      then (d, cleared event_id day) :: rest
      else (d, day) :: clear_first event_id rest
  end.

(** One pass of the closing loop of [Calendar.update_event] when the date
    is unchanged. *)
Fixpoint rebook_days (event_id event_id' : string) (start_at end_at : time)
    (days : dict date Day.t) : dict date Day.t * result unit :=
  match days with
  | [] => ([], Ok tt)
  | (d, day) :: rest =>
      if Day.holds event_id day
      then match Day.delete_event event_id' day with
           | (day1, Raise e) => ((d, day1) :: rest, Raise e)
           | (day1, Ok _) =>
               match Day.update_event event_id' start_at end_at day1 with
               | (day2, Raise e) => ((d, day2) :: rest, Raise e)
               | (day2, Ok _) =>
                   let (rest', r) :=
                     rebook_days event_id event_id' start_at end_at rest in
                   ((d, day2) :: rest', r)
               end
           end
      else let (rest', r) :=
             rebook_days event_id event_id' start_at end_at rest in
           ((d, day) :: rest', r)
  end.

(** The [Day] that [Calendar.add_event] books into: the one recorded for
    the date, or a new one. *)
Definition day_or_new (date_ : date) (days : dict date Day.t) : Day.t :=
  match dict_get date_ days with
  | Some day => day
  | None => Day.init date_
  end.

(** The dictionaries of a [Calendar] are dictionaries. *)
Definition days_ok (days : dict date Day.t) : Prop :=
  dict_ok days /\ forall d day, In (d, day) days -> dict_ok (Day.slots day).

Definition Calendar_ok (c : Calendar.t) : Prop :=
  days_ok (Calendar.days c) /\ dict_ok (Calendar.events c).

(** No [Day] of [days] holds [event_id]. *)
Definition unbooked (event_id : string) (days : dict date Day.t) : Prop :=
  forall d day, In (d, day) days -> Day.holds event_id day = false.

#[global] Arguments Day.init : simpl never.

(** ** Calendars reached through the public operations *)

(** A call of one of the operations that change a [Calendar]. For
    [AddEvent], [today] and [new_id] are what the clock and
    [generate_unique_id] give at that call. *)
Inductive call :=
| AddEvent (today : date) (new_id title description : string) (date_ : date)
    (start_at end_at : time)
| AddReminder (event_id : string) (date_time : datetime) (type_ : string)
| UpdateEvent (event_id title description : string) (date_ : date)
    (start_at end_at : time)
| DeleteEvent (event_id : string)
| DeleteReminder (event_id : string) (reminder_index : Z).

(** The error a call ended with, if any. *)
Definition error_of {A} (r : result A) : option error :=
  match r with
  | Ok _ => None
  | Raise e => Some e
  end.

(** The [Calendar] after the call, and the error raised if any: the
    [Calendar] object outlives a call that raises. *)
Definition run_call (c : call) (self : Calendar.t) : Calendar.t * option error :=
  match c with
  | AddEvent today new_id title description date_ start_at end_at =>
      let (self', r) :=
        Calendar.add_event today new_id title description date_ start_at end_at
                           self in
      (self', error_of r)
  | AddReminder event_id date_time type_ =>
      let (self', r) := Calendar.add_reminder event_id date_time type_ self in
      (self', error_of r)
  | UpdateEvent event_id title description date_ start_at end_at =>
      let (self', r) :=
        Calendar.update_event event_id title description date_ start_at end_at
                              self in
      (self', error_of r)
  | DeleteEvent event_id =>
      let (self', r) := Calendar.delete_event event_id self in
      (self', error_of r)
  | DeleteReminder event_id reminder_index =>
      let (self', r) := Calendar.delete_reminder event_id reminder_index self in
      (self', error_of r)
  end.

(** The ids that [generate_unique_id] hands out during the call. *)
Definition generates (c : call) : list string :=
  match c with
  | AddEvent today new_id _ _ date_ _ _ =>
      if date_ltb date_ today then [] else [new_id]
  | _ => []
  end.

(** Modelled from the spec: [generate_unique_id] of [app.services.util] is
    not part of the sources at hand; it "produces a globally unique
    identifier", so an id handed out differs from every id handed out
    before. [reachable_by allowed generated self]: [self] is reached from
    [Calendar()] by calls whose outcomes are all [allowed], [generated]
    being the ids handed out on the way. *)
Inductive reachable_by (allowed : call -> option error -> Prop)
    : list string -> Calendar.t -> Prop :=
| reachable_init : reachable_by allowed [] Calendar.init
| reachable_call generated self c self' err :
    reachable_by allowed generated self ->
    (forall id, In id (generates c) -> ~ In id generated) ->
    run_call c self = (self', err) ->
    allowed c err ->
    reachable_by allowed (generates c ++ generated) self'.

(** Any sequence of calls, whatever their outcomes. *)
Definition reachable : list string -> Calendar.t -> Prop :=
  reachable_by (fun _ _ => True).

(** An [add_event] that failed with [SlotNotAvailable]. *)
Definition failed_booking (c : call) (err : option error) : Prop :=
  match c with
  | AddEvent _ _ _ _ _ _ _ => err = Some SlotNotAvailable
  | _ => False
  end.

(** Every event id stored in a slot of a [Day] is a key of [events]. *)
Definition slots_registered (self : Calendar.t) : Prop :=
  forall d day slot id,
    In (d, day) (Calendar.days self) ->
    In (slot, Some id) (Day.slots day) ->
    In id (dict_keys (Calendar.events self)).

(** Every event id stored in a slot of the [Day] of [d] is that of a
    registered event of date [d]. *)
Definition slots_dated (self : Calendar.t) : Prop :=
  forall d day slot id,
    In (d, day) (Calendar.days self) ->
    In (slot, Some id) (Day.slots day) ->
    exists event,
      dict_get id (Calendar.events self) = Some event
      /\ Event.date_ event = d.

(** An event is registered under its own id. *)
Definition ids_match (self : Calendar.t) : Prop :=
  forall id event,
    dict_get id (Calendar.events self) = Some event -> Event.id event = id.

Definition registered_generated (generated : list string) (self : Calendar.t)
    : Prop :=
  forall id, In id (dict_keys (Calendar.events self)) -> In id generated.

Definition Calendar_inv (generated : list string) (self : Calendar.t) : Prop :=
  Calendar_ok self /\ slots_dated self /\ ids_match self
  /\ registered_generated generated self.

(** [range_free], decided. *)
Definition range_freeb (start_at end_at : time) (items : dict time slot_value)
    : bool :=
  forallb (fun item => negb (in_range start_at end_at (fst item))
                       || negb (is_not_none (snd item)))
          items.

(** ** A small scenario

    A meeting from 10:00 to 10:30, then a booking from 09:45 to 10:15 that
    clashes with it, on the same day. *)

Definition tuesday : date := mk_date 2026 11 3.
Definition wednesday : date := mk_date 2026 11 4.

Definition meeting : call :=
  AddEvent tuesday "A" "Meeting" "Weekly" tuesday (time_of 10 0) (time_of 10 30).

Definition clash : call :=
  AddEvent tuesday "B" "Review" "Code" tuesday (time_of 9 45) (time_of 10 15).

Definition after_meeting : Calendar.t := fst (run_call meeting Calendar.init).
Definition after_clash : Calendar.t := fst (run_call clash after_meeting).

(** The [Day] of the meeting. *)
Definition meeting_day : Day.t :=
  booked "A" (time_of 10 0) (time_of 10 30) (Day.init tuesday).

(** The meeting with two reminders. *)
Definition reminded : Event.t :=
  Event.mk "Meeting" "Weekly" tuesday (time_of 10 0) (time_of 10 30) "A"
    [Reminder.mk (mk_datetime tuesday (time_of 9 0)) Reminder.EMAIL;
     Reminder.mk (mk_datetime tuesday (time_of 9 45)) Reminder.SYSTEM].

(** A reminder for the meeting, then the meeting moved to the next day. *)
Definition remind : call :=
  AddReminder "A" (mk_datetime tuesday (time_of 9 0)) Reminder.EMAIL.

Definition move : call :=
  UpdateEvent "A" "Meeting" "Moved" wednesday (time_of 14 0) (time_of 15 0).

Definition after_remind : Calendar.t := fst (run_call remind after_meeting).
Definition after_move : Calendar.t := fst (run_call move after_remind).

(** ** Further notions used by the properties *)

(** Every slot of the range [start_at..end_at) counts as free in [if v:],
    once the slots of [event_id] have been set free: it holds nothing, or
    [event_id], or the empty string. *)
Definition range_vacant (event_id : string) (start_at end_at : time)
    (items : dict time slot_value) : Prop :=
  forall slot v, In (slot, v) items -> in_range start_at end_at slot = true ->
                 v = None \/ v = Some event_id \/ v = Some EmptyString.

(** [start_at <= d <= end_at] on dates, as in [find_events]. *)
Definition in_window (start_at end_at d : date) : bool :=
  negb (date_ltb d start_at) && negb (date_ltb end_at d).

(** The events of date [d] in a list, in order. *)
Definition events_on (d : date) (events : list Event.t) : list Event.t :=
  filter (fun event => date_eqb (Event.date_ event) d) events.

(** A [Day] has the keys of the slot grid and the date it is stored under. *)
Definition days_grid (days : dict date Day.t) : Prop :=
  forall d day, In (d, day) days ->
    dict_keys (Day.slots day) = dict_keys grid /\ Day.date_ day = d.

(** The id of a registered event is found only in the [Day] of its date. *)
Definition registered_dated (self : Calendar.t) : Prop :=
  forall d day slot id event,
    In (d, day) (Calendar.days self) ->
    In (slot, Some id) (Day.slots day) ->
    dict_get id (Calendar.events self) = Some event ->
    Event.date_ event = d.

(** Every id found in a slot was handed out by the generator. *)
Definition slots_generated (generated : list string) (self : Calendar.t)
    : Prop :=
  forall d day slot id,
    In (d, day) (Calendar.days self) ->
    In (slot, Some id) (Day.slots day) ->
    In id generated.

(** What every reachable [Calendar] satisfies, failed calls included. *)
Definition Calendar_sound (generated : list string) (self : Calendar.t)
    : Prop :=
  Calendar_ok self /\ days_grid (Calendar.days self) /\ ids_match self
  /\ registered_generated generated self /\ slots_generated generated self
  /\ registered_dated self.

(** One turn of the loop of [Calendar.find_events]. *)
Definition find_events_step (start_at end_at : date)
    (acc : dict date (list Event.t)) (item : string * Event.t)
    : dict date (list Event.t) :=
  let event := snd item in
  if negb (date_ltb (Event.date_ event) start_at)
     && negb (date_ltb end_at (Event.date_ event))
  then dict_set (Event.date_ event)
         (match dict_get (Event.date_ event) acc with
          | Some l => l ++ [event]
          | None => [event]
          end) acc
  else acc.

(** A slot listed by [find_available_slots]. *)
Definition is_free (item : time * slot_value) : bool :=
  negb (is_not_none (snd item)).

(** An event whose range covers no slot, and a second day with a review at
    the time of the meeting. *)
Definition idle : Calendar.t :=
  fst (run_call (AddEvent tuesday "C" "Idle" "Nothing" tuesday
                   (time_of 12 0) (time_of 12 0)) Calendar.init).

Definition two_days : Calendar.t :=
  fst (run_call (AddEvent tuesday "B" "Review" "Code" wednesday
                   (time_of 10 0) (time_of 10 30)) after_remind).

(** The meeting as registered, before and after the reminder. *)
Definition meeting_event : Event.t :=
  Event.mk "Meeting" "Weekly" tuesday (time_of 10 0) (time_of 10 30) "A" [].

Definition meeting_reminded : Event.t :=
  Event.mk "Meeting" "Weekly" tuesday (time_of 10 0) (time_of 10 30) "A"
    [Reminder.mk (mk_datetime tuesday (time_of 9 0)) Reminder.EMAIL].

(** * Properties *)

(** ** Equality on keys *)

Lemma date_eqb_eq (a b : date) : date_eqb a b = true <-> a = b.
Proof.
  destruct a, b; unfold date_eqb; simpl.
  rewrite !andb_true_iff, !Z.eqb_eq. split.
  - intros [[-> ->] ->]. reflexivity.
  - intros E. injection E as -> -> ->. auto.
Qed.

Lemma time_eqb_eq (a b : time) : time_eqb a b = true <-> a = b.
Proof.
  destruct a, b; unfold time_eqb; simpl.
  rewrite !andb_true_iff, !Z.eqb_eq. split.
  - intros [[[-> ->] ->] ->]. reflexivity.
  - intros E. injection E as -> -> -> ->. auto.
Qed.

#[export] Instance EqBLaws_string : EqBLaws string.
Proof. constructor. exact String.eqb_eq. Qed.

#[export] Instance EqBLaws_date : EqBLaws date.
Proof. constructor. exact date_eqb_eq. Qed.

#[export] Instance EqBLaws_time : EqBLaws time.
Proof. constructor. exact time_eqb_eq. Qed.

Section KeyFacts.
Context {K : Type} `{EqBLaws K}.

Lemma eqb_refl (a : K) : eqb a a = true.
Proof. now apply eqb_eq. Qed.

Lemma eqb_neq (a b : K) : eqb a b = false <-> a <> b.
Proof.
  split.
  - intros E Heq. apply eqb_eq in Heq. congruence.
  - intros N. destruct (eqb a b) eqn:E; [apply eqb_eq in E; contradiction | reflexivity].
Qed.

End KeyFacts.

(** ** Dictionaries *)

Section DictFacts.
Context {K V : Type} `{EqBLaws K}.
Implicit Types (d pre post : dict K V) (k : K) (v : V).

Lemma dict_get_set_same k v d : dict_get k (dict_set k v d) = Some v.
Proof.
  induction d as [|[k' v'] d IH]; simpl.
  - now rewrite eqb_refl.
  - destruct (eqb k k') eqn:E; simpl; rewrite E; auto.
Qed.

Lemma dict_get_set_other k k' v d :
  k <> k' -> dict_get k' (dict_set k v d) = dict_get k' d.
Proof.
  intros N. induction d as [|[k0 v0] d IH]; simpl.
  - assert (E : eqb k' k = false) by (apply eqb_neq; congruence). now rewrite E.
  - destruct (eqb k k0) eqn:E; simpl.
    + apply eqb_eq in E. subst k0.
      assert (E : eqb k' k = false) by (apply eqb_neq; congruence).
      now rewrite E.
    + now rewrite IH.
Qed.

Lemma dict_get_In k v d : dict_get k d = Some v -> In (k, v) d.
Proof.
  induction d as [|[k' v'] d IH]; simpl; [discriminate|].
  destruct (eqb k k') eqn:E.
  - apply eqb_eq in E. subst. intros [= ->]. now left.
  - intros G. right. auto.
Qed.

Lemma dict_get_None k d : dict_get k d = None <-> ~ In k (dict_keys d).
Proof.
  induction d as [|[k' v'] d IH]; simpl; [tauto|].
  destruct (eqb k k') eqn:E.
  - apply eqb_eq in E. subst. split; [discriminate | intros N; exfalso; auto].
  - apply eqb_neq in E. rewrite IH. intuition congruence.
Qed.

Lemma dict_get_Some_key k v d : dict_get k d = Some v -> In k (dict_keys d).
Proof. intros G. apply dict_get_In in G. now apply (in_map fst) in G. Qed.

Lemma In_dict_get k v d : dict_ok d -> In (k, v) d -> dict_get k d = Some v.
Proof.
  unfold dict_ok. induction d as [|[k' v'] d IH]; simpl; [tauto|].
  intros ND [E|I]; inversion ND as [|? ? N ND']; subst.
  - injection E as -> ->. now rewrite eqb_refl.
  - destruct (eqb k k') eqn:E; [|auto].
    apply eqb_eq in E. subst. exfalso. apply N.
    now apply (in_map fst) in I.
Qed.

Lemma dict_get_app_mid k v pre post :
  ~ In k (dict_keys pre) -> dict_get k (pre ++ (k, v) :: post) = Some v.
Proof.
  induction pre as [|[k' v'] pre IH]; simpl; intros N.
  - now rewrite eqb_refl.
  - assert (E : eqb k k' = false) by (apply eqb_neq; intros ->; auto).
    rewrite E. auto.
Qed.

Lemma dict_set_app_mid k v v' pre post :
  ~ In k (dict_keys pre) ->
  dict_set k v' (pre ++ (k, v) :: post) = pre ++ (k, v') :: post.
Proof.
  induction pre as [|[k0 v0] pre IH]; simpl; intros N.
  - now rewrite eqb_refl.
  - assert (E : eqb k k0 = false) by (apply eqb_neq; intros ->; auto).
    rewrite E. f_equal. auto.
Qed.

Lemma dict_keys_app pre post :
  dict_keys (pre ++ post) = dict_keys pre ++ dict_keys post.
Proof. apply map_app. Qed.

Lemma dict_keys_set_present k v d :
  In k (dict_keys d) -> dict_keys (dict_set k v d) = dict_keys d.
Proof.
  induction d as [|[k' v'] d IH]; simpl; [tauto|].
  intros I. destruct (eqb k k') eqn:E; simpl; [reflexivity|].
  f_equal. apply IH. destruct I as [->|I]; [|exact I].
  rewrite eqb_refl in E. discriminate.
Qed.

Lemma dict_keys_set_absent k v d :
  ~ In k (dict_keys d) -> dict_keys (dict_set k v d) = dict_keys d ++ [k].
Proof.
  induction d as [|[k' v'] d IH]; simpl; intros N; [reflexivity|].
  assert (E : eqb k k' = false) by (apply eqb_neq; intros ->; auto).
  rewrite E. simpl. f_equal. auto.
Qed.

Lemma dict_ok_set k v d : dict_ok d -> dict_ok (dict_set k v d).
Proof.
  unfold dict_ok. intros ND.
  destruct (in_dec (fun a b => match eqb a b as c return eqb a b = c -> _ with
                               | true => fun E => left (proj1 (eqb_eq a b) E)
                               | false => fun E => right (proj1 (eqb_neq a b) E)
                               end eq_refl) k (dict_keys d)) as [I|N].
  - now rewrite dict_keys_set_present.
  - rewrite dict_keys_set_absent by exact N.
    apply NoDup_app; [exact ND | repeat constructor; auto | ].
    intros a Ia [<-|[]]. contradiction.
Qed.

Lemma In_dict_pop k k' v d : In (k', v) (dict_pop k d) -> In (k', v) d.
Proof.
  induction d as [|[k0 v0] d IH]; simpl; [tauto|].
  destruct (eqb k k0); simpl; intuition.
Qed.

Lemma dict_ok_pop k d : dict_ok d -> dict_ok (dict_pop k d).
Proof.
  unfold dict_ok. induction d as [|[k0 v0] d IH]; simpl; intros ND; [exact ND|].
  inversion ND as [|? ? N ND']; subst.
  destruct (eqb k k0); simpl; [exact ND'|].
  constructor; [|auto].
  intros I. apply N. apply in_map_iff in I. destruct I as ([a b] & <- & I).
  apply In_dict_pop in I. now apply (in_map fst) in I.
Qed.

Lemma dict_get_pop_same k d : dict_ok d -> dict_get k (dict_pop k d) = None.
Proof.
  unfold dict_ok. induction d as [|[k0 v0] d IH]; simpl; intros ND; [reflexivity|].
  inversion ND as [|? ? N ND']; subst.
  destruct (eqb k k0) eqn:E; simpl.
  - apply eqb_eq in E. subst. now apply dict_get_None.
  - rewrite E. auto.
Qed.

Lemma dict_get_pop_other k k' d :
  k <> k' -> dict_get k' (dict_pop k d) = dict_get k' d.
Proof.
  intros N. induction d as [|[k0 v0] d IH]; simpl; [reflexivity|].
  destruct (eqb k k0) eqn:E; simpl.
  - apply eqb_eq in E. subst.
    assert (E : eqb k' k0 = false) by (apply eqb_neq; congruence). now rewrite E.
  - now rewrite IH.
Qed.
End DictFacts.

(** ** The loops of [Day] as passes over the items *)

Ltac run :=
  unfold bind, get, put, ret, raise, raise_if, Day.getitem, Day.setitem; simpl.

Lemma keys_mid_notin {K V} (pre : dict K V) k v post :
  NoDup (dict_keys (pre ++ (k, v) :: post)) -> ~ In k (dict_keys pre).
Proof.
  rewrite dict_keys_app. simpl. intros ND I.
  apply NoDup_remove_2 in ND. apply ND. apply in_or_app. now left.
Qed.

Lemma keys_mid_swap {K V} (pre : dict K V) k v v' post :
  NoDup (dict_keys (pre ++ (k, v) :: post)) ->
  NoDup (dict_keys ((pre ++ [(k, v')]) ++ post)).
Proof. now rewrite <- app_assoc, !dict_keys_app. Qed.

Lemma add_event_loop_book event_id start_at end_at dt items : forall pre,
  NoDup (dict_keys (pre ++ items)) ->
  Day.add_event_loop event_id start_at end_at (dict_keys items)
    (Day.mk dt (pre ++ items))
  = (Day.mk dt (pre ++ fst (book event_id start_at end_at items)),
     snd (book event_id start_at end_at items)).
Proof.
  induction items as [|[slot v] rest IH]; intros pre ND; simpl.
  - reflexivity.
  - pose proof (keys_mid_notin _ _ _ _ ND) as N.
    destruct (in_range start_at end_at slot) eqn:R.
    + run. rewrite dict_get_app_mid by exact N.
      destruct v as [x|]; simpl; [reflexivity|].
      rewrite dict_set_app_mid by exact N.
      specialize (IH (pre ++ [(slot, Some event_id)])
                     (keys_mid_swap _ _ _ _ _ ND)).
      rewrite <- !app_assoc in IH. simpl in IH. rewrite IH.
      now destruct (book event_id start_at end_at rest) as [rest' r].
    + specialize (IH (pre ++ [(slot, v)]) (keys_mid_swap _ _ _ _ _ ND)).
      rewrite <- !app_assoc in IH. simpl in IH. rewrite IH.
      now destruct (book event_id start_at end_at rest) as [rest' r].
Qed.

Lemma Day_add_event_book event_id start_at end_at self :
  dict_ok (Day.slots self) ->
  Day.add_event event_id start_at end_at self
  = (Day.mk (Day.date_ self) (fst (book event_id start_at end_at (Day.slots self))),
     snd (book event_id start_at end_at (Day.slots self))).
Proof.
  intros OK. destruct self as [dt items]. unfold Day.add_event. run.
  exact (add_event_loop_book event_id start_at end_at dt items [] OK).
Qed.

Lemma delete_event_loop_clear event_id dt items : forall pre deleted,
  NoDup (dict_keys (pre ++ items)) ->
  Day.delete_event_loop event_id (dict_keys items) deleted
    (Day.mk dt (pre ++ items))
  = (Day.mk dt (pre ++ map (clear event_id) items),
     Ok (deleted || existsb (fun v => is_id v event_id) (dict_values items))).
Proof.
  induction items as [|[slot v] rest IH]; intros pre deleted ND; simpl.
  - now rewrite orb_false_r.
  - pose proof (keys_mid_notin _ _ _ _ ND) as N.
    run. rewrite dict_get_app_mid by exact N. unfold clear at 1. simpl.
    destruct (is_id v event_id) eqn:I; simpl.
    + rewrite dict_set_app_mid by exact N.
      specialize (IH (pre ++ [(slot, None)]) true (keys_mid_swap _ _ _ _ _ ND)).
      rewrite <- !app_assoc in IH. simpl in IH. rewrite IH.
      now rewrite orb_true_r.
    + specialize (IH (pre ++ [(slot, v)]) deleted (keys_mid_swap _ _ _ _ _ ND)).
      rewrite <- !app_assoc in IH. simpl in IH. now rewrite IH.
Qed.

Lemma Day_delete_event_clear event_id self :
  dict_ok (Day.slots self) ->
  Day.delete_event event_id self
  = (Day.mk (Day.date_ self) (map (clear event_id) (Day.slots self)),
     if Day.holds event_id self then Ok tt else Raise EventNotFound).
Proof.
  intros OK. destruct self as [dt items]. unfold Day.delete_event, Day.holds.
  run. pose proof (delete_event_loop_clear event_id dt items [] false OK) as L.
  simpl in L. rewrite L. simpl.
  now destruct (existsb _ _).
Qed.

Lemma update_event_clear_clear event_id dt items : forall pre,
  NoDup (dict_keys (pre ++ items)) ->
  Day.update_event_clear event_id (dict_keys items) (Day.mk dt (pre ++ items))
  = (Day.mk dt (pre ++ map (clear event_id) items), Ok tt).
Proof.
  induction items as [|[slot v] rest IH]; intros pre ND; simpl.
  - reflexivity.
  - pose proof (keys_mid_notin _ _ _ _ ND) as N.
    run. rewrite dict_get_app_mid by exact N. unfold clear at 1. simpl.
    destruct (is_id v event_id) eqn:I; simpl.
    + rewrite dict_set_app_mid by exact N.
      specialize (IH (pre ++ [(slot, None)]) (keys_mid_swap _ _ _ _ _ ND)).
      rewrite <- !app_assoc in IH. simpl in IH. now rewrite IH.
    + specialize (IH (pre ++ [(slot, v)]) (keys_mid_swap _ _ _ _ _ ND)).
      rewrite <- !app_assoc in IH. simpl in IH. now rewrite IH.
Qed.

Lemma update_event_book_rebook event_id start_at end_at dt items : forall pre,
  NoDup (dict_keys (pre ++ items)) ->
  Day.update_event_book event_id start_at end_at (dict_keys items)
    (Day.mk dt (pre ++ items))
  = (Day.mk dt (pre ++ fst (rebook event_id start_at end_at items)),
     snd (rebook event_id start_at end_at items)).
Proof.
  induction items as [|[slot v] rest IH]; intros pre ND; simpl.
  - reflexivity.
  - pose proof (keys_mid_notin _ _ _ _ ND) as N.
    destruct (in_range start_at end_at slot) eqn:R.
    + run. rewrite dict_get_app_mid by exact N.
      destruct (truthy v) eqn:T; simpl; [reflexivity|].
      rewrite dict_set_app_mid by exact N.
      specialize (IH (pre ++ [(slot, Some event_id)])
                     (keys_mid_swap _ _ _ _ _ ND)).
      rewrite <- !app_assoc in IH. simpl in IH. rewrite IH.
      now destruct (rebook event_id start_at end_at rest) as [rest' r].
    + specialize (IH (pre ++ [(slot, v)]) (keys_mid_swap _ _ _ _ _ ND)).
      rewrite <- !app_assoc in IH. simpl in IH. rewrite IH.
      now destruct (rebook event_id start_at end_at rest) as [rest' r].
Qed.

Lemma keys_map_clear event_id (items : dict time slot_value) :
  dict_keys (map (clear event_id) items) = dict_keys items.
Proof.
  unfold dict_keys. rewrite map_map. apply map_ext.
  intros [k v]. unfold clear. simpl. now destruct (is_id v event_id).
Qed.

Lemma Day_update_event_rebook event_id start_at end_at self :
  dict_ok (Day.slots self) ->
  Day.update_event event_id start_at end_at self
  = (Day.mk (Day.date_ self)
       (fst (rebook event_id start_at end_at
               (map (clear event_id) (Day.slots self)))),
     snd (rebook event_id start_at end_at
            (map (clear event_id) (Day.slots self)))).
Proof.
  intros OK. destruct self as [dt items]. unfold Day.update_event. run.
  pose proof (update_event_clear_clear event_id dt items [] OK) as L.
  simpl in L. rewrite L. simpl.
  apply (update_event_book_rebook event_id start_at end_at dt _ []).
  simpl. now rewrite keys_map_clear.
Qed.

(** ** The slot grid of a new [Day] *)

Lemma _init_slots_loop_more fuel : forall extra slot_time slots r,
  Day._init_slots_loop fuel slot_time slots = Some r ->
  Day._init_slots_loop (fuel + extra) slot_time slots = Some r.
Proof.
  induction fuel as [|fuel IH]; intros extra slot_time slots r; simpl.
  - discriminate.
  - destruct (time_ltb slot_time (time_of 23 45)); [apply IH | auto].
Qed.

Lemma _init_slots_total fuel :
  (Day.init_fuel <= fuel)%nat -> Day._init_slots fuel = Some grid.
Proof.
  intros L. replace fuel with (Day.init_fuel + (fuel - Day.init_fuel))%nat by lia.
  apply _init_slots_loop_more. vm_compute. reflexivity.
Qed.

Lemma _init_slots_short fuel :
  (fuel < Day.init_fuel)%nat -> Day._init_slots fuel = None.
Proof.
  intros L. destruct (Day._init_slots fuel) as [r|] eqn:E; [|reflexivity].
  apply (_init_slots_loop_more _ (95 - fuel)) in E.
  replace (fuel + (95 - fuel))%nat with 95%nat in E by (unfold Day.init_fuel in L; lia).
  vm_compute in E. discriminate.
Qed.

Lemma Day_init_slots date_ : Day.slots (Day.init date_) = grid.
Proof. unfold Day.init. now rewrite _init_slots_total. Qed.

Lemma dict_ok_grid : dict_ok grid.
Proof.
  unfold dict_ok.
  assert (E : dict_keys grid = map quarter (seq 0 95)).
  { unfold grid, dict_keys. now rewrite map_map. }
  rewrite E. clear E.
  assert (I : forall i j, (i < 95)%nat -> (j < 95)%nat ->
                          quarter i = quarter j -> i = j).
  { intros i j Li Lj E.
    pose proof (f_equal hour E) as Eh. pose proof (f_equal minute E) as Em.
    unfold quarter, time_of in Eh, Em. cbn [hour minute] in Eh, Em.
    pose proof (Z.div_mod (Z.of_nat i) 4 ltac:(lia)) as Di.
    pose proof (Z.div_mod (Z.of_nat j) 4 ltac:(lia)) as Dj. lia. }
  pose proof (seq_NoDup 95 0) as ND.
  assert (B : forall i, In i (seq 0 95) -> (i < 95)%nat)
    by (intros i Hi; apply in_seq in Hi; lia).
  induction (seq 0 95) as [|a l IH]; simpl; constructor.
  - inversion ND as [|? ? Na ND']; subst. intros Hin.
    apply in_map_iff in Hin. destruct Hin as (b & E & Hb).
    apply I in E; [subst; contradiction | |]; apply B; simpl; auto.
  - inversion ND; subst. apply IH; [assumption | intros; apply B; simpl; auto].
Qed.

Lemma grid_free slot v : In (slot, v) grid -> v = None.
Proof.
  unfold grid. intros I. apply in_map_iff in I.
  destruct I as (i & E & _). now injection E.
Qed.

Lemma existsb_eqb_In {K} `{EqBLaws K} (k : K) (l : list K) :
  existsb (eqb k) l = true -> In k l.
Proof.
  intros E. apply existsb_exists in E. destruct E as (x & I & E).
  apply eqb_eq in E. now subst.
Qed.

Lemma grid_keys_slot_time (t : time) :
  In t (dict_keys grid) <-> is_slot_time t = true.
Proof.
  split.
  - assert (F : forallb is_slot_time (dict_keys grid) = true) by (vm_compute; reflexivity).
    rewrite forallb_forall in F. apply F.
  - destruct t as [h m s u]. unfold is_slot_time.
    cbn [hour minute second microsecond].
    rewrite !andb_true_iff, !orb_true_iff, !Z.eqb_eq, !Z.leb_le.
    intros [[[[[H0 H23] Hm] ->] ->] L].
    assert (Hh : h = 0 \/ h = 1 \/ h = 2 \/ h = 3 \/ h = 4 \/ h = 5 \/ h = 6
                 \/ h = 7 \/ h = 8 \/ h = 9 \/ h = 10 \/ h = 11 \/ h = 12
                 \/ h = 13 \/ h = 14 \/ h = 15 \/ h = 16 \/ h = 17 \/ h = 18
                 \/ h = 19 \/ h = 20 \/ h = 21 \/ h = 22 \/ h = 23) by lia.
    repeat (destruct Hh as [->|Hh]); try subst h;
      destruct Hm as [[[-> | ->] | ->] | ->];
      try (apply existsb_eqb_In; vm_compute; reflexivity);
      vm_compute in L; discriminate.
Qed.

(** C2. For any date, a freshly constructed [Day] has exactly 95 slots: its
    items are, in order, the quarters of an hour 00:00, 00:15, ..., 23:30,
    each free; no key occurs twice; and a time is a key exactly when it is a
    time of day with minute in {0, 15, 30, 45}, no seconds, and strictly
    below 23:45. The construction loop ends: any fuel from 96 on yields
    this dictionary. *)
Theorem Day_init_grid (date_ : date) :
  Day.slots (Day.init date_) = map (fun i => (quarter i, None)) (seq 0 95)
  /\ List.length (Day.slots (Day.init date_)) = 95%nat
  /\ dict_ok (Day.slots (Day.init date_))
  /\ (forall t : time,
        In t (dict_keys (Day.slots (Day.init date_))) <->
        (0 <= hour t <= 23
         /\ (minute t = 0 \/ minute t = 15 \/ minute t = 30 \/ minute t = 45)
         /\ second t = 0 /\ microsecond t = 0
         /\ time_ltb t (time_of 23 45) = true))
  /\ (forall slot v, In (slot, v) (Day.slots (Day.init date_)) -> v = None)
  /\ (forall fuel, (96 <= fuel)%nat ->
        Day._init_slots fuel = Some (Day.slots (Day.init date_))).
Proof.
  rewrite Day_init_slots.
  split; [reflexivity|].
  split; [unfold grid; now rewrite length_map, length_seq|].
  split; [exact dict_ok_grid|].
  split.
  { intros t. rewrite grid_keys_slot_time. unfold is_slot_time.
    rewrite !andb_true_iff, !orb_true_iff, !Z.eqb_eq, !Z.leb_le. tauto. }
  split; [exact grid_free|].
  intros fuel L. now apply _init_slots_total.
Qed.

(** ** Booking a range of slots *)

Section Booking.
Variables (event_id : string) (start_at end_at : time).
Implicit Types (items pre post : dict time slot_value).
Local Abbreviation range_free := (range_free start_at end_at).

Lemma range_free_cons slot v items :
  range_free ((slot, v) :: items) -> range_free items.
Proof. intros F k w I. apply F. now right. Qed.

Lemma book_free items :
  range_free items ->
  book event_id start_at end_at items
  = (map (assign event_id start_at end_at) items, Ok tt).
Proof.
  induction items as [|[slot v] rest IH]; intros F; simpl; [reflexivity|].
  rewrite (IH (range_free_cons _ _ _ F)). unfold assign. simpl.
  destruct (in_range start_at end_at slot) eqn:R; [|reflexivity].
  rewrite (F slot v (or_introl eq_refl) R). reflexivity.
Qed.

Lemma book_conflict pre slot x post :
  range_free pre -> in_range start_at end_at slot = true ->
  book event_id start_at end_at (pre ++ (slot, Some x) :: post)
  = (map (assign event_id start_at end_at) pre ++ (slot, Some x) :: post,
     Raise SlotNotAvailable).
Proof.
  intros F R. induction pre as [|[k v] pre IH]; simpl.
  - now rewrite R.
  - rewrite (IH (range_free_cons _ _ _ F)). unfold assign. simpl.
    destruct (in_range start_at end_at k) eqn:Rk; [|reflexivity].
    rewrite (F k v (or_introl eq_refl) Rk). reflexivity.
Qed.

(** Either every slot of the range is free, or there is a first occupied
    one. *)
Lemma range_free_or_conflict items :
  range_free items
  \/ exists pre slot x post,
       items = pre ++ (slot, Some x) :: post
       /\ range_free pre /\ in_range start_at end_at slot = true.
Proof.
  induction items as [|[slot v] rest IH].
  - left. intros ? ? [].
  - destruct (in_range start_at end_at slot) eqn:R.
    + destruct v as [x|].
      * right. exists [], slot, x, rest. repeat split; auto. intros ? ? [].
      * destruct IH as [F | (pre & k & x & post & -> & F & Rk)].
        -- left. intros k w [E|I] Rk; [now injection E as <- <- | eauto].
        -- right. exists ((slot, None) :: pre), k, x, post.
           repeat split; auto.
           intros k' w [E|I] Rk'; [now injection E as <- <- | eauto].
    + destruct IH as [F | (pre & k & x & post & -> & F & Rk)].
      * left. intros k w [E|I] Rk; [injection E as <- <-; congruence | eauto].
      * right. exists ((slot, v) :: pre), k, x, post.
        repeat split; auto.
        intros k' w [E|I] Rk'; [injection E as <- <-; congruence | eauto].
Qed.

Lemma book_keys items :
  dict_keys (fst (book event_id start_at end_at items)) = dict_keys items.
Proof.
  induction items as [|[slot v] rest IH]; simpl; [reflexivity|].
  destruct (in_range start_at end_at slot), (is_not_none v);
    try reflexivity;
    destruct (book event_id start_at end_at rest); simpl in *; now f_equal.
Qed.

Lemma book_outcome items :
  snd (book event_id start_at end_at items) = Ok tt
  \/ snd (book event_id start_at end_at items) = Raise SlotNotAvailable.
Proof.
  induction items as [|[slot v] rest IH]; simpl; [now left|].
  destruct (in_range start_at end_at slot), (is_not_none v);
    try (now right);
    destruct (book event_id start_at end_at rest); simpl in *; exact IH.
Qed.

Lemma book_Ok_free items :
  snd (book event_id start_at end_at items) = Ok tt -> range_free items.
Proof.
  intros E. destruct (range_free_or_conflict items)
    as [F | (pre & k & x & post & -> & F & Rk)]; [exact F|].
  rewrite (book_conflict _ _ _ _ F Rk) in E. discriminate.
Qed.

(** An occupied slot keeps its value, whatever the outcome. *)
Lemma book_keeps slot x items :
  In (slot, Some x) items ->
  In (slot, Some x) (fst (book event_id start_at end_at items)).
Proof.
  induction items as [|[k v] rest IH]; simpl; [tauto|].
  intros [E|I].
  - injection E as -> ->. simpl.
    destruct (in_range start_at end_at slot); simpl; [now left|].
    destruct (book event_id start_at end_at rest); now left.
  - specialize (IH I).
    destruct (in_range start_at end_at k), (is_not_none v); simpl;
      try (now right);
      destruct (book event_id start_at end_at rest); simpl in *; now right.
Qed.

(** A slot that holds an id afterwards held it before or was booked. *)
Lemma book_holds slot x items :
  In (slot, Some x) (fst (book event_id start_at end_at items)) ->
  In (slot, Some x) items
  \/ (x = event_id /\ in_range start_at end_at slot = true).
Proof.
  induction items as [|[k v] rest IH]; simpl; [tauto|].
  destruct (in_range start_at end_at k) eqn:R.
  - destruct (is_not_none v); simpl; [tauto|].
    destruct (book event_id start_at end_at rest); simpl in *.
    intros [E|I]; [injection E as -> ->; now right | ].
    destruct (IH I); auto.
  - destruct (book event_id start_at end_at rest); simpl in *.
    intros [E|I]; [now left; left | ].
    destruct (IH I); auto.
Qed.

Lemma rebook_keys items :
  dict_keys (fst (rebook event_id start_at end_at items)) = dict_keys items.
Proof.
  induction items as [|[slot v] rest IH]; simpl; [reflexivity|].
  destruct (in_range start_at end_at slot), (truthy v);
    try reflexivity;
    destruct (rebook event_id start_at end_at rest); simpl in *; now f_equal.
Qed.

Lemma rebook_holds slot x items :
  In (slot, Some x) (fst (rebook event_id start_at end_at items)) ->
  In (slot, Some x) items \/ x = event_id.
Proof.
  induction items as [|[k v] rest IH]; simpl; [tauto|].
  destruct (in_range start_at end_at k) eqn:R.
  - destruct (truthy v); simpl; [tauto|].
    destruct (rebook event_id start_at end_at rest); simpl in *.
    intros [E|I]; [injection E as -> ->; now right | ].
    destruct (IH I); auto.
  - destruct (rebook event_id start_at end_at rest); simpl in *.
    intros [E|I]; [now left; left | ].
    destruct (IH I); auto.
Qed.
End Booking.

Lemma clear_holds event_id slot x (items : dict time slot_value) :
  In (slot, Some x) (map (clear event_id) items) <->
  In (slot, Some x) items /\ x <> event_id.
Proof.
  rewrite in_map_iff. unfold clear. split.
  - intros ([k v] & E & I). simpl in E.
    destruct (is_id v event_id) eqn:D; [discriminate|].
    injection E as -> ->. split; [exact I|].
    intros ->. simpl in D. now rewrite String.eqb_refl in D.
  - intros [I N]. exists (slot, Some x). split; [|exact I]. simpl.
    destruct (String.eqb x event_id) eqn:D; [|reflexivity].
    apply String.eqb_eq in D. contradiction.
Qed.

Lemma holds_In event_id (self : Day.t) :
  Day.holds event_id self = true <->
  exists slot, In (slot, Some event_id) (Day.slots self).
Proof.
  unfold Day.holds. rewrite existsb_exists. split.
  - intros (v & I & D). unfold dict_values in I. apply in_map_iff in I.
    destruct I as ([k w] & <- & I). simpl in D.
    destruct w as [s|]; simpl in D; [|discriminate].
    apply String.eqb_eq in D. subst. now exists k.
  - intros (slot & I). exists (Some event_id). split.
    + now apply (in_map snd) in I.
    + simpl. apply String.eqb_refl.
Qed.

(** C3. For every [Day] and every call [add_event(event_id, start, end)]:
    the slots are taken in the order of the slot dictionary; when an
    occupied slot of the range is met, the call fails with
    [SlotNotAvailable], every item before it has had its slot assigned if
    it lies in the range (no rollback), and the items from the occupied one
    on are as they were; when every slot of the range is free the call
    returns, each slot of the range holding [event_id]. One of the two
    cases applies. *)
Theorem Day_add_event_in_order (self : Day.t) (event_id : string)
    (start_at end_at : time) :
  dict_ok (Day.slots self) ->
  (forall pre slot x post,
      Day.slots self = pre ++ (slot, Some x) :: post ->
      in_range start_at end_at slot = true ->
      range_free start_at end_at pre ->
      Day.add_event event_id start_at end_at self
      = (Day.mk (Day.date_ self)
           (map (assign event_id start_at end_at) pre ++ (slot, Some x) :: post),
         Raise SlotNotAvailable))
  /\ (range_free start_at end_at (Day.slots self) ->
      Day.add_event event_id start_at end_at self
      = (Day.mk (Day.date_ self)
           (map (assign event_id start_at end_at) (Day.slots self)),
         Ok tt))
  /\ (range_free start_at end_at (Day.slots self)
      \/ exists pre slot x post,
           Day.slots self = pre ++ (slot, Some x) :: post
           /\ range_free start_at end_at pre
           /\ in_range start_at end_at slot = true).
Proof.
  intros OK. split; [|split].
  - intros pre slot x post E R F.
    rewrite Day_add_event_book by exact OK.
    rewrite E, (book_conflict event_id _ _ _ _ _ _ F R). reflexivity.
  - intros F. rewrite Day_add_event_book by exact OK.
    rewrite (book_free event_id _ _ _ F). reflexivity.
  - apply range_free_or_conflict.
Qed.

(** ** Ranges that cover no slot *)

Ltac time_order :=
  unfold in_range, time_leb, time_ltb, time_eqb, time_of in *;
  cbn [hour minute second microsecond] in *;
  rewrite ?andb_true_iff, ?orb_true_iff, ?Z.ltb_lt, ?Z.eqb_eq in *;
  lia.

Lemma in_range_inverted start_at end_at slot :
  time_leb end_at start_at = true -> in_range start_at end_at slot = false.
Proof.
  intros L. destruct (in_range start_at end_at slot) eqn:R; [|reflexivity].
  exfalso. destruct start_at, end_at, slot. time_order.
Qed.

Lemma in_range_below start_at end_at low slot :
  time_leb end_at low = true -> time_leb low slot = true ->
  in_range start_at end_at slot = false.
Proof.
  intros L B. destruct (in_range start_at end_at slot) eqn:R; [|reflexivity].
  exfalso. destruct start_at, end_at, low, slot. time_order.
Qed.

Lemma in_range_above start_at end_at high slot :
  time_ltb high start_at = true -> time_leb slot high = true ->
  in_range start_at end_at slot = false.
Proof.
  intros L B. destruct (in_range start_at end_at slot) eqn:R; [|reflexivity].
  exfalso. destruct start_at, end_at, high, slot. time_order.
Qed.

Lemma grid_keys_bounds slot :
  In slot (dict_keys grid) ->
  time_leb (time_of 0 0) slot = true /\ time_leb slot (time_of 23 30) = true.
Proof.
  assert (F : forallb (fun t => time_leb (time_of 0 0) t
                                && time_leb t (time_of 23 30))
                      (dict_keys grid) = true) by (vm_compute; reflexivity).
  rewrite forallb_forall in F. intros I. apply F in I.
  now apply andb_true_iff in I.
Qed.

Lemma add_event_loop_outside event_id start_at end_at keys (self : Day.t) :
  (forall slot, In slot keys -> in_range start_at end_at slot = false) ->
  Day.add_event_loop event_id start_at end_at keys self = (self, Ok tt).
Proof.
  induction keys as [|slot rest IH]; simpl; intros Out.
  - reflexivity.
  - rewrite (Out slot (or_introl eq_refl)). apply IH.
    intros k I. apply Out. now right.
Qed.

(** C4. For every [Day], if no slot key lies in the range [start..end),
    [add_event(event_id, start, end)] returns without error and the [Day]
    is as before. This is so for every [Day] when [end <= start], and for a
    [Day] with the keys of the slot grid when [end <= 00:00] or when
    [start > 23:30]. *)
Theorem Day_add_event_empty_range (self : Day.t) (event_id : string)
    (start_at end_at : time) :
  ((forall slot, In slot (dict_keys (Day.slots self)) ->
                 in_range start_at end_at slot = false) ->
   Day.add_event event_id start_at end_at self = (self, Ok tt))
  /\ (time_leb end_at start_at = true ->
      Day.add_event event_id start_at end_at self = (self, Ok tt))
  /\ (dict_keys (Day.slots self) = dict_keys (Day.slots (Day.init (Day.date_ self))) ->
      time_leb end_at (time_of 0 0) = true
      \/ time_ltb (time_of 23 30) start_at = true ->
      Day.add_event event_id start_at end_at self = (self, Ok tt)).
Proof.
  change (Day.add_event event_id start_at end_at self)
    with (Day.add_event_loop event_id start_at end_at
            (dict_keys (Day.slots self)) self).
  repeat split.
  - apply add_event_loop_outside.
  - intros L. apply add_event_loop_outside. intros slot _.
    now apply in_range_inverted.
  - intros K C. apply add_event_loop_outside. intros slot I.
    rewrite K, Day_init_slots in I. apply grid_keys_bounds in I.
    destruct I as [B0 B1]. destruct C as [C|C].
    + exact (in_range_below _ _ _ _ C B0).
    + exact (in_range_above _ _ _ _ C B1).
Qed.

(** ** Deleting a reminder *)

Lemma list_del_firstn_skipn {A} (i : nat) (l : list A) :
  list_del i l = firstn i l ++ skipn (S i) l.
Proof.
  revert i. induction l as [|x l IH]; intros [|i]; simpl; try reflexivity.
  now rewrite IH.
Qed.

Lemma list_del_length {A} (i : nat) (l : list A) :
  (i < List.length l)%nat -> S (List.length (list_del i l)) = List.length l.
Proof.
  revert i. induction l as [|x l IH]; intros [|i] L; simpl in *; try lia.
  rewrite IH; lia.
Qed.

(** C8. For every [Event] with reminder list [r] and every integer [i]:
    when [0 <= i < len(r)], [delete_reminder(i)] returns, the list becomes
    [r] without its element at position [i] (the elements before it, then
    the elements after it), one shorter, and no other field changes;
    otherwise the call fails with [ReminderNotFound] and the [Event] is as
    before. *)
Theorem Event_delete_reminder_index (self : Event.t) (i : Z) :
  (0 <= i < Z.of_nat (List.length (Event.reminders self)) ->
   exists self',
     Event.delete_reminder i self = (self', Ok tt)
     /\ Event.reminders self'
        = firstn (Z.to_nat i) (Event.reminders self)
          ++ skipn (S (Z.to_nat i)) (Event.reminders self)
     /\ S (List.length (Event.reminders self'))
        = List.length (Event.reminders self)
     /\ (forall j, (j < Z.to_nat i)%nat ->
           nth_error (Event.reminders self') j
           = nth_error (Event.reminders self) j)
     /\ (forall j, (Z.to_nat i <= j)%nat ->
           nth_error (Event.reminders self') j
           = nth_error (Event.reminders self) (S j))
     /\ self' = Event.set_reminders (Event.reminders self') self)
  /\ (~ (0 <= i < Z.of_nat (List.length (Event.reminders self))) ->
      Event.delete_reminder i self = (self, Raise ReminderNotFound)).
Proof.
  unfold Event.delete_reminder. split.
  - intros [L0 L1].
    assert (C : (0 <=? i) && (i <? Z.of_nat (List.length (Event.reminders self)))
                = true)
      by (apply andb_true_iff; split; [apply Z.leb_le | apply Z.ltb_lt]; lia).
    rewrite C. eexists. split; [reflexivity|].
    destruct self as [t d dt s e k r]. simpl in *.
    assert (Li : (Z.to_nat i < List.length r)%nat) by lia.
    rewrite list_del_firstn_skipn.
    repeat split.
    + rewrite <- list_del_firstn_skipn. now apply list_del_length.
    + intros j Lj. rewrite nth_error_app1.
      * rewrite nth_error_firstn.
        destruct (Nat.ltb_spec j (Z.to_nat i)); [reflexivity | lia].
      * rewrite length_firstn. lia.
    + intros j Lj. rewrite nth_error_app2; rewrite length_firstn.
      * rewrite nth_error_skipn.
        replace (S (Z.to_nat i) + (j - Nat.min (Z.to_nat i) (List.length r)))%nat
          with (S j) by lia.
        reflexivity.
      * lia.
  - intros N.
    destruct ((0 <=? i) && (i <? Z.of_nat (List.length (Event.reminders self))))
      eqn:C; [|reflexivity].
    apply andb_true_iff in C. destruct C as [C0 C1].
    apply Z.leb_le in C0. apply Z.ltb_lt in C1. lia.
Qed.

(** ** The methods of [Calendar] on well-formed dictionaries *)

Section DictMore.
Context {K V : Type} `{EqBLaws K}.
Implicit Types (d pre post : dict K V) (k : K) (v : V).

Lemma dict_set_set k v v' d : dict_set k v' (dict_set k v d) = dict_set k v' d.
Proof.
  induction d as [|[k0 v0] d IH]; simpl.
  - now rewrite eqb_refl.
  - destruct (eqb k k0) eqn:E; simpl; rewrite E; [reflexivity | now rewrite IH].
Qed.

Lemma In_dict_set k v k' v' d :
  In (k', v') (dict_set k v d) -> (k' = k /\ v' = v) \/ In (k', v') d.
Proof.
  induction d as [|[k0 v0] d IH]; simpl.
  - intros [E|[]]. injection E as <- <-. now left.
  - destruct (eqb k k0) eqn:E; simpl.
    + apply eqb_eq in E. subst k0.
      intros [E'|I]; [injection E' as <- <-; now left | now right; right].
    + intros [E'|I]; [now right; left | ].
      destruct (IH I); [now left | now right; right].
Qed.

End DictMore.

(** [Calendar.add_event], once the date test has passed. *)
Lemma Calendar_add_event_eq today new_id title description date_ start_at end_at
    (self : Calendar.t) :
  date_ltb date_ today = false ->
  Calendar.add_event today new_id title description date_ start_at end_at self
  = let (day', r) :=
      Day.add_event new_id start_at end_at
        (day_or_new date_ (Calendar.days self)) in
    match r with
    | Ok _ =>
        (Calendar.mk
           (dict_set date_ day' (Calendar.days self))
           (dict_set new_id
              (Event.mk title description date_ start_at end_at new_id [])
              (Calendar.events self)),
         Ok new_id)
    | Raise e =>
        (Calendar.mk (dict_set date_ day' (Calendar.days self))
                     (Calendar.events self),
         Raise e)
    end.
Proof.
  intros L. unfold Calendar.add_event, Calendar.ensure_day, Calendar.on_day,
    Calendar.set_day, Calendar.set_event, raise_if, bind, get, ret, raise.
  rewrite L. destruct self as [days events].
  cbn [Calendar.days Calendar.events Event.id].
  unfold day_or_new, dict_contains.
  destruct (dict_get date_ days) as [day|] eqn:G;
    cbn [negb Calendar.days Calendar.events].
  - rewrite G.
    destruct (Day.add_event new_id start_at end_at day) as [day' [[]|e]];
      reflexivity.
  - rewrite dict_get_set_same.
    destruct (Day.add_event new_id start_at end_at (Day.init date_))
      as [day' [[]|e]];
      cbn [Calendar.days Calendar.events]; now rewrite dict_set_set.
Qed.

Lemma get_day_mid d day pre post events :
  ~ In d (dict_keys pre) ->
  Calendar.get_day d (Calendar.mk (pre ++ (d, day) :: post) events)
  = (Calendar.mk (pre ++ (d, day) :: post) events, Ok day).
Proof.
  intros N. unfold Calendar.get_day. cbn [Calendar.days].
  now rewrite dict_get_app_mid.
Qed.

Lemma on_day_mid {A} d day (method : M Day.t A) pre post events :
  ~ In d (dict_keys pre) ->
  Calendar.on_day d method (Calendar.mk (pre ++ (d, day) :: post) events)
  = (Calendar.mk (pre ++ (d, fst (method day)) :: post) events,
     snd (method day)).
Proof.
  intros N. unfold Calendar.on_day. cbn [Calendar.days Calendar.events].
  rewrite dict_get_app_mid by exact N. destruct (method day) as [day' r].
  now rewrite dict_set_app_mid.
Qed.

Lemma Day_delete_event_held event_id day :
  dict_ok (Day.slots day) -> Day.holds event_id day = true ->
  Day.delete_event event_id day = (cleared event_id day, Ok tt).
Proof.
  intros OK Hd. rewrite Day_delete_event_clear by exact OK. now rewrite Hd.
Qed.

Lemma Calendar_delete_event_loop_clear_first event_id events days : forall pre,
  NoDup (dict_keys (pre ++ days)) ->
  (forall d day, In (d, day) days -> dict_ok (Day.slots day)) ->
  Calendar.delete_event_loop event_id (dict_keys days)
    (Calendar.mk (pre ++ days) events)
  = (Calendar.mk (pre ++ clear_first event_id days) events, Ok tt).
Proof.
  induction days as [|[d day] rest IH]; intros pre ND OK; simpl.
  - reflexivity.
  - pose proof (keys_mid_notin _ _ _ _ ND) as N.
    unfold bind. rewrite get_day_mid by exact N.
    destruct (Day.holds event_id day) eqn:Hd.
    + rewrite on_day_mid by exact N.
      rewrite (Day_delete_event_held _ _ (OK d day (or_introl eq_refl)) Hd).
      reflexivity.
    + specialize (IH (pre ++ [(d, day)]) (keys_mid_swap _ _ _ _ _ ND)).
      rewrite <- !app_assoc in IH. simpl in IH. apply IH.
      intros d' day' I. apply (OK d' day'). now right.
Qed.

Lemma Calendar_delete_event_eq event_id (self : Calendar.t) :
  days_ok (Calendar.days self) ->
  Calendar.delete_event event_id self
  = if dict_contains event_id (Calendar.events self)
    then (Calendar.mk (clear_first event_id (Calendar.days self))
                      (dict_pop event_id (Calendar.events self)),
          Ok tt)
    else (self, Raise EventNotFound).
Proof.
  intros [OKd OKs]. destruct self as [days events].
  unfold Calendar.delete_event, Calendar.pop_event, raise_if, bind, get, ret, raise.
  cbn [Calendar.days Calendar.events].
  destruct (dict_contains event_id events); cbn [negb]; [|reflexivity].
  exact (Calendar_delete_event_loop_clear_first event_id _ days [] OKd OKs).
Qed.

Lemma Calendar_update_event_loop_new event_id event_id' start_at end_at
    (self : Calendar.t) : forall keys,
  (forall d, In d keys -> In d (dict_keys (Calendar.days self))) ->
  Calendar.update_event_loop true event_id event_id' start_at end_at keys self
  = (self, Ok tt).
Proof.
  induction keys as [|d rest IH]; intros Sub; simpl; [reflexivity|].
  unfold bind, Calendar.get_day.
  destruct (dict_get d (Calendar.days self)) as [day|] eqn:G.
  - unfold ret at 1. apply IH. intros d' I. apply Sub. now right.
  - apply dict_get_None in G. exfalso. apply G, Sub. now left.
Qed.

Lemma Calendar_update_event_loop_same event_id event_id' start_at end_at
    events days : forall pre,
  NoDup (dict_keys (pre ++ days)) ->
  Calendar.update_event_loop false event_id event_id' start_at end_at
    (dict_keys days) (Calendar.mk (pre ++ days) events)
  = (Calendar.mk
       (pre ++ fst (rebook_days event_id event_id' start_at end_at days))
       events,
     snd (rebook_days event_id event_id' start_at end_at days)).
Proof.
  induction days as [|[d day] rest IH]; intros pre ND; simpl.
  - reflexivity.
  - pose proof (keys_mid_notin _ _ _ _ ND) as N.
    unfold bind at 1. rewrite get_day_mid by exact N.
    unfold bind at 1.
    destruct (Day.holds event_id day) eqn:Hd; cbn [negb andb].
    + unfold bind at 1. rewrite on_day_mid by exact N.
      destruct (Day.delete_event event_id' day) as [day1 [[]|e]];
        cbn [fst snd]; [|reflexivity].
      rewrite on_day_mid by exact N.
      destruct (Day.update_event event_id' start_at end_at day1)
        as [day2 [[]|e]]; cbn [fst snd]; [|reflexivity].
      specialize (IH (pre ++ [(d, day2)]) (keys_mid_swap _ _ _ _ _ ND)).
      rewrite <- !app_assoc in IH. simpl in IH. rewrite IH.
      now destruct (rebook_days event_id event_id' start_at end_at rest).
    + unfold ret at 1.
      specialize (IH (pre ++ [(d, day)]) (keys_mid_swap _ _ _ _ _ ND)).
      rewrite <- !app_assoc in IH. simpl in IH. rewrite IH.
      now destruct (rebook_days event_id event_id' start_at end_at rest).
Qed.
Lemma Calendar_update_event_missing event_id title description date_ start_at
    end_at (self : Calendar.t) :
  dict_get event_id (Calendar.events self) = None ->
  Calendar.update_event event_id title description date_ start_at end_at self
  = (self, Raise EventNotFound).
Proof.
  intros G. unfold Calendar.update_event. unfold bind at 1, get at 1.
  now rewrite G.
Qed.

Lemma Calendar_update_event_new event_id title description date_ start_at end_at
    (self : Calendar.t) event :
  days_ok (Calendar.days self) ->
  dict_get event_id (Calendar.events self) = Some event ->
  date_eqb (Event.date_ event) date_ = false ->
  Calendar.update_event event_id title description date_ start_at end_at self
  = let days1 := clear_first event_id (Calendar.days self) in
    let (day', r) :=
      Day.add_event event_id start_at end_at (day_or_new date_ days1) in
    (Calendar.mk (dict_set date_ day' days1)
       (dict_set event_id
          (Event.mk title description date_ start_at end_at event_id [])
          (dict_pop event_id (Calendar.events self))),
     r).
Proof.
  intros OK G D.
  unfold Calendar.update_event. unfold bind at 1, get at 1. rewrite G, D.
  cbn [negb]. unfold bind at 1. unfold bind at 1.
  rewrite (Calendar_delete_event_eq _ _ OK).
  unfold dict_contains at 1. rewrite G.
  unfold bind at 1. unfold Calendar.set_event at 1.
  cbn [Calendar.days Calendar.events].
  unfold bind at 1. unfold Calendar.ensure_day. unfold bind at 1, get at 1.
  cbn [Calendar.days Calendar.events].
  unfold dict_contains, day_or_new.
  destruct (dict_get date_ (clear_first event_id (Calendar.days self)))
    as [day|] eqn:G1; cbn [negb].
  - unfold ret at 1. unfold bind at 1. unfold Calendar.on_day at 1.
    cbn [Calendar.days Calendar.events]. rewrite G1.
    destruct (Day.add_event event_id start_at end_at day) as [day' [[]|e]];
      [|reflexivity].
    unfold ret at 1. unfold bind at 1, get at 1.
    cbn [Calendar.days Calendar.events Event.id].
    rewrite Calendar_update_event_loop_new; [reflexivity | auto].
  - unfold Calendar.set_day at 1. cbn [Calendar.days Calendar.events].
    unfold bind at 1. unfold Calendar.on_day at 1.
    cbn [Calendar.days Calendar.events]. rewrite dict_get_set_same.
    destruct (Day.add_event event_id start_at end_at (Day.init date_))
      as [day' [[]|e]]; rewrite dict_set_set; [|reflexivity].
    unfold ret at 1. unfold bind at 1, get at 1.
    cbn [Calendar.days Calendar.events Event.id].
    rewrite Calendar_update_event_loop_new; [reflexivity | auto].
Qed.

Lemma Calendar_update_event_same event_id title description date_ start_at
    end_at (self : Calendar.t) event :
  dict_ok (Calendar.days self) ->
  dict_get event_id (Calendar.events self) = Some event ->
  date_eqb (Event.date_ event) date_ = true ->
  Calendar.update_event event_id title description date_ start_at end_at self
  = (Calendar.mk
       (fst (rebook_days event_id (Event.id event) start_at end_at
               (Calendar.days self)))
       (dict_set event_id
          (Event.mk title description date_ start_at end_at (Event.id event)
                    (Event.reminders event))
          (Calendar.events self)),
     snd (rebook_days event_id (Event.id event) start_at end_at
            (Calendar.days self))).
Proof.
  intros OK G D. destruct self as [days events].
  unfold Calendar.update_event. unfold bind at 1, get at 1.
  cbn [Calendar.days Calendar.events] in *. rewrite G, D.
  cbn [negb]. unfold bind at 1. unfold bind at 1.
  unfold Calendar.set_event at 1. cbn [Calendar.days Calendar.events].
  unfold ret at 1. unfold bind at 1, get at 1.
  cbn [Calendar.days Calendar.events Event.id].
  exact (Calendar_update_event_loop_same event_id (Event.id event) start_at
           end_at _ days [] OK).
Qed.

(** ** Slots through the passes *)

Lemma keys_map_assign event_id start_at end_at (items : dict time slot_value) :
  dict_keys (map (assign event_id start_at end_at) items) = dict_keys items.
Proof.
  unfold dict_keys. rewrite map_map. apply map_ext.
  intros [k v]. unfold assign. simpl. now destruct (in_range start_at end_at k).
Qed.

Lemma dict_get_map_assign event_id start_at end_at slot
    (items : dict time slot_value) :
  dict_get slot (map (assign event_id start_at end_at) items)
  = match dict_get slot items with
    | Some v => Some (if in_range start_at end_at slot then Some event_id else v)
    | None => None
    end.
Proof.
  induction items as [|[k v] rest IH]; simpl; [reflexivity|].
  unfold assign at 1. simpl.
  destruct (in_range start_at end_at k) eqn:R; simpl;
    destruct (time_eqb slot k) eqn:E; try exact IH;
    apply time_eqb_eq in E; subst; now rewrite R.
Qed.

Lemma dict_get_map_clear event_id slot (items : dict time slot_value) :
  dict_get slot (map (clear event_id) items)
  = match dict_get slot items with
    | Some v => Some (if is_id v event_id then None else v)
    | None => None
    end.
Proof.
  induction items as [|[k v] rest IH]; simpl; [reflexivity|].
  unfold clear at 1. simpl.
  destruct (is_id v event_id) eqn:D; simpl;
    destruct (time_eqb slot k) eqn:E; try exact IH; now rewrite ?D.
Qed.

Lemma Day_init_ok date_ : dict_ok (Day.slots (Day.init date_)).
Proof. rewrite Day_init_slots. exact dict_ok_grid. Qed.

Lemma holds_false event_id (day : Day.t) :
  Day.holds event_id day = false <->
  forall slot, ~ In (slot, Some event_id) (Day.slots day).
Proof.
  destruct (Day.holds event_id day) eqn:Hd.
  - apply holds_In in Hd. destruct Hd as (slot & I).
    split; [discriminate | intros N; exfalso; exact (N slot I)].
  - split; [|reflexivity]. intros _ slot I.
    assert (T : Day.holds event_id day = true) by (apply holds_In; eauto).
    congruence.
Qed.

Lemma Day_init_unheld event_id date_ : Day.holds event_id (Day.init date_) = false.
Proof.
  apply holds_false. intros slot I. rewrite Day_init_slots in I.
  apply grid_free in I. discriminate.
Qed.

Lemma cleared_unheld event_id day : Day.holds event_id (cleared event_id day) = false.
Proof.
  apply holds_false. intros slot I. apply clear_holds in I. now destruct I.
Qed.

(** Clearing what a booking of free slots wrote gives the [Day] back. *)
Lemma cleared_booked event_id start_at end_at day :
  Day.holds event_id day = false ->
  range_free start_at end_at (Day.slots day) ->
  cleared event_id (booked event_id start_at end_at day) = day.
Proof.
  intros Hd F. destruct day as [dt items]. unfold cleared, booked. simpl in *.
  f_equal. rewrite map_map.
  rewrite <- (map_id items) at 2. apply map_ext_in. intros [k v] I.
  unfold assign, clear. simpl.
  destruct (in_range start_at end_at k) eqn:R; simpl.
  - rewrite String.eqb_refl. now rewrite (F k v I R).
  - destruct (is_id v event_id) eqn:D; [|reflexivity].
    exfalso. destruct v as [x|]; [|discriminate]. simpl in D.
    apply String.eqb_eq in D. subst.
    apply (proj1 (holds_false event_id (Day.mk dt items)) Hd k). exact I.
Qed.

(** A booking after which the [Day] does not hold the id wrote nothing. *)
Lemma booked_unheld event_id start_at end_at day :
  Day.holds event_id (booked event_id start_at end_at day) = false ->
  booked event_id start_at end_at day = day.
Proof.
  intros Hd. destruct day as [dt items]. unfold booked in *. simpl in *.
  f_equal. rewrite <- (map_id items) at 2. apply map_ext_in. intros [k v] I.
  unfold assign. simpl.
  destruct (in_range start_at end_at k) eqn:R; [|reflexivity].
  exfalso. apply (proj1 (holds_false _ _) Hd k). simpl.
  apply in_map_iff. exists (k, v). split; [|exact I].
  unfold assign. simpl. now rewrite R.
Qed.

(** A successful [Day.add_event] is the booking of a free range. *)
Lemma Day_add_event_Ok event_id start_at end_at day day' :
  dict_ok (Day.slots day) ->
  Day.add_event event_id start_at end_at day = (day', Ok tt) ->
  range_free start_at end_at (Day.slots day)
  /\ day' = booked event_id start_at end_at day.
Proof.
  intros OK E. rewrite Day_add_event_book in E by exact OK.
  injection E as E1 E2. apply book_Ok_free in E2. split; [exact E2|].
  rewrite (book_free event_id _ _ _ E2) in E1. now subst.
Qed.

(** ** Well-formedness is kept *)

Lemma days_ok_set d day (days : dict date Day.t) :
  days_ok days -> dict_ok (Day.slots day) -> days_ok (dict_set d day days).
Proof.
  intros [OK S] OKd. split; [now apply dict_ok_set|].
  intros d' day' I. apply In_dict_set in I.
  destruct I as [[_ ->]|I]; [exact OKd | eauto].
Qed.

Lemma day_or_new_ok d (days : dict date Day.t) :
  days_ok days -> dict_ok (Day.slots (day_or_new d days)).
Proof.
  intros [OK S]. unfold day_or_new. destruct (dict_get d days) as [day|] eqn:G.
  - apply dict_get_In in G. eauto.
  - apply Day_init_ok.
Qed.

Lemma Day_add_event_ok event_id start_at end_at day :
  dict_ok (Day.slots day) ->
  dict_ok (Day.slots (fst (Day.add_event event_id start_at end_at day))).
Proof.
  intros OK. rewrite Day_add_event_book by exact OK. simpl.
  unfold dict_ok. now rewrite book_keys.
Qed.

Lemma cleared_ok event_id day :
  dict_ok (Day.slots day) -> dict_ok (Day.slots (cleared event_id day)).
Proof. unfold dict_ok, cleared. simpl. now rewrite keys_map_clear. Qed.

Lemma Day_delete_event_ok event_id day :
  dict_ok (Day.slots day) ->
  dict_ok (Day.slots (fst (Day.delete_event event_id day))).
Proof.
  intros OK. rewrite Day_delete_event_clear by exact OK. simpl.
  now apply (cleared_ok event_id day).
Qed.

Lemma Day_update_event_ok event_id start_at end_at day :
  dict_ok (Day.slots day) ->
  dict_ok (Day.slots (fst (Day.update_event event_id start_at end_at day))).
Proof.
  intros OK. rewrite Day_update_event_rebook by exact OK. simpl.
  unfold dict_ok. now rewrite rebook_keys, keys_map_clear.
Qed.

Lemma clear_first_keys event_id (days : dict date Day.t) :
  dict_keys (clear_first event_id days) = dict_keys days.
Proof.
  induction days as [|[d day] rest IH]; simpl; [reflexivity|].
  destruct (Day.holds event_id day); simpl; [reflexivity | now f_equal].
Qed.

Lemma In_clear_first event_id d day' (days : dict date Day.t) :
  In (d, day') (clear_first event_id days) ->
  exists day, In (d, day) days /\ (day' = day \/ day' = cleared event_id day).
Proof.
  induction days as [|[k day] rest IH]; simpl; [tauto|].
  destruct (Day.holds event_id day); simpl.
  - intros [E|I]; [injection E as <- <-; eauto | eauto].
  - intros [E|I]; [injection E as <- <-; eauto |].
    destruct (IH I) as (day0 & I0 & C). eauto.
Qed.

Lemma days_ok_clear_first event_id (days : dict date Day.t) :
  days_ok days -> days_ok (clear_first event_id days).
Proof.
  intros [OK S]. split.
  - unfold dict_ok. now rewrite clear_first_keys.
  - intros d day' I. apply In_clear_first in I.
    destruct I as (day & I & [->| ->]); [eauto | apply cleared_ok; eauto].
Qed.

Lemma rebook_days_keys event_id event_id' start_at end_at
    (days : dict date Day.t) :
  dict_keys (fst (rebook_days event_id event_id' start_at end_at days))
  = dict_keys days.
Proof.
  induction days as [|[d day] rest IH]; simpl; [reflexivity|].
  destruct (Day.holds event_id day).
  - destruct (Day.delete_event event_id' day) as [day1 [[]|e]]; [|reflexivity].
    destruct (Day.update_event event_id' start_at end_at day1)
      as [day2 [[]|e]]; [|reflexivity].
    destruct (rebook_days event_id event_id' start_at end_at rest).
    simpl in *. now f_equal.
  - destruct (rebook_days event_id event_id' start_at end_at rest).
    simpl in *. now f_equal.
Qed.

(** What the closing loop of [update_event] leaves in a [Day]. *)
Lemma In_rebook_days event_id event_id' start_at end_at d day'
    (days : dict date Day.t) :
  In (d, day') (fst (rebook_days event_id event_id' start_at end_at days)) ->
  exists day,
    In (d, day) days
    /\ (day' = day
        \/ (Day.holds event_id day = true
            /\ (day' = fst (Day.delete_event event_id' day)
                \/ day' = fst (Day.update_event event_id' start_at end_at
                                 (fst (Day.delete_event event_id' day)))))).
Proof.
  induction days as [|[k day] rest IH]; simpl; [tauto|].
  destruct (Day.holds event_id day) eqn:Hd.
  - destruct (Day.delete_event event_id' day) as [day1 [[]|e]] eqn:E1; simpl.
    + destruct (Day.update_event event_id' start_at end_at day1)
        as [day2 [[]|e]] eqn:E2; simpl.
      * destruct (rebook_days event_id event_id' start_at end_at rest); simpl in *.
        intros [E|I].
        -- injection E as <- <-. exists day. split; [now left|].
           right. split; [exact Hd|]. right. rewrite E1. cbn [fst]. now rewrite E2.
        -- destruct (IH I) as (day0 & I0 & C). eauto.
      * intros [E|I].
        -- injection E as <- <-. exists day. split; [now left|].
           right. split; [exact Hd|]. right. rewrite E1. cbn [fst]. now rewrite E2.
        -- eauto.
    + intros [E|I].
      * injection E as <- <-. exists day. split; [now left|].
        right. split; [exact Hd|]. left. now rewrite E1.
      * eauto.
  - destruct (rebook_days event_id event_id' start_at end_at rest); simpl in *.
    intros [E|I]; [injection E as <- <-; eauto |].
    destruct (IH I) as (day0 & I0 & C). eauto.
Qed.

Lemma days_ok_rebook_days event_id event_id' start_at end_at
    (days : dict date Day.t) :
  days_ok days ->
  days_ok (fst (rebook_days event_id event_id' start_at end_at days)).
Proof.
  intros [OK S]. split.
  - unfold dict_ok. now rewrite rebook_days_keys.
  - intros d day' I. apply In_rebook_days in I.
    destruct I as (day & I & [->|[_ [->| ->]]]); [eauto | |].
    + apply Day_delete_event_ok. eauto.
    + apply Day_update_event_ok, Day_delete_event_ok. eauto.
Qed.

Lemma Calendar_add_event_ok today new_id title description date_ start_at end_at
    (self : Calendar.t) :
  Calendar_ok self ->
  Calendar_ok (fst (Calendar.add_event today new_id title description date_
                      start_at end_at self)).
Proof.
  intros [OKd OKe]. destruct (date_ltb date_ today) eqn:L.
  - unfold Calendar.add_event, raise_if, bind. rewrite L. now split.
  - rewrite Calendar_add_event_eq by exact L.
    pose proof (Day_add_event_ok new_id start_at end_at _
                  (day_or_new_ok date_ _ OKd)) as OK'.
    destruct (Day.add_event new_id start_at end_at
                (day_or_new date_ (Calendar.days self))) as [day' [[]|e]];
      cbn [fst Calendar.days Calendar.events] in *; split;
      cbn [Calendar.days Calendar.events];
      try (apply days_ok_set; assumption);
      try (apply dict_ok_set); assumption.
Qed.

(** ** Adding and deleting events *)

Lemma clear_first_unbooked event_id (days : dict date Day.t) :
  unbooked event_id days -> clear_first event_id days = days.
Proof.
  induction days as [|[d day] rest IH]; intros U; simpl; [reflexivity|].
  rewrite (U d day (or_introl eq_refl)). f_equal. apply IH.
  intros d' day' I. apply (U d' day'). now right.
Qed.

Lemma clear_first_set event_id d day' (days : dict date Day.t) :
  unbooked event_id days ->
  clear_first event_id (dict_set d day' days)
  = dict_set d (if Day.holds event_id day' then cleared event_id day' else day')
             days.
Proof.
  induction days as [|[k day] rest IH]; intros U; simpl.
  - now destruct (Day.holds event_id day').
  - assert (Ur : unbooked event_id rest)
      by (intros d0 day0 I; apply (U d0 day0); now right).
    destruct (date_eqb d k) eqn:E; simpl.
    + destruct (Day.holds event_id day'); [reflexivity|].
      now rewrite clear_first_unbooked.
    + rewrite (U k day (or_introl eq_refl)). now rewrite IH.
Qed.

Lemma day_or_new_unheld event_id d (days : dict date Day.t) :
  unbooked event_id days -> Day.holds event_id (day_or_new d days) = false.
Proof.
  intros U. unfold day_or_new. destruct (dict_get d days) as [day|] eqn:G.
  - apply dict_get_In in G. eauto.
  - apply Day_init_unheld.
Qed.

Lemma Calendar_add_event_Ok today new_id title description date_ start_at end_at
    (self self' : Calendar.t) id :
  Calendar_ok self ->
  Calendar.add_event today new_id title description date_ start_at end_at self
  = (self', Ok id) ->
  date_ltb date_ today = false
  /\ id = new_id
  /\ range_free start_at end_at
       (Day.slots (day_or_new date_ (Calendar.days self)))
  /\ self' = Calendar.mk
       (dict_set date_
          (booked new_id start_at end_at (day_or_new date_ (Calendar.days self)))
          (Calendar.days self))
       (dict_set new_id
          (Event.mk title description date_ start_at end_at new_id [])
          (Calendar.events self)).
Proof.
  intros [OKd OKe] E. destruct (date_ltb date_ today) eqn:L.
  - unfold Calendar.add_event, raise_if, bind in E. rewrite L in E.
    discriminate.
  - rewrite Calendar_add_event_eq in E by exact L.
    destruct (Day.add_event new_id start_at end_at
                (day_or_new date_ (Calendar.days self))) as [day' [[]|e]] eqn:A;
      [|discriminate].
    apply Day_add_event_Ok in A; [|now apply day_or_new_ok].
    destruct A as [F ->]. injection E as <- <-. auto.
Qed.

(** C7. For every [Calendar] and all other arguments, [add_event] with a
    date strictly earlier than the current date fails with
    [DateLowerThanToday], and the [Calendar], its [days] and [events]
    included, is as before the call. *)
Theorem Calendar_add_event_past (self : Calendar.t) (today : date)
    (new_id title description : string) (date_ : date) (start_at end_at : time) :
  date_ltb date_ today = true ->
  Calendar.add_event today new_id title description date_ start_at end_at self
  = (self, Raise DateLowerThanToday).
Proof.
  intros L. unfold Calendar.add_event, raise_if, bind. now rewrite L.
Qed.

(** C5. For every [Calendar] (its dictionaries well formed, the generated
    id not yet in any slot), if [add_event(title, desc, date, start, end)]
    returns [id], then [delete_event(id)] called next returns; [id] is no
    longer a key of [events]; every slot of the range was given to [id] by
    the add, and every slot of [date]'s [Day] that held [id] after the add
    is free after the delete. The [Day] of [date] is then as it was before
    the add (a new [Day] if there was none), and no other [Day] changed. *)
Theorem Calendar_add_then_delete_event (self self1 : Calendar.t) (today : date)
    (new_id title description : string) (date_ : date) (start_at end_at : time)
    (id : string) :
  Calendar_ok self ->
  unbooked new_id (Calendar.days self) ->
  Calendar.add_event today new_id title description date_ start_at end_at self
  = (self1, Ok id) ->
  exists self2 day1 day2,
    Calendar.delete_event id self1 = (self2, Ok tt)
    /\ dict_get id (Calendar.events self2) = None
    /\ dict_get date_ (Calendar.days self1) = Some day1
    /\ dict_get date_ (Calendar.days self2) = Some day2
    /\ (forall slot, In slot (dict_keys (Day.slots day1)) ->
          in_range start_at end_at slot = true ->
          dict_get slot (Day.slots day1) = Some (Some id))
    /\ (forall slot, dict_get slot (Day.slots day1) = Some (Some id) ->
          dict_get slot (Day.slots day2) = Some None)
    /\ day2 = match dict_get date_ (Calendar.days self) with
              | Some day => day
              | None => Day.init date_
              end
    /\ Calendar.days self2 = dict_set date_ day2 (Calendar.days self).
Proof.
  intros OK U A.
  pose proof (Calendar_add_event_ok today new_id title description date_
                start_at end_at self OK) as OK1.
  rewrite A in OK1. cbn [fst] in OK1.
  apply Calendar_add_event_Ok in A; [|exact OK].
  destruct A as (L & -> & F & ->). destruct OK as [OKd OKe].
  set (day0 := day_or_new date_ (Calendar.days self)) in *.
  assert (Hd : Day.holds new_id day0 = false) by now apply day_or_new_unheld.
  assert (OK0 : dict_ok (Day.slots day0)) by now apply day_or_new_ok.
  exists (Calendar.mk (dict_set date_ day0 (Calendar.days self))
            (dict_pop new_id
               (dict_set new_id
                  (Event.mk title description date_ start_at end_at new_id [])
                  (Calendar.events self)))),
    (booked new_id start_at end_at day0), day0.
  cbn [Calendar.days Calendar.events].
  split; [|split; [|split; [|split; [|split; [|split; [|split]]]]]].
  - rewrite Calendar_delete_event_eq by exact (proj1 OK1).
    cbn [Calendar.days Calendar.events].
    unfold dict_contains. rewrite dict_get_set_same.
    rewrite clear_first_set by exact U.
    destruct (Day.holds new_id (booked new_id start_at end_at day0)) eqn:Hb.
    + now rewrite cleared_booked.
    + now rewrite booked_unheld.
  - apply dict_get_pop_same. now apply dict_ok_set.
  - apply dict_get_set_same.
  - apply dict_get_set_same.
  - intros slot I R. unfold booked in I |- *. cbn [Day.slots] in I |- *.
    rewrite dict_get_map_assign, R. rewrite keys_map_assign in I.
    destruct (dict_get slot (Day.slots day0)) eqn:G; [reflexivity|].
    apply dict_get_None in G. contradiction.
  - intros slot G. unfold booked in G. cbn [Day.slots] in G.
    rewrite dict_get_map_assign in G.
    destruct (dict_get slot (Day.slots day0)) as [v|] eqn:G0; [|discriminate].
    apply dict_get_In in G0.
    destruct (in_range start_at end_at slot) eqn:R.
    + now rewrite (F slot v G0 R).
    + injection G as ->. exfalso.
      exact (proj1 (holds_false new_id day0) Hd slot G0).
  - reflexivity.
  - reflexivity.
Qed.

(** C6 (amended). For every [Calendar] in which a first event was added on
    some date, a second [add_event] on the same date, made while that date
    is not earlier than the current date, whose range covers at least one
    slot held by the first event, fails with [SlotNotAvailable]; every slot
    holding the first event's id still holds it afterwards, and the
    registry is unchanged. *)
Theorem Calendar_add_event_overlap (self self1 : Calendar.t)
    (today1 : date) (id1 title1 description1 : string) (date_ : date)
    (start1 end1 : time)
    (today2 : date) (id2 title2 description2 : string) (start2 end2 : time) :
  Calendar_ok self ->
  Calendar.add_event today1 id1 title1 description1 date_ start1 end1 self
  = (self1, Ok id1) ->
  date_ltb date_ today2 = false ->
  (exists day1 slot,
      dict_get date_ (Calendar.days self1) = Some day1
      /\ dict_get slot (Day.slots day1) = Some (Some id1)
      /\ in_range start2 end2 slot = true) ->
  exists self2 day1 day2,
    Calendar.add_event today2 id2 title2 description2 date_ start2 end2 self1
    = (self2, Raise SlotNotAvailable)
    /\ dict_get date_ (Calendar.days self1) = Some day1
    /\ dict_get date_ (Calendar.days self2) = Some day2
    /\ (forall slot, dict_get slot (Day.slots day1) = Some (Some id1) ->
                     dict_get slot (Day.slots day2) = Some (Some id1))
    /\ Calendar.events self2 = Calendar.events self1.
Proof.
  intros OK A L (day1 & slot & G & Gs & R).
  pose proof (Calendar_add_event_ok today1 id1 title1 description1 date_
                start1 end1 self OK) as OK1.
  rewrite A in OK1. cbn [fst] in OK1. destruct OK1 as [[OKd OKs] OKe].
  assert (OK1 : dict_ok (Day.slots day1))
    by (apply dict_get_In in G; eauto).
  rewrite Calendar_add_event_eq by exact L.
  unfold day_or_new. rewrite G.
  rewrite Day_add_event_book by exact OK1.
  set (b := book id2 start2 end2 (Day.slots day1)).
  assert (Eb : snd b = Raise SlotNotAvailable).
  { destruct (book_outcome id2 start2 end2 (Day.slots day1)) as [O|O];
      [|exact O].
    apply book_Ok_free in O. apply dict_get_In in Gs.
    specialize (O slot (Some id1) Gs R). discriminate. }
  rewrite Eb.
  exists (Calendar.mk
            (dict_set date_ (Day.mk (Day.date_ day1) (fst b))
                      (Calendar.days self1))
            (Calendar.events self1)),
    day1, (Day.mk (Day.date_ day1) (fst b)).
  cbn [Calendar.days Calendar.events Day.slots].
  repeat split; auto using dict_get_set_same.
  - apply dict_get_set_same.
  - intros k Gk. apply In_dict_get.
    + unfold dict_ok, b. now rewrite book_keys.
    + apply book_keeps. now apply dict_get_In.
Qed.

(** ** Moving an event to another date *)

Lemma clear_first_clears event_id d1 (days : dict date Day.t) :
  dict_ok days ->
  (forall d day, In (d, day) days -> d <> d1 -> Day.holds event_id day = false) ->
  unbooked event_id (clear_first event_id days).
Proof.
  unfold dict_ok, unbooked.
  induction days as [|[k day] rest IH]; intros ND Only d day' I; simpl in *.
  - destruct I.
  - inversion ND as [|? ? Nk ND']; subst.
    destruct (Day.holds event_id day) eqn:Hd.
    + destruct I as [E|I].
      * injection E as <- <-. apply cleared_unheld.
      * assert (k = d1).
        { destruct (date_eqb k d1) eqn:E; [now apply date_eqb_eq|].
          assert (N : k <> d1) by (intros ->; rewrite (proj2 (date_eqb_eq d1 d1)) in E; [discriminate | reflexivity]).
          rewrite (Only k day (or_introl eq_refl) N) in Hd. discriminate. }
        subst k. apply (Only d day'); [now right|].
        intros ->. apply Nk. now apply (in_map fst) in I.
    + destruct I as [E|I].
      * now injection E as <- <-.
      * apply (fun O => IH ND' O d day' I).
        intros d0 day0 I0. apply Only. now right.
Qed.

Lemma date_eqb_false (a b : date) : date_eqb a b = false <-> a <> b.
Proof.
  destruct (date_eqb a b) eqn:E.
  - apply date_eqb_eq in E. split; [discriminate | contradiction].
  - split; [|reflexivity]. intros _ ->.
    rewrite (proj2 (date_eqb_eq b b) eq_refl) in E. discriminate.
Qed.

(** C9. For every [Calendar] (its dictionaries well formed) with an event
    [e] of date [d1] whose slots, if any, are in [d1]'s [Day]: when
    [update_event(e, ..., d2, start, end)] with [d2 <> d1] returns, no slot
    of [d1]'s [Day] holds [e] (nor does any [Day] other than [d2]'s); the
    registry has under [e] an event with id [e], date [d2] and the new
    fields; and [d2]'s [Day] exists, every one of its slots in the range
    holding [e], a new [Day] having been made if [d2] had none. *)
Theorem Calendar_update_event_moves (self self' : Calendar.t)
    (event_id title description : string) (d1 d2 : date)
    (start_at end_at : time) (event : Event.t) :
  Calendar_ok self ->
  dict_get event_id (Calendar.events self) = Some event ->
  Event.date_ event = d1 ->
  (forall d day, In (d, day) (Calendar.days self) -> d <> d1 ->
                 Day.holds event_id day = false) ->
  d2 <> d1 ->
  Calendar.update_event event_id title description d2 start_at end_at self
  = (self', Ok tt) ->
  (forall day, dict_get d1 (Calendar.days self') = Some day ->
               Day.holds event_id day = false)
  /\ (forall d day, In (d, day) (Calendar.days self') -> d <> d2 ->
                    Day.holds event_id day = false)
  /\ dict_get event_id (Calendar.events self')
     = Some (Event.mk title description d2 start_at end_at event_id [])
  /\ exists day2,
       dict_get d2 (Calendar.days self') = Some day2
       /\ (forall slot, In slot (dict_keys (Day.slots day2)) ->
             in_range start_at end_at slot = true ->
             dict_get slot (Day.slots day2) = Some (Some event_id))
       /\ (dict_get d2 (Calendar.days self) = None ->
           day2 = Day.mk d2
                    (map (assign event_id start_at end_at)
                         (Day.slots (Day.init d2)))).
Proof.
  intros [OKd OKe] G Ed Only N U.
  assert (D : date_eqb (Event.date_ event) d2 = false)
    by (apply date_eqb_false; congruence).
  rewrite (Calendar_update_event_new _ _ _ _ _ _ _ _ OKd G D) in U.
  cbv zeta in U.
  set (days1 := clear_first event_id (Calendar.days self)) in *.
  assert (OK1 : days_ok days1) by now apply days_ok_clear_first.
  assert (U1 : unbooked event_id days1)
    by (apply (clear_first_clears event_id d1); [apply OKd | exact Only]).
  destruct (Day.add_event event_id start_at end_at (day_or_new d2 days1))
    as [day' r] eqn:A.
  injection U as <- ->.
  apply Day_add_event_Ok in A; [|now apply day_or_new_ok].
  destruct A as [F ->]. cbn [Calendar.days Calendar.events].
  assert (Other : forall d day,
             In (d, day)
                (dict_set d2 (booked event_id start_at end_at
                                (day_or_new d2 days1)) days1) ->
             d <> d2 -> Day.holds event_id day = false).
  { intros d day I Nd. apply In_dict_set in I.
    destruct I as [[-> _]|I]; [contradiction | eauto]. }
  split; [|split; [|split]].
  - intros day Gd. apply dict_get_In in Gd. apply (Other d1 day Gd). congruence.
  - exact Other.
  - apply dict_get_set_same.
  - exists (booked event_id start_at end_at (day_or_new d2 days1)).
    split; [apply dict_get_set_same|]. split.
    + intros slot I R. unfold booked in I |- *. cbn [Day.slots] in I |- *.
      rewrite dict_get_map_assign, R. rewrite keys_map_assign in I.
      destruct (dict_get slot (Day.slots (day_or_new d2 days1))) eqn:Gs;
        [reflexivity|].
      apply dict_get_None in Gs. contradiction.
    + intros Gn. unfold booked, day_or_new.
      assert (Gn1 : dict_get d2 days1 = None).
      { apply dict_get_None. unfold days1. rewrite clear_first_keys.
        now apply dict_get_None. }
      now rewrite Gn1.
Qed.

(** C10. For every [Calendar] (its dictionaries well formed) with an event
    [e]: an [update_event] that keeps the date leaves under [e] an event
    with the reminders it had, whatever the outcome; an [update_event] to
    another date that returns leaves under [e] a new event whose reminder
    list is empty. *)
Theorem Calendar_update_event_reminders (self self' : Calendar.t)
    (event_id title description : string) (date_ : date)
    (start_at end_at : time) (event : Event.t) (r : result unit) :
  Calendar_ok self ->
  dict_get event_id (Calendar.events self) = Some event ->
  Calendar.update_event event_id title description date_ start_at end_at self
  = (self', r) ->
  exists event',
    dict_get event_id (Calendar.events self') = Some event'
    /\ (Event.date_ event = date_ ->
        Event.reminders event' = Event.reminders event)
    /\ (Event.date_ event <> date_ -> r = Ok tt ->
        Event.reminders event' = []).
Proof.
  intros [OKd OKe] G U.
  destruct (date_eqb (Event.date_ event) date_) eqn:D.
  - rewrite (Calendar_update_event_same _ _ _ _ _ _ _ _ (proj1 OKd) G D) in U.
    injection U as <- <-. cbn [Calendar.events].
    eexists. split; [apply dict_get_set_same|]. split; [reflexivity|].
    intros N. apply date_eqb_eq in D. contradiction.
  - rewrite (Calendar_update_event_new _ _ _ _ _ _ _ _ OKd G D) in U.
    cbv zeta in U.
    destruct (Day.add_event event_id start_at end_at _) as [day' r'].
    injection U as <- <-. cbn [Calendar.events].
    eexists. split; [apply dict_get_set_same|]. split; [|reflexivity].
    intros E. apply date_eqb_false in D. contradiction.
Qed.

(** ** The invariant of the reachable calendars *)

Lemma assign_holds event_id start_at end_at slot x
    (items : dict time slot_value) :
  In (slot, Some x) (map (assign event_id start_at end_at) items) ->
  In (slot, Some x) items \/ x = event_id.
Proof.
  rewrite in_map_iff. intros ([k v] & E & I). unfold assign in E. simpl in E.
  destruct (in_range start_at end_at k).
  - injection E as -> ->. now right.
  - injection E as -> ->. now left.
Qed.

Lemma dict_keys_set_incl {K V} `{EqBLaws K} (k k' : K) (v : V) (d : dict K V) :
  In k' (dict_keys (dict_set k v d)) -> k' = k \/ In k' (dict_keys d).
Proof.
  intros I. apply in_map_iff in I. destruct I as ([a b] & <- & I).
  apply In_dict_set in I. destruct I as [[-> _]|I]; [now left | right].
  now apply (in_map fst) in I.
Qed.

Lemma dict_keys_pop_incl {K V} `{EqBLaws K} (k k' : K) (d : dict K V) :
  In k' (dict_keys (dict_pop k d)) -> In k' (dict_keys d).
Proof.
  intros I. apply in_map_iff in I. destruct I as ([a b] & <- & I).
  apply In_dict_pop in I. now apply (in_map fst) in I.
Qed.

Lemma on_event_eq {A} event_id event (method : M Event.t A) (self : Calendar.t) :
  dict_get event_id (Calendar.events self) = Some event ->
  Calendar.on_event event_id method self
  = (Calendar.mk (Calendar.days self)
       (dict_set event_id (fst (method event)) (Calendar.events self)),
     snd (method event)).
Proof.
  intros G. unfold Calendar.on_event. rewrite G. now destruct (method event).
Qed.

(** Replacing a registered event by one of the same date and id. *)
Lemma Calendar_inv_set_event generated (self : Calendar.t) event_id event event' :
  Calendar_inv generated self ->
  dict_get event_id (Calendar.events self) = Some event ->
  Event.date_ event' = Event.date_ event ->
  Event.id event' = Event.id event ->
  Calendar_inv generated
    (Calendar.mk (Calendar.days self)
       (dict_set event_id event' (Calendar.events self))).
Proof.
  intros ((OKd & OKe) & Dated & Ids & Gen) G Ed Ei.
  split; [|split; [|split]].
  - split; [exact OKd | now apply dict_ok_set].
  - intros d day slot id I Is. cbn [Calendar.days Calendar.events] in *.
    destruct (Dated d day slot id I Is) as (ev & Gi & Dv).
    destruct (String.eqb event_id id) eqn:E.
    + apply String.eqb_eq in E. subst id. exists event'.
      split; [apply dict_get_set_same | congruence].
    + apply String.eqb_neq in E. exists ev.
      split; [now rewrite dict_get_set_other | exact Dv].
  - intros id ev Gi. cbn [Calendar.events] in Gi.
    destruct (String.eqb event_id id) eqn:E.
    + apply String.eqb_eq in E. subst id.
      rewrite dict_get_set_same in Gi. injection Gi as <-.
      rewrite Ei. now apply Ids.
    + apply String.eqb_neq in E. rewrite dict_get_set_other in Gi by exact E.
      now apply Ids.
  - intros id I. cbn [Calendar.events] in I.
    apply dict_keys_set_incl in I. destruct I as [->|I]; [|now apply Gen].
    apply Gen. now apply dict_get_Some_key in G.
Qed.

Lemma Calendar_inv_add_reminder generated (self : Calendar.t) event_id
    date_time type_ :
  Calendar_inv generated self ->
  Calendar_inv generated
    (fst (Calendar.add_reminder event_id date_time type_ self)).
Proof.
  intros Inv. unfold Calendar.add_reminder. unfold bind at 1, get at 1.
  destruct (dict_get event_id (Calendar.events self)) as [event|] eqn:G.
  - rewrite (on_event_eq _ _ _ _ G). cbn [fst].
    now apply (Calendar_inv_set_event _ _ _ event).
  - exact Inv.
Qed.

Lemma Calendar_inv_delete_reminder generated (self : Calendar.t) event_id
    reminder_index :
  Calendar_inv generated self ->
  Calendar_inv generated
    (fst (Calendar.delete_reminder event_id reminder_index self)).
Proof.
  intros Inv. unfold Calendar.delete_reminder. unfold bind at 1, get at 1.
  destruct (dict_get event_id (Calendar.events self)) as [event|] eqn:G.
  - rewrite (on_event_eq _ _ _ _ G). cbn [fst].
    apply (Calendar_inv_set_event _ _ _ event); [exact Inv | exact G | |];
      unfold Event.delete_reminder;
      destruct ((0 <=? reminder_index)
                && (reminder_index <? Z.of_nat (List.length (Event.reminders event))));
      reflexivity.
  - exact Inv.
Qed.

(** After [delete_event] has cleared the first [Day] holding the id, what
    the slots hold is registered under another id. *)
Lemma slots_dated_clear_first (self : Calendar.t) event_id d day slot id :
  Calendar_ok self -> slots_dated self ->
  In (d, day) (clear_first event_id (Calendar.days self)) ->
  In (slot, Some id) (Day.slots day) ->
  id <> event_id
  /\ exists event,
       dict_get id (Calendar.events self) = Some event
       /\ Event.date_ event = d.
Proof.
  intros [OKd OKe] Dated I Is.
  assert (N : id <> event_id).
  { intros ->.
    destruct (dict_get event_id (Calendar.events self)) as [ev|] eqn:G.
    - assert (U : unbooked event_id
                    (clear_first event_id (Calendar.days self))).
      { apply (clear_first_clears event_id (Event.date_ ev)); [apply OKd|].
        intros d0 day0 I0 N0.
        destruct (Day.holds event_id day0) eqn:Hd; [|reflexivity].
        apply holds_In in Hd. destruct Hd as (slot0 & Is0).
        destruct (Dated d0 day0 slot0 event_id I0 Is0) as (ev0 & G0 & D0).
        congruence. }
      apply (proj1 (holds_false _ _) (U d day I) slot Is).
    - apply In_clear_first in I. destruct I as (day0 & I0 & [->| ->]).
      + destruct (Dated d day0 slot event_id I0 Is) as (ev0 & G0 & _).
        congruence.
      + apply clear_holds in Is. now destruct Is. }
  split; [exact N|].
  apply In_clear_first in I. destruct I as (day0 & I0 & [->| ->]).
  - eauto.
  - apply clear_holds in Is. destruct Is as [Is _]. eauto.
Qed.

Lemma Calendar_inv_delete_event generated (self : Calendar.t) event_id :
  Calendar_inv generated self ->
  Calendar_inv generated (fst (Calendar.delete_event event_id self)).
Proof.
  intros (OK & Dated & Ids & Gen).
  rewrite Calendar_delete_event_eq by exact (proj1 OK).
  destruct (dict_contains event_id (Calendar.events self)) eqn:C; cbn [fst];
    [|exact (conj OK (conj Dated (conj Ids Gen)))].
  split; [|split; [|split]].
  - split; cbn [Calendar.days Calendar.events].
    + apply days_ok_clear_first. exact (proj1 OK).
    + apply dict_ok_pop. exact (proj2 OK).
  - intros d day slot id I Is. cbn [Calendar.days Calendar.events] in *.
    destruct (slots_dated_clear_first _ _ _ _ _ _ OK Dated I Is)
      as (N & ev & G & D).
    exists ev. split; [|exact D]. rewrite dict_get_pop_other; auto.
  - intros id ev G. cbn [Calendar.events] in G.
    apply dict_get_In, In_dict_pop in G. apply Ids.
    apply In_dict_get; [exact (proj2 OK) | exact G].
  - intros id I. cbn [Calendar.events] in I.
    apply dict_keys_pop_incl in I. now apply Gen.
Qed.

Lemma Day_add_event_outcome event_id start_at end_at day :
  dict_ok (Day.slots day) ->
  snd (Day.add_event event_id start_at end_at day) = Ok tt
  \/ snd (Day.add_event event_id start_at end_at day) = Raise SlotNotAvailable.
Proof.
  intros OK. rewrite Day_add_event_book by exact OK. apply book_outcome.
Qed.

Lemma Day_add_event_holds event_id start_at end_at day slot id :
  dict_ok (Day.slots day) ->
  In (slot, Some id)
     (Day.slots (fst (Day.add_event event_id start_at end_at day))) ->
  In (slot, Some id) (Day.slots day) \/ id = event_id.
Proof.
  intros OK I. rewrite Day_add_event_book in I by exact OK.
  apply book_holds in I. tauto.
Qed.

Lemma day_or_new_In d (days : dict date Day.t) slot id :
  In (slot, Some id) (Day.slots (day_or_new d days)) ->
  In (d, day_or_new d days) days.
Proof.
  unfold day_or_new. destruct (dict_get d days) as [day|] eqn:G; intros I.
  - now apply dict_get_In.
  - rewrite Day_init_slots in I. apply grid_free in I. discriminate.
Qed.

Lemma Calendar_inv_add_event generated (self : Calendar.t) today new_id title
    description date_ start_at end_at :
  Calendar_inv generated self ->
  (date_ltb date_ today = false -> ~ In new_id generated) ->
  snd (Calendar.add_event today new_id title description date_ start_at end_at
         self) <> Raise SlotNotAvailable ->
  Calendar_inv ((if date_ltb date_ today then [] else [new_id]) ++ generated)
    (fst (Calendar.add_event today new_id title description date_ start_at
            end_at self)).
Proof.
  intros Inv Fresh NoFail.
  pose proof (Calendar_add_event_ok today new_id title description date_
                start_at end_at self (proj1 Inv)) as OK'.
  destruct Inv as (OK & Dated & Ids & Gen).
  destruct (date_ltb date_ today) eqn:L.
  - unfold Calendar.add_event, raise_if, bind. rewrite L. cbn [fst app].
    exact (conj OK (conj Dated (conj Ids Gen))).
  - specialize (Fresh eq_refl).
    rewrite Calendar_add_event_eq in NoFail, OK' |- * by exact L.
    pose proof (day_or_new_ok date_ _ (proj1 OK)) as OK0.
    pose proof (Day_add_event_outcome new_id start_at end_at _ OK0) as O.
    destruct (Day.add_event new_id start_at end_at
                (day_or_new date_ (Calendar.days self))) as [day' r] eqn:A.
    cbn [snd] in O. destruct O as [-> | ->]; [|now cbn [snd] in NoFail].
    apply Day_add_event_Ok in A; [|exact OK0]. destruct A as [F ->].
    cbn [fst] in *.
    assert (Old : forall id, In id (dict_keys (Calendar.events self)) ->
                             new_id <> id)
      by (intros id I ->; apply Fresh, Gen, I).
    split; [exact OK'|]. split; [|split].
    + intros d day slot id I Is. cbn [Calendar.days Calendar.events] in *.
      assert (Was : exists d0 day0, In (d0, day0) (Calendar.days self)
                      /\ In (slot, Some id) (Day.slots day0) /\ d0 = d
                    \/ (id = new_id /\ d = date_)).
      { apply In_dict_set in I. destruct I as [[-> ->]|I].
        - unfold booked in Is. cbn [Day.slots] in Is.
          apply assign_holds in Is. destruct Is as [Is| ->].
          + exists date_, (day_or_new date_ (Calendar.days self)). left.
            split; [eapply day_or_new_In; exact Is | auto].
          + exists date_, (day_or_new date_ (Calendar.days self)). now right.
        - exists d, day. left. auto. }
      destruct Was as (d0 & day0 & [(I0 & Is0 & <-) | [-> ->]]).
      * destruct (Dated d0 day0 slot id I0 Is0) as (ev & G & D).
        exists ev. split; [|exact D].
        rewrite dict_get_set_other; [exact G|].
        apply Old. now apply dict_get_Some_key in G.
      * eexists. split; [apply dict_get_set_same | reflexivity].
    + intros id ev G. cbn [Calendar.events] in G.
      destruct (String.eqb new_id id) eqn:E.
      * apply String.eqb_eq in E. subst id.
        rewrite dict_get_set_same in G. now injection G as <-.
      * apply String.eqb_neq in E.
        rewrite dict_get_set_other in G by exact E. now apply Ids.
    + intros id I. cbn [Calendar.events] in I.
      apply dict_keys_set_incl in I.
      destruct I as [->|I]; [now left | right; now apply Gen].
Qed.

Lemma Calendar_inv_rebook_days generated (self : Calendar.t) event_id event
    start_at end_at :
  Calendar_inv generated self ->
  dict_get event_id (Calendar.events self) = Some event ->
  Calendar_inv generated
    (Calendar.mk
       (fst (rebook_days event_id event_id start_at end_at (Calendar.days self)))
       (Calendar.events self)).
Proof.
  intros (OK & Dated & Ids & Gen) G.
  split; [|split; [|split]]; [| |exact Ids|exact Gen].
  - split; [|exact (proj2 OK)]. apply days_ok_rebook_days. exact (proj1 OK).
  - intros d day' slot id I Is. cbn [Calendar.days Calendar.events] in *.
    apply In_rebook_days in I. destruct I as (day & I & C).
    assert (OKs : dict_ok (Day.slots day)) by (apply (proj1 OK) in I; exact I).
    destruct C as [->|[Hd C]]; [eauto|].
    assert (Mine : exists ev, dict_get event_id (Calendar.events self) = Some ev
                              /\ Event.date_ ev = d).
    { apply holds_In in Hd. destruct Hd as (slot0 & Is0). eauto. }
    destruct C as [-> | ->].
    + rewrite Day_delete_event_clear in Is by exact OKs. cbn [fst Day.slots] in Is.
      apply clear_holds in Is. destruct Is as [Is _]. eauto.
    + rewrite Day_update_event_rebook in Is
        by (now apply Day_delete_event_ok).
      cbn [fst Day.slots] in Is. apply rebook_holds in Is.
      destruct Is as [Is| ->]; [|exact Mine].
      apply clear_holds in Is. destruct Is as [Is _].
      rewrite Day_delete_event_clear in Is by exact OKs. cbn [fst Day.slots] in Is.
      apply clear_holds in Is. destruct Is as [Is _]. eauto.
Qed.

Lemma Calendar_inv_update_event generated (self : Calendar.t) event_id title
    description date_ start_at end_at :
  Calendar_inv generated self ->
  Calendar_inv generated
    (fst (Calendar.update_event event_id title description date_ start_at
            end_at self)).
Proof.
  intros Inv.
  destruct (dict_get event_id (Calendar.events self)) as [event|] eqn:G;
    [|now rewrite Calendar_update_event_missing].
  destruct (date_eqb (Event.date_ event) date_) eqn:D.
  - destruct Inv as (OK & Dated & Ids & Gen).
    rewrite (Calendar_update_event_same _ _ _ _ _ _ _ _ (proj1 (proj1 OK)) G D).
    cbn [fst]. rewrite (Ids _ _ G). apply date_eqb_eq in D.
    set (event' := Event.mk title description date_ start_at end_at event_id
                            (Event.reminders event)).
    apply (Calendar_inv_rebook_days generated
             (Calendar.mk (Calendar.days self)
                (dict_set event_id event' (Calendar.events self)))
             event_id event').
    + apply (Calendar_inv_set_event _ _ _ event);
        [exact (conj OK (conj Dated (conj Ids Gen))) | exact G
        | symmetry; exact D | symmetry; exact (Ids _ _ G)].
    + apply dict_get_set_same.
  - destruct Inv as (OK & Dated & Ids & Gen).
    rewrite (Calendar_update_event_new _ _ _ _ _ _ _ _ (proj1 OK) G D).
    cbv zeta.
    set (days1 := clear_first event_id (Calendar.days self)).
    assert (OK1 : days_ok days1) by (apply days_ok_clear_first; exact (proj1 OK)).
    pose proof (day_or_new_ok date_ _ OK1) as OK0.
    pose proof (Day_add_event_ok event_id start_at end_at _ OK0) as OK'.
    pose proof (Day_add_event_holds event_id start_at end_at
                  (day_or_new date_ days1)) as Hs.
    destruct (Day.add_event event_id start_at end_at (day_or_new date_ days1))
      as [day' r]. cbn [fst] in *.
    split; [|split; [|split]].
    + split; cbn [Calendar.days Calendar.events].
      * now apply days_ok_set.
      * apply dict_ok_set, dict_ok_pop. exact (proj2 OK).
    + intros d day slot id I Is. cbn [Calendar.days Calendar.events] in *.
      assert (Was : (exists day0, In (d, day0) days1
                                  /\ In (slot, Some id) (Day.slots day0))
                    \/ (id = event_id /\ d = date_)).
      { apply In_dict_set in I. destruct I as [[-> ->]|I].
        - apply Hs in Is; [|exact OK0]. destruct Is as [Is| ->]; [|now right].
          left. exists (day_or_new date_ days1).
          split; [eapply day_or_new_In; exact Is | exact Is].
        - left. eauto. }
      destruct Was as [(day0 & I0 & Is0) | [-> ->]].
      * destruct (slots_dated_clear_first _ _ _ _ _ _ OK Dated I0 Is0)
          as (N & ev & Gi & Dv).
        exists ev. split; [|exact Dv].
        rewrite dict_get_set_other by congruence.
        rewrite dict_get_pop_other by congruence. exact Gi.
      * eexists. split; [apply dict_get_set_same | reflexivity].
    + intros id ev Gi. cbn [Calendar.events] in Gi.
      destruct (String.eqb event_id id) eqn:E.
      * apply String.eqb_eq in E. subst id.
        rewrite dict_get_set_same in Gi. now injection Gi as <-.
      * apply String.eqb_neq in E.
        rewrite dict_get_set_other in Gi by exact E.
        rewrite dict_get_pop_other in Gi by exact E. now apply Ids.
    + intros id I. cbn [Calendar.events] in I.
      apply dict_keys_set_incl in I. destruct I as [->|I].
      * apply Gen. now apply dict_get_Some_key in G.
      * apply dict_keys_pop_incl in I. now apply Gen.
Qed.

Lemma Calendar_inv_init : Calendar_inv [] Calendar.init.
Proof.
  split; [|split; [|split]].
  - repeat split; try constructor. intros d day [].
  - intros d day slot id [].
  - intros id ev G. discriminate.
  - intros id [].
Qed.

Lemma reachable_inv generated (self : Calendar.t) :
  reachable_by (fun c err => ~ failed_booking c err) generated self ->
  Calendar_inv generated self.
Proof.
  induction 1 as [|generated self c self' err R IH Fresh Run Allowed].
  - exact Calendar_inv_init.
  - destruct c as [today new_id title description date_ start_at end_at
                  | event_id date_time type_
                  | event_id title description date_ start_at end_at
                  | event_id | event_id reminder_index];
      cbn [run_call generates failed_booking app] in *.
    + pose proof (Calendar_inv_add_event generated self today new_id title
                    description date_ start_at end_at IH) as P.
      destruct (Calendar.add_event today new_id title description date_
                  start_at end_at self) as [s r].
      injection Run as <- <-. cbn [fst snd] in P. apply P.
      * intros L. rewrite L in Fresh. apply Fresh. now left.
      * intros ->. now apply Allowed.
    + pose proof (Calendar_inv_add_reminder generated self event_id date_time
                    type_ IH) as P.
      destruct (Calendar.add_reminder event_id date_time type_ self).
      now injection Run as <- <-.
    + pose proof (Calendar_inv_update_event generated self event_id title
                    description date_ start_at end_at IH) as P.
      destruct (Calendar.update_event event_id title description date_
                  start_at end_at self).
      now injection Run as <- <-.
    + pose proof (Calendar_inv_delete_event generated self event_id IH) as P.
      destruct (Calendar.delete_event event_id self).
      now injection Run as <- <-.
    + pose proof (Calendar_inv_delete_reminder generated self event_id
                    reminder_index IH) as P.
      destruct (Calendar.delete_reminder event_id reminder_index self).
      now injection Run as <- <-.
Qed.

(** C1 (amended). For every [Calendar] reached from an empty one by any
    sequence of [add_event], [add_reminder], [update_event], [delete_event]
    and [delete_reminder] calls, failed ones included, in which no
    [add_event] failed with [SlotNotAvailable]: every event id stored in a
    slot of a [Day] is a key of [events]. *)
Theorem reachable_slots_registered (generated : list string)
    (self : Calendar.t) :
  reachable_by (fun c err => ~ failed_booking c err) generated self ->
  slots_registered self.
Proof.
  intros R. apply reachable_inv in R. destruct R as (_ & Dated & _).
  intros d day slot id I Is.
  destruct (Dated d day slot id I Is) as (ev & G & _).
  now apply dict_get_Some_key in G.
Qed.

(** *** The scenario, step by step *)

Lemma run_meeting : run_call meeting Calendar.init = (after_meeting, None).
Proof. vm_compute. reflexivity. Qed.

Lemma run_clash :
  run_call clash after_meeting = (after_clash, Some SlotNotAvailable).
Proof. vm_compute. reflexivity. Qed.

Lemma after_clash_days :
  Calendar.days after_clash
  = [(tuesday,
      Day.mk tuesday
        (fst (book "B" (time_of 9 45) (time_of 10 15) (Day.slots meeting_day))))].
Proof. vm_compute. reflexivity. Qed.

Lemma after_clash_day :
  exists day,
    In (tuesday, day) (Calendar.days after_clash)
    /\ In (time_of 9 45, Some "B"%string) (Day.slots day)
    /\ dict_keys (Calendar.events after_clash) = ["A"%string].
Proof.
  eexists. split; [|split].
  - rewrite after_clash_days. left. reflexivity.
  - apply (nth_error_In _ 39). vm_compute. reflexivity.
  - vm_compute. reflexivity.
Qed.

(** C1, as stated, fails: after the meeting is booked, the clashing
    [add_event] raises [SlotNotAvailable] having given slot 09:45 to its
    id ["B"], which never reaches [events]. *)
Lemma reachable_slot_unregistered :
  ~ (forall generated self, reachable generated self -> slots_registered self).
Proof.
  intros Claim.
  assert (R : reachable ["B"; "A"]%string after_clash).
  { apply (reachable_call _ ["A"%string] after_meeting clash after_clash
             (Some SlotNotAvailable)).
    - apply (reachable_call _ [] Calendar.init meeting after_meeting None).
      + constructor.
      + intros id _ [].
      + exact run_meeting.
      + exact I.
    - intros id [<-|[]] [E|[]]. discriminate.
    - exact run_clash.
    - exact I. }
  destruct after_clash_day as (day & Id & Is & K).
  pose proof (Claim _ _ R tuesday day (time_of 9 45) "B"%string Id Is) as Reg.
  rewrite K in Reg. destruct Reg as [E|[]]. discriminate.
Qed.

(** C6, as stated, fails: once the current date has passed the date of the
    first event, a second [add_event] on that date over the same slots
    fails with [DateLowerThanToday], not with [SlotNotAvailable]. *)
Lemma Calendar_add_event_overlap_past :
  ~ (forall (self self1 : Calendar.t)
       (today1 : date) (id1 title1 description1 : string) (date_ : date)
       (start1 end1 : time)
       (today2 : date) (id2 title2 description2 : string) (start2 end2 : time),
        Calendar_ok self ->
        Calendar.add_event today1 id1 title1 description1 date_ start1 end1 self
        = (self1, Ok id1) ->
        (exists day1 slot,
            dict_get date_ (Calendar.days self1) = Some day1
            /\ dict_get slot (Day.slots day1) = Some (Some id1)
            /\ in_range start1 end1 slot = true
            /\ in_range start2 end2 slot = true) ->
        exists self2,
          Calendar.add_event today2 id2 title2 description2 date_ start2 end2
                             self1
          = (self2, Raise SlotNotAvailable)).
Proof.
  intros Claim.
  destruct (Claim Calendar.init after_meeting
              tuesday "A" "Meeting" "Weekly" tuesday (time_of 10 0) (time_of 10 30)
              wednesday "B" "Review" "Code" (time_of 10 0) (time_of 10 30))%string
    as (self2 & E).
  - exact (proj1 Calendar_inv_init).
  - vm_compute. reflexivity.
  - exists meeting_day, (time_of 10 0).
    repeat split; vm_compute; reflexivity.
  - assert (P : Calendar.add_event wednesday "B" "Review" "Code" tuesday
                  (time_of 10 0) (time_of 10 30) after_meeting
                = (after_meeting, Raise DateLowerThanToday))
      by (vm_compute; reflexivity).
    rewrite P in E. apply (f_equal snd) in E. cbn [snd] in E.
    discriminate E.
Qed.

(** ** The theorems at work on the scenario *)

Lemma range_freeb_spec start_at end_at (items : dict time slot_value) :
  range_freeb start_at end_at items = true -> range_free start_at end_at items.
Proof.
  unfold range_freeb. rewrite forallb_forall. intros F slot v I R.
  specialize (F (slot, v) I). simpl in F. rewrite R in F. simpl in F.
  destruct v; [discriminate | reflexivity].
Qed.

Lemma meeting_day_ok : dict_ok (Day.slots meeting_day).
Proof.
  unfold meeting_day, booked, dict_ok. cbn [Day.slots].
  rewrite keys_map_assign. apply Day_init_ok.
Qed.

Lemma after_remind_eq :
  after_remind
  = fst (Calendar.add_reminder "A" (mk_datetime tuesday (time_of 9 0))
           Reminder.EMAIL after_meeting).
Proof. vm_compute. reflexivity. Qed.

Lemma after_meeting_inv : Calendar_inv ["A"%string] after_meeting.
Proof.
  apply reachable_inv.
  apply (reachable_call _ [] Calendar.init meeting after_meeting None);
    [constructor | intros id _ [] | exact run_meeting | cbn; discriminate].
Qed.

Lemma after_remind_ok : Calendar_ok after_remind.
Proof.
  rewrite after_remind_eq.
  exact (proj1 (Calendar_inv_add_reminder _ _ _ _ _ after_meeting_inv)).
Qed.

Lemma after_remind_days :
  Calendar.days after_remind = [(tuesday, meeting_day)].
Proof. vm_compute. reflexivity. Qed.

Lemma reachable_slots_registered_witness : slots_registered after_meeting.
Proof.
  apply (reachable_slots_registered ["A"%string] after_meeting).
  apply (reachable_call _ [] Calendar.init meeting after_meeting None).
  - constructor.
  - intros id _ [].
  - exact run_meeting.
  - cbn. discriminate.
Defined.

Lemma Day_init_grid_witness :
  In (time_of 10 15) (dict_keys (Day.slots (Day.init tuesday)))
  /\ Day._init_slots 100 = Some (Day.slots (Day.init tuesday)).
Proof.
  split.
  - apply (proj2 (proj1 (proj2 (proj2 (proj2 (Day_init_grid tuesday))))
                        (time_of 10 15))).
    cbn. repeat split; try lia; auto.
  - apply (proj2 (proj2 (proj2 (proj2 (proj2 (Day_init_grid tuesday)))))).
    lia.
Defined.

Lemma Day_add_event_in_order_witness :
  Day.add_event "B" (time_of 9 45) (time_of 10 15) meeting_day
  = (Day.mk (Day.date_ meeting_day)
       (map (assign "B" (time_of 9 45) (time_of 10 15))
            (firstn 40 (Day.slots meeting_day))
        ++ (time_of 10 0, Some "A"%string) :: skipn 41 (Day.slots meeting_day)),
     Raise SlotNotAvailable).
Proof.
  apply (proj1 (Day_add_event_in_order meeting_day "B" (time_of 9 45)
                  (time_of 10 15) meeting_day_ok)).
  - vm_compute. reflexivity.
  - reflexivity.
  - apply range_freeb_spec. vm_compute. reflexivity.
Defined.

Lemma Day_add_event_empty_range_witness :
  Day.add_event "B" (time_of 11 0) (time_of 10 0) meeting_day
  = (meeting_day, Ok tt)
  /\ Day.add_event "B" (time_of 23 40) (time_of 23 50) meeting_day
     = (meeting_day, Ok tt)
  /\ Day.add_event "B" (time_of 23 31) (time_of 23 59) meeting_day
     = (meeting_day, Ok tt).
Proof.
  split; [|split].
  - apply (proj1 (proj2 (Day_add_event_empty_range meeting_day "B"
                           (time_of 11 0) (time_of 10 0)))).
    reflexivity.
  - apply (proj1 (Day_add_event_empty_range meeting_day "B"
                    (time_of 23 40) (time_of 23 50))).
    intros slot I. apply negb_true_iff. revert slot I. apply forallb_forall.
    vm_compute. reflexivity.
  - apply (proj2 (proj2 (Day_add_event_empty_range meeting_day "B"
                           (time_of 23 31) (time_of 23 59)))).
    + vm_compute. reflexivity.
    + right. reflexivity.
Defined.

Lemma Calendar_add_then_delete_event_witness :
  exists self2,
    Calendar.delete_event "A" after_meeting = (self2, Ok tt)
    /\ dict_get "A"%string (Calendar.events self2) = None
    /\ Calendar.days self2 = [(tuesday, Day.init tuesday)].
Proof.
  destruct (Calendar_add_then_delete_event Calendar.init after_meeting tuesday
              "A" "Meeting" "Weekly" tuesday (time_of 10 0) (time_of 10 30) "A")
    as (self2 & day1 & day2 & D & G & _ & _ & _ & _ & E2 & Ed).
  - repeat split; try constructor. intros d day [].
  - intros d day [].
  - vm_compute. reflexivity.
  - exists self2. split; [exact D|]. split; [exact G|].
    rewrite Ed, E2. reflexivity.
Defined.

Lemma Calendar_add_event_overlap_witness :
  exists self2,
    Calendar.add_event tuesday "B" "Review" "Code" tuesday
      (time_of 10 15) (time_of 11 0) after_meeting
    = (self2, Raise SlotNotAvailable)
    /\ Calendar.events self2 = Calendar.events after_meeting.
Proof.
  destruct (Calendar_add_event_overlap Calendar.init after_meeting
              tuesday "A" "Meeting" "Weekly" tuesday (time_of 10 0) (time_of 10 30)
              tuesday "B" "Review" "Code" (time_of 10 15) (time_of 11 0))
    as (self2 & day1 & day2 & A & _ & _ & _ & E).
  - repeat split; try constructor. intros d day [].
  - vm_compute. reflexivity.
  - reflexivity.
  - exists meeting_day, (time_of 10 15).
    repeat split; vm_compute; reflexivity.
  - exists self2. split; assumption.
Defined.

Lemma Calendar_add_event_past_witness :
  Calendar.add_event wednesday "B" "Review" "Code" tuesday
    (time_of 8 0) (time_of 9 0) after_meeting
  = (after_meeting, Raise DateLowerThanToday).
Proof.
  apply (Calendar_add_event_past after_meeting wednesday "B" "Review" "Code"
           tuesday (time_of 8 0) (time_of 9 0)).
  reflexivity.
Defined.

Lemma Event_delete_reminder_index_witness :
  (exists self',
      Event.delete_reminder 1 reminded = (self', Ok tt)
      /\ Event.reminders self'
         = [Reminder.mk (mk_datetime tuesday (time_of 9 0)) Reminder.EMAIL])
  /\ Event.delete_reminder 2 reminded = (reminded, Raise ReminderNotFound)
  /\ Event.delete_reminder (-1) reminded = (reminded, Raise ReminderNotFound).
Proof.
  split; [|split].
  - destruct (proj1 (Event_delete_reminder_index reminded 1))
      as (self' & D & R & _).
    + cbn. lia.
    + exists self'. split; [exact D | exact R].
  - apply (proj2 (Event_delete_reminder_index reminded 2)). cbn. lia.
  - apply (proj2 (Event_delete_reminder_index reminded (-1))). cbn. lia.
Defined.

Lemma Calendar_update_event_moves_witness :
  (forall day, dict_get tuesday (Calendar.days after_move) = Some day ->
               Day.holds "A" day = false)
  /\ exists event day2,
       dict_get "A"%string (Calendar.events after_move) = Some event
       /\ Event.id event = "A"%string /\ Event.date_ event = wednesday
       /\ dict_get wednesday (Calendar.days after_move) = Some day2
       /\ dict_get (time_of 14 30) (Day.slots day2) = Some (Some "A"%string).
Proof.
  destruct (Calendar_update_event_moves after_remind after_move
              "A" "Meeting" "Moved" tuesday wednesday
              (time_of 14 0) (time_of 15 0)
              (Event.mk "Meeting" "Weekly" tuesday (time_of 10 0) (time_of 10 30)
                 "A" [Reminder.mk (mk_datetime tuesday (time_of 9 0))
                                  Reminder.EMAIL]))
    as (Old & _ & G & day2 & G2 & In2 & _).
  - exact after_remind_ok.
  - vm_compute. reflexivity.
  - reflexivity.
  - intros d day I N. rewrite after_remind_days in I.
    destruct I as [E|[]]. injection E as <- _. contradiction.
  - discriminate.
  - vm_compute. reflexivity.
  - split; [exact Old|]. eexists. exists day2.
    split; [exact G|]. split; [reflexivity|]. split; [reflexivity|].
    split; [exact G2|]. apply In2; [|reflexivity].
    apply dict_get_Some_key with (v := Some "A"%string).
    vm_compute in G2. injection G2 as <-. vm_compute. reflexivity.
Defined.

Lemma Calendar_update_event_reminders_witness :
  (exists event',
      dict_get "A"%string (Calendar.events after_move) = Some event'
      /\ Event.reminders event' = [])
  /\ (exists event',
         dict_get "A"%string
           (Calendar.events
              (fst (Calendar.update_event "A" "Meeting" "Later" tuesday
                      (time_of 11 0) (time_of 12 0) after_remind)))
         = Some event'
         /\ Event.reminders event'
            = [Reminder.mk (mk_datetime tuesday (time_of 9 0)) Reminder.EMAIL]).
Proof.
  split.
  - destruct (Calendar_update_event_reminders after_remind after_move
                "A" "Meeting" "Moved" wednesday (time_of 14 0) (time_of 15 0)
                (Event.mk "Meeting" "Weekly" tuesday (time_of 10 0)
                   (time_of 10 30) "A"
                   [Reminder.mk (mk_datetime tuesday (time_of 9 0))
                                Reminder.EMAIL])
                (Ok tt))
      as (event' & G & _ & New).
    + exact after_remind_ok.
    + vm_compute. reflexivity.
    + vm_compute. reflexivity.
    + exists event'. split; [exact G|]. apply New; [discriminate | reflexivity].
  - destruct (Calendar_update_event_reminders after_remind
                (fst (Calendar.update_event "A" "Meeting" "Later" tuesday
                        (time_of 11 0) (time_of 12 0) after_remind))
                "A" "Meeting" "Later" tuesday (time_of 11 0) (time_of 12 0)
                (Event.mk "Meeting" "Weekly" tuesday (time_of 10 0)
                   (time_of 10 30) "A"
                   [Reminder.mk (mk_datetime tuesday (time_of 9 0))
                                Reminder.EMAIL])
                (Ok tt))
      as (event' & G & Same & _).
    + exact after_remind_ok.
    + vm_compute. reflexivity.
    + vm_compute. reflexivity.
    + exists event'. split; [exact G|]. apply Same. reflexivity.
Defined.

(** * Further properties *)

(** ** The methods of [Day] *)

Section Rebooking.
Variables (event_id : string) (start_at end_at : time).
Implicit Types (items : dict time slot_value).

(** Every slot of the range is false in [if v:]. *)
Lemma rebook_Ok_iff items :
  snd (rebook event_id start_at end_at items) = Ok tt <->
  (forall slot v, In (slot, v) items -> in_range start_at end_at slot = true ->
                  truthy v = false).
Proof.
  induction items as [|[k v] rest IH]; simpl.
  - split; [intros _ ? ? [] | reflexivity].
  - destruct (in_range start_at end_at k) eqn:R.
    + destruct (truthy v) eqn:T; simpl.
      * split; [discriminate|]. intros F.
        specialize (F k v (or_introl eq_refl) R). congruence.
      * destruct (rebook event_id start_at end_at rest) as [rest' r].
        simpl in *. rewrite IH. split.
        -- intros F slot w [E|I] Rs; [injection E as <- <-; exact T | eauto].
        -- intros F slot w I. apply F. now right.
    + destruct (rebook event_id start_at end_at rest) as [rest' r].
      simpl in *. rewrite IH. split.
      * intros F slot w [E|I] Rs; [injection E as <- <-; congruence | eauto].
      * intros F slot w I. apply F. now right.
Qed.

Lemma rebook_Ok_assign items :
  snd (rebook event_id start_at end_at items) = Ok tt ->
  fst (rebook event_id start_at end_at items)
  = map (assign event_id start_at end_at) items.
Proof.
  induction items as [|[k v] rest IH]; simpl; [reflexivity|].
  unfold assign at 1. simpl.
  destruct (in_range start_at end_at k) eqn:R.
  - destruct (truthy v); simpl; [discriminate|].
    destruct (rebook event_id start_at end_at rest) as [rest' r]. simpl in *.
    intros E. now rewrite IH.
  - destruct (rebook event_id start_at end_at rest) as [rest' r]. simpl in *.
    intros E. now rewrite IH.
Qed.

Lemma rebook_outcome items :
  snd (rebook event_id start_at end_at items) = Ok tt
  \/ snd (rebook event_id start_at end_at items) = Raise SlotNotAvailable.
Proof.
  induction items as [|[slot v] rest IH]; simpl; [now left|].
  destruct (in_range start_at end_at slot), (truthy v);
    try (now right);
    destruct (rebook event_id start_at end_at rest); simpl in *; exact IH.
Qed.

(** The pass gives [event_id] to slots of the range only. *)
Lemma rebook_in_range slot items :
  In (slot, Some event_id) (fst (rebook event_id start_at end_at items)) ->
  In (slot, Some event_id) items \/ in_range start_at end_at slot = true.
Proof.
  induction items as [|[k v] rest IH]; simpl; [tauto|].
  destruct (in_range start_at end_at k) eqn:R.
  - destruct (truthy v); simpl; [tauto|].
    destruct (rebook event_id start_at end_at rest); simpl in *.
    intros [E|I]; [injection E as <-; now right | ].
    destruct (IH I); auto.
  - destruct (rebook event_id start_at end_at rest); simpl in *.
    intros [E|I]; [now left; left | ].
    destruct (IH I); auto.
Qed.
End Rebooking.

Lemma truthy_clear event_id v :
  truthy (if is_id v event_id then None else v) = false <->
  v = None \/ v = Some event_id \/ v = Some EmptyString.
Proof.
  destruct v as [x|]; simpl; [|tauto].
  destruct (String.eqb x event_id) eqn:E; simpl.
  - apply String.eqb_eq in E. subst. tauto.
  - apply String.eqb_neq in E. rewrite negb_false_iff, String.eqb_eq. split.
    + intros ->. auto.
    + intros [H|[H|H]]; congruence.
Qed.

Lemma In_map_clear event_id slot w (items : dict time slot_value) :
  In (slot, w) (map (clear event_id) items) <->
  exists v, In (slot, v) items /\ w = (if is_id v event_id then None else v).
Proof.
  rewrite in_map_iff. unfold clear. split.
  - intros ([k v] & E & I). simpl in E. exists v.
    destruct (is_id v event_id); injection E as <- <-; auto.
  - intros (v & I & ->). exists (slot, v). split; [|exact I]. simpl.
    now destruct (is_id v event_id).
Qed.

(** X1. On a slot dictionary, [Day.delete_event(event_id)] sets free every
    slot holding [event_id] and leaves every other slot as it was; it
    returns when some slot held the id, and otherwise raises
    [EventNotFound], the [Day] being as before. *)
Theorem Day_delete_event_frees (self self' : Day.t) (event_id : string)
    (r : result unit) :
  dict_ok (Day.slots self) ->
  Day.delete_event event_id self = (self', r) ->
  (forall slot, dict_get slot (Day.slots self')
                = match dict_get slot (Day.slots self) with
                  | Some v => Some (if is_id v event_id then None else v)
                  | None => None
                  end)
  /\ (forall slot, dict_get slot (Day.slots self') <> Some (Some event_id))
  /\ ((exists slot, dict_get slot (Day.slots self) = Some (Some event_id)) ->
      r = Ok tt)
  /\ ((forall slot, dict_get slot (Day.slots self) <> Some (Some event_id)) ->
      r = Raise EventNotFound /\ self' = self).
Proof.
  intros OK E. rewrite Day_delete_event_clear in E by exact OK.
  injection E as <- <-. cbn [Day.slots].
  split; [|split; [|split]].
  - intros slot. apply dict_get_map_clear.
  - intros slot G. apply dict_get_In, clear_holds in G. now destruct G.
  - intros (slot & G).
    assert (Hd : Day.holds event_id self = true)
      by (apply holds_In; exists slot; now apply dict_get_In).
    now rewrite Hd.
  - intros N.
    assert (Hd : Day.holds event_id self = false).
    { apply holds_false. intros slot I. apply (N slot).
      now apply In_dict_get. }
    rewrite Hd. split; [reflexivity|].
    destruct self as [dt items]. cbn [Day.date_ Day.slots] in *. f_equal.
    rewrite <- (map_id items) at 2. apply map_ext_in. intros [k v] I.
    unfold clear. simpl. destruct (is_id v event_id) eqn:D; [|reflexivity].
    exfalso. destruct v as [x|]; [|discriminate]. simpl in D.
    apply String.eqb_eq in D. subst.
    apply (proj1 (holds_false _ _) Hd k I).
Qed.

(** X2. On a slot dictionary, [Day.update_event(event_id, start, end)]
    returns exactly when every slot of the range holds nothing, [event_id]
    itself or the empty string, and otherwise raises [SlotNotAvailable]
    (never [EventNotFound]). When it returns, the slots of the range hold
    [event_id], the other slots that held it are free and the rest is
    unchanged. *)
Theorem Day_update_event_outcome (self self' : Day.t) (event_id : string)
    (start_at end_at : time) (r : result unit) :
  dict_ok (Day.slots self) ->
  Day.update_event event_id start_at end_at self = (self', r) ->
  (range_vacant event_id start_at end_at (Day.slots self) -> r = Ok tt)
  /\ (~ range_vacant event_id start_at end_at (Day.slots self) ->
      r = Raise SlotNotAvailable)
  /\ (r = Ok tt ->
      forall slot,
        dict_get slot (Day.slots self')
        = match dict_get slot (Day.slots self) with
          | Some v => Some (if in_range start_at end_at slot then Some event_id
                            else if is_id v event_id then None else v)
          | None => None
          end).
Proof.
  intros OK E. rewrite Day_update_event_rebook in E by exact OK.
  injection E as <- <-. cbn [Day.slots].
  set (items := map (clear event_id) (Day.slots self)).
  assert (V : snd (rebook event_id start_at end_at items) = Ok tt <->
              range_vacant event_id start_at end_at (Day.slots self)).
  { rewrite rebook_Ok_iff. unfold range_vacant, items. split.
    - intros F slot v I R. apply truthy_clear. apply (F slot); [|exact R].
      apply In_map_clear. eauto.
    - intros F slot w I R. apply In_map_clear in I. destruct I as (v & I & ->).
      apply truthy_clear. eauto. }
  split; [|split].
  - apply V.
  - intros N. destruct (rebook_outcome event_id start_at end_at items) as [O|O];
      [|exact O]. apply V in O. contradiction.
  - intros O slot. rewrite rebook_Ok_assign by exact O.
    rewrite dict_get_map_assign. unfold items. rewrite dict_get_map_clear.
    now destruct (dict_get slot (Day.slots self)).
Qed.

(** X3. On a slot dictionary, whatever the outcome of
    [Day.update_event(event_id, start, end)], a slot that holds [event_id]
    afterwards lies in the range: the previous booking is gone also when
    the call raises. *)
Theorem Day_update_event_drops_old (self : Day.t) (event_id : string)
    (start_at end_at : time) (slot : time) :
  dict_ok (Day.slots self) ->
  dict_get slot
    (Day.slots (fst (Day.update_event event_id start_at end_at self)))
  = Some (Some event_id) ->
  in_range start_at end_at slot = true.
Proof.
  intros OK G. rewrite Day_update_event_rebook in G by exact OK.
  cbn [fst Day.slots] in G. apply dict_get_In, rebook_in_range in G.
  destruct G as [I|R]; [|exact R].
  apply clear_holds in I. now destruct I.
Qed.

(** X4. The three methods of [Day] never add, remove or reorder slot keys,
    and never change the date, whatever their outcome. *)
Theorem Day_methods_keep_keys (self : Day.t) (event_id : string)
    (start_at end_at : time) :
  dict_ok (Day.slots self) ->
  (dict_keys (Day.slots (fst (Day.add_event event_id start_at end_at self)))
   = dict_keys (Day.slots self)
   /\ Day.date_ (fst (Day.add_event event_id start_at end_at self))
      = Day.date_ self)
  /\ (dict_keys (Day.slots (fst (Day.delete_event event_id self)))
      = dict_keys (Day.slots self)
      /\ Day.date_ (fst (Day.delete_event event_id self)) = Day.date_ self)
  /\ (dict_keys (Day.slots (fst (Day.update_event event_id start_at end_at self)))
      = dict_keys (Day.slots self)
      /\ Day.date_ (fst (Day.update_event event_id start_at end_at self))
         = Day.date_ self).
Proof.
  intros OK.
  rewrite Day_add_event_book, Day_delete_event_clear, Day_update_event_rebook
    by exact OK.
  cbn [fst Day.slots Day.date_].
  rewrite book_keys, rebook_keys, !keys_map_clear. auto.
Qed.

(** ** Free slots and events by date *)

Section DictExtra.
Context {K V : Type} `{EqBLaws K}.
Implicit Types (d : dict K V) (k : K) (v : V).

Lemma dict_set_same k v d : dict_get k d = Some v -> dict_set k v d = d.
Proof.
  induction d as [|[k0 v0] d IH]; simpl; [discriminate|].
  destruct (eqb k k0) eqn:E.
  - now intros [= ->].
  - intros G. now rewrite IH.
Qed.

Lemma dict_set_new k v d : dict_get k d = None -> dict_set k v d = d ++ [(k, v)].
Proof.
  induction d as [|[k0 v0] d IH]; simpl; [reflexivity|].
  destruct (eqb k k0) eqn:E; [discriminate|].
  intros G. now rewrite IH.
Qed.
End DictExtra.

Lemma free_after_assign event_id start_at end_at (items : dict time slot_value) :
  map fst (filter is_free (map (assign event_id start_at end_at) items))
  = filter (fun slot => negb (in_range start_at end_at slot))
           (map fst (filter is_free items)).
Proof.
  unfold is_free.
  induction items as [|[k v] rest IH]; [reflexivity|].
  cbn [map].
  assert (A : assign event_id start_at end_at (k, v)
              = if in_range start_at end_at k then (k, Some event_id) else (k, v))
    by reflexivity.
  rewrite A. clear A.
  destruct (in_range start_at end_at k) eqn:R, v as [x|];
    cbn [filter snd is_not_none negb map fst]; rewrite ?R; cbn [negb];
    rewrite IH; reflexivity.
Qed.

Lemma find_available_slots_eq date_ (self : Calendar.t) :
  Calendar.find_available_slots date_ self
  = match dict_get date_ (Calendar.days self) with
    | Some day => map fst (filter is_free (Day.slots day))
    | None => []
    end.
Proof. reflexivity. Qed.

Lemma free_grid : map fst (filter is_free grid) = dict_keys grid.
Proof.
  vm_compute. reflexivity.
Qed.

(** X5. After an [add_event] that returned, the free slots of its date are
    those that were free before (all the slots of the grid if the date had
    no [Day]) less the slots of the range, in slot order; the free slots of
    every other date are as before. A date without a [Day] has no free
    slot listed. *)
Theorem find_available_slots_after_add (self self1 : Calendar.t) (today : date)
    (new_id title description : string) (date_ : date) (start_at end_at : time)
    (id : string) :
  Calendar_ok self ->
  Calendar.add_event today new_id title description date_ start_at end_at self
  = (self1, Ok id) ->
  Calendar.find_available_slots date_ self1
  = filter (fun slot => negb (in_range start_at end_at slot))
      (match dict_get date_ (Calendar.days self) with
       | Some _ => Calendar.find_available_slots date_ self
       | None => dict_keys (Day.slots (Day.init date_))
       end)
  /\ (forall d, d <> date_ ->
        Calendar.find_available_slots d self1
        = Calendar.find_available_slots d self)
  /\ (dict_get date_ (Calendar.days self) = None ->
      Calendar.find_available_slots date_ self = []).
Proof.
  intros OK A. apply Calendar_add_event_Ok in A; [|exact OK].
  destruct A as (_ & _ & _ & ->). rewrite !find_available_slots_eq.
  cbn [Calendar.days]. split; [|split].
  - rewrite dict_get_set_same. unfold booked, day_or_new. cbn [Day.slots].
    rewrite free_after_assign.
    destruct (dict_get date_ (Calendar.days self)); [reflexivity|].
    now rewrite Day_init_slots, free_grid.
  - intros d N. rewrite !find_available_slots_eq. cbn [Calendar.days].
    rewrite dict_get_set_other by congruence. reflexivity.
  - intros G. now rewrite G.
Qed.

Lemma find_events_fold start_at end_at (self : Calendar.t) :
  Calendar.find_events start_at end_at self
  = fold_left (find_events_step start_at end_at) (Calendar.events self) [].
Proof. reflexivity. Qed.

Lemma find_events_step_get start_at end_at d items : forall acc,
  dict_get d (fold_left (find_events_step start_at end_at) items acc)
  = match dict_get d acc,
          (if in_window start_at end_at d
           then events_on d (dict_values items) else []) with
    | None, [] => None
    | None, l => Some l
    | Some l0, l => Some (l0 ++ l)
    end.
Proof.
  induction items as [|[k event] rest IH]; intros acc.
  - cbn [fold_left dict_values map events_on filter].
    destruct (dict_get d acc) as [l0|], (in_window start_at end_at d);
      rewrite ?app_nil_r; reflexivity.
  - cbn [fold_left]. rewrite IH.
    assert (S : find_events_step start_at end_at acc (k, event)
                = if in_window start_at end_at (Event.date_ event)
                  then dict_set (Event.date_ event)
                         (match dict_get (Event.date_ event) acc with
                          | Some l => l ++ [event]
                          | None => [event]
                          end) acc
                  else acc) by reflexivity.
    rewrite S. clear S.
    assert (C : events_on d (dict_values ((k, event) :: rest))
                = if date_eqb (Event.date_ event) d
                  then event :: events_on d (dict_values rest)
                  else events_on d (dict_values rest)) by reflexivity.
    rewrite C. clear C.
    destruct (date_eqb (Event.date_ event) d) eqn:E.
    + apply date_eqb_eq in E. subst d.
      destruct (in_window start_at end_at (Event.date_ event)) eqn:W;
        [|reflexivity].
      rewrite dict_get_set_same.
      destruct (dict_get (Event.date_ event) acc) as [l0|]; [|reflexivity].
      now rewrite <- app_assoc.
    + assert (N : Event.date_ event <> d) by now apply date_eqb_false.
      destruct (in_window start_at end_at (Event.date_ event));
        [now rewrite dict_get_set_other | reflexivity].
Qed.

Lemma find_events_step_ok start_at end_at items : forall acc,
  dict_ok acc ->
  dict_ok (fold_left (find_events_step start_at end_at) items acc).
Proof.
  induction items as [|item rest IH]; intros acc OK; simpl; [exact OK|].
  apply IH. unfold find_events_step.
  destruct (negb _ && negb _); [now apply dict_ok_set | exact OK].
Qed.

(** X6. [find_events(start, end)] maps a date [d] to the events of the
    registry dated [d], in registry order, when [start <= d <= end] and
    there is at least one such event; every other date is absent from the
    result, and no date occurs twice. *)
Theorem find_events_by_date (self : Calendar.t) (start_at end_at d : date) :
  dict_get d (Calendar.find_events start_at end_at self)
  = (if in_window start_at end_at d
     then match events_on d (dict_values (Calendar.events self)) with
          | [] => None
          | l => Some l
          end
     else None)
  /\ dict_ok (Calendar.find_events start_at end_at self).
Proof.
  rewrite find_events_fold. split.
  - rewrite find_events_step_get. simpl.
    now destruct (in_window start_at end_at d).
  - apply find_events_step_ok. constructor.
Qed.

(** ** Calls on the registry *)

Lemma Calendar_delete_event_missing event_id (self : Calendar.t) :
  dict_get event_id (Calendar.events self) = None ->
  Calendar.delete_event event_id self = (self, Raise EventNotFound).
Proof.
  intros G. unfold Calendar.delete_event, raise_if, dict_contains.
  unfold bind at 1, get at 1. unfold bind at 1. now rewrite G.
Qed.

(** X7. For an id that is not a key of [events], each of [add_reminder],
    [update_event], [delete_event], [delete_reminder] and [list_reminders]
    raises [EventNotFound] and leaves the [Calendar] as it was. *)
Theorem Calendar_unregistered_id (self : Calendar.t) (event_id : string)
    (date_time : datetime) (type_ title description : string) (date_ : date)
    (start_at end_at : time) (reminder_index : Z) :
  dict_get event_id (Calendar.events self) = None ->
  Calendar.add_reminder event_id date_time type_ self
  = (self, Raise EventNotFound)
  /\ Calendar.update_event event_id title description date_ start_at end_at self
     = (self, Raise EventNotFound)
  /\ Calendar.delete_event event_id self = (self, Raise EventNotFound)
  /\ Calendar.delete_reminder event_id reminder_index self
     = (self, Raise EventNotFound)
  /\ Calendar.list_reminders event_id self = (self, Raise EventNotFound).
Proof.
  intros G. split; [|split; [|split; [|split]]].
  - unfold Calendar.add_reminder. unfold bind at 1, get at 1. now rewrite G.
  - now apply Calendar_update_event_missing.
  - now apply Calendar_delete_event_missing.
  - unfold Calendar.delete_reminder. unfold bind at 1, get at 1. now rewrite G.
  - unfold Calendar.list_reminders. unfold bind at 1, get at 1. now rewrite G.
Qed.

Lemma Calendar_add_reminder_eq event_id date_time type_ event
    (self : Calendar.t) :
  dict_get event_id (Calendar.events self) = Some event ->
  Calendar.add_reminder event_id date_time type_ self
  = (Calendar.mk (Calendar.days self)
       (dict_set event_id
          (Event.set_reminders
             (Event.reminders event ++ [Reminder.mk date_time type_]) event)
          (Calendar.events self)),
     Ok tt).
Proof.
  intros G. unfold Calendar.add_reminder. unfold bind at 1, get at 1.
  rewrite G. now rewrite (on_event_eq _ _ _ _ G).
Qed.

Lemma Calendar_delete_reminder_eq event_id reminder_index event
    (self : Calendar.t) :
  dict_get event_id (Calendar.events self) = Some event ->
  Calendar.delete_reminder event_id reminder_index self
  = (Calendar.mk (Calendar.days self)
       (dict_set event_id
          (fst (Event.delete_reminder reminder_index event))
          (Calendar.events self)),
     snd (Event.delete_reminder reminder_index event)).
Proof.
  intros G. unfold Calendar.delete_reminder. unfold bind at 1, get at 1.
  rewrite G. now rewrite (on_event_eq _ _ _ _ G).
Qed.

Lemma Calendar_list_reminders_eq event_id event (self : Calendar.t) :
  dict_get event_id (Calendar.events self) = Some event ->
  Calendar.list_reminders event_id self = (self, Ok (Event.reminders event)).
Proof.
  intros G. unfold Calendar.list_reminders. unfold bind at 1, get at 1.
  now rewrite G.
Qed.

(** X8. For a registered event, [add_reminder] returns, and
    [list_reminders] then gives the former reminders followed by the new
    one (no check for duplicates); the days and every other event are
    unchanged. *)
Theorem Calendar_add_reminder_listed (self : Calendar.t) (event_id : string)
    (date_time : datetime) (type_ : string) (event : Event.t) :
  dict_get event_id (Calendar.events self) = Some event ->
  exists self',
    Calendar.add_reminder event_id date_time type_ self = (self', Ok tt)
    /\ Calendar.list_reminders event_id self'
       = (self', Ok (Event.reminders event ++ [Reminder.mk date_time type_]))
    /\ Calendar.days self' = Calendar.days self
    /\ dict_keys (Calendar.events self') = dict_keys (Calendar.events self)
    /\ (forall other, other <> event_id ->
          dict_get other (Calendar.events self')
          = dict_get other (Calendar.events self)).
Proof.
  intros G. eexists. split; [exact (Calendar_add_reminder_eq _ _ _ _ _ G)|].
  cbn [Calendar.days Calendar.events]. split; [|split; [|split]].
  - rewrite (Calendar_list_reminders_eq event_id
               (Event.set_reminders
                  (Event.reminders event ++ [Reminder.mk date_time type_])
                  event));
      [reflexivity | apply dict_get_set_same].
  - reflexivity.
  - apply dict_keys_set_present. now apply dict_get_Some_key in G.
  - intros other N. apply dict_get_set_other. congruence.
Qed.

(** X9. For a registered event with reminders [r], [delete_reminder(id, i)]
    with [0 <= i < len(r)] returns and [list_reminders] then gives [r]
    without its element [i]; with any other [i] it raises
    [ReminderNotFound] and the [Calendar] is as before. The days never
    change. *)
Theorem Calendar_delete_reminder_listed (self : Calendar.t) (event_id : string)
    (reminder_index : Z) (event : Event.t) :
  dict_get event_id (Calendar.events self) = Some event ->
  (0 <= reminder_index < Z.of_nat (List.length (Event.reminders event)) ->
   exists self',
     Calendar.delete_reminder event_id reminder_index self = (self', Ok tt)
     /\ Calendar.list_reminders event_id self'
        = (self',
           Ok (firstn (Z.to_nat reminder_index) (Event.reminders event)
               ++ skipn (S (Z.to_nat reminder_index)) (Event.reminders event)))
     /\ Calendar.days self' = Calendar.days self)
  /\ (~ (0 <= reminder_index < Z.of_nat (List.length (Event.reminders event))) ->
      Calendar.delete_reminder event_id reminder_index self
      = (self, Raise ReminderNotFound)).
Proof.
  intros G. rewrite (Calendar_delete_reminder_eq _ _ _ _ G).
  unfold Event.delete_reminder. split.
  - intros [L0 L1].
    assert (C : (0 <=? reminder_index)
                && (reminder_index <? Z.of_nat (List.length (Event.reminders event)))
                = true)
      by (apply andb_true_iff; split; [apply Z.leb_le | apply Z.ltb_lt]; lia).
    rewrite C. cbn [fst snd]. eexists. split; [reflexivity|].
    split; [|reflexivity].
    rewrite (Calendar_list_reminders_eq event_id
               (Event.set_reminders
                  (list_del (Z.to_nat reminder_index) (Event.reminders event))
                  event))
      by apply dict_get_set_same.
    cbn [Event.set_reminders Event.reminders].
    now rewrite list_del_firstn_skipn.
  - intros N.
    destruct ((0 <=? reminder_index)
              && (reminder_index <? Z.of_nat (List.length (Event.reminders event))))
      eqn:C.
    + apply andb_true_iff in C. destruct C as [C0 C1].
      apply Z.leb_le in C0. apply Z.ltb_lt in C1. lia.
    + cbn [fst snd]. rewrite (dict_set_same _ _ _ G). now destruct self.
Qed.

Lemma list_del_last {A} (l : list A) (x : A) :
  list_del (List.length l) (l ++ [x]) = l.
Proof. induction l as [|a l IH]; simpl; [reflexivity | now rewrite IH]. Qed.

(** X10. For a registered event with [n] reminders, [add_reminder]
    followed by [delete_reminder(id, n)] returns twice and gives back the
    [Calendar] it started from. *)
Theorem Calendar_add_delete_reminder (self : Calendar.t) (event_id : string)
    (date_time : datetime) (type_ : string) (event : Event.t) :
  dict_get event_id (Calendar.events self) = Some event ->
  exists self1,
    Calendar.add_reminder event_id date_time type_ self = (self1, Ok tt)
    /\ Calendar.delete_reminder event_id
         (Z.of_nat (List.length (Event.reminders event))) self1
       = (self, Ok tt).
Proof.
  intros G. eexists. split; [exact (Calendar_add_reminder_eq _ _ _ _ _ G)|].
  rewrite (Calendar_delete_reminder_eq event_id _
             (Event.set_reminders
                (Event.reminders event ++ [Reminder.mk date_time type_]) event))
    by apply dict_get_set_same.
  cbn [Calendar.days Calendar.events].
  unfold Event.delete_reminder. cbn [Event.set_reminders Event.reminders].
  assert (C : (0 <=? Z.of_nat (List.length (Event.reminders event)))
              && (Z.of_nat (List.length (Event.reminders event))
                  <? Z.of_nat (List.length
                       (Event.reminders event ++ [Reminder.mk date_time type_])))
              = true).
  { apply andb_true_iff. split; [apply Z.leb_le | apply Z.ltb_lt].
    - lia.
    - rewrite length_app. simpl. lia. }
  rewrite C. cbn [fst snd Event.title Event.description Event.date_
                  Event.start_at Event.end_at Event.id Event.reminders].
  rewrite Nat2Z.id, list_del_last, dict_set_set.
  destruct event, self. cbn in *. unfold Event.set_reminders. cbn.
  now rewrite (dict_set_same _ _ _ G).
Qed.

(** X11. With well-formed dictionaries, a [delete_event] that returned
    cannot be repeated: the id is no longer a key of [events], and a second
    [delete_event] of it raises [EventNotFound] and changes nothing. *)
Theorem Calendar_delete_event_twice (self self' : Calendar.t)
    (event_id : string) :
  Calendar_ok self ->
  Calendar.delete_event event_id self = (self', Ok tt) ->
  dict_get event_id (Calendar.events self') = None
  /\ dict_keys (Calendar.days self') = dict_keys (Calendar.days self)
  /\ Calendar.delete_event event_id self' = (self', Raise EventNotFound).
Proof.
  intros [OKd OKe] D. rewrite Calendar_delete_event_eq in D by exact OKd.
  destruct (dict_contains event_id (Calendar.events self)); [|discriminate].
  injection D as <-.
  assert (G : dict_get event_id (dict_pop event_id (Calendar.events self)) = None)
    by now apply dict_get_pop_same.
  split; [exact G|]. split; [apply clear_first_keys|].
  now apply Calendar_delete_event_missing.
Qed.

(** ** Updating an event *)

Lemma rebook_days_unbooked event_id event_id' start_at end_at
    (days : dict date Day.t) :
  unbooked event_id days ->
  rebook_days event_id event_id' start_at end_at days = (days, Ok tt).
Proof.
  induction days as [|[d day] rest IH]; intros U; simpl; [reflexivity|].
  rewrite (U d day (or_introl eq_refl)). rewrite IH; [reflexivity|].
  intros d' day' I. apply (U d' day'). now right.
Qed.

Lemma rebook_days_only event_id event_id' start_at end_at d day
    (days : dict date Day.t) :
  dict_ok days ->
  dict_get d days = Some day ->
  Day.holds event_id day = true ->
  (forall d' day', In (d', day') days -> d' <> d ->
                   Day.holds event_id day' = false) ->
  rebook_days event_id event_id' start_at end_at days
  = match Day.delete_event event_id' day with
    | (day1, Raise e) => (dict_set d day1 days, Raise e)
    | (day1, Ok _) =>
        (dict_set d (fst (Day.update_event event_id' start_at end_at day1)) days,
         snd (Day.update_event event_id' start_at end_at day1))
    end.
Proof.
  unfold dict_ok.
  induction days as [|[k dk] rest IH]; intros ND G Hd Only; simpl in *;
    [discriminate|].
  inversion ND as [|? ? Nk ND']; subst.
  destruct (date_eqb d k) eqn:E.
  - apply date_eqb_eq in E. subst k. injection G as ->. rewrite Hd.
    destruct (Day.delete_event event_id' day) as [day1 [[]|e]]; [|reflexivity].
    destruct (Day.update_event event_id' start_at end_at day1)
      as [day2 [[]|e]]; [|reflexivity].
    rewrite rebook_days_unbooked; [reflexivity|].
    intros d' day' I. apply (Only d' day'); [now right|].
    intros ->. apply Nk. now apply (in_map fst) in I.
  - assert (N : k <> d) by (apply date_eqb_false in E; congruence).
    rewrite (Only k dk (or_introl eq_refl) N).
    rewrite (IH ND' G Hd) by (intros d' day' I; apply Only; now right).
    destruct (Day.delete_event event_id' day) as [day1 [[]|e]]; reflexivity.
Qed.

Lemma map_clear_twice event_id (items : dict time slot_value) :
  map (clear event_id) (map (clear event_id) items) = map (clear event_id) items.
Proof.
  rewrite map_map. apply map_ext. intros [k v]. unfold clear. simpl.
  destruct (is_id v event_id) eqn:D; simpl; [reflexivity | now rewrite D].
Qed.

(** X12. With well-formed dictionaries, a same-date [update_event] of an
    event that holds no slot in any [Day] (its range covered no slot)
    rewrites the fields of the event and returns, but books nothing: the
    days are as before, whatever the new range. *)
Theorem Calendar_update_event_unbooked (self : Calendar.t)
    (event_id title description : string) (date_ : date)
    (start_at end_at : time) (event : Event.t) :
  Calendar_ok self ->
  dict_get event_id (Calendar.events self) = Some event ->
  Event.date_ event = date_ ->
  unbooked event_id (Calendar.days self) ->
  Calendar.update_event event_id title description date_ start_at end_at self
  = (Calendar.mk (Calendar.days self)
       (dict_set event_id
          (Event.mk title description date_ start_at end_at (Event.id event)
                    (Event.reminders event))
          (Calendar.events self)),
     Ok tt).
Proof.
  intros [[OKd _] _] G D U.
  assert (Dq : date_eqb (Event.date_ event) date_ = true)
    by now apply date_eqb_eq.
  rewrite (Calendar_update_event_same _ _ _ _ _ _ _ _ OKd G Dq).
  now rewrite rebook_days_unbooked.
Qed.

(** X13. With well-formed dictionaries, for an event registered under its
    own id whose slots are all in the [Day] of its date, a same-date
    [update_event] returns exactly when every slot of the new range holds
    nothing, the event itself or the empty string, and raises
    [SlotNotAvailable] otherwise. Whatever the outcome the new fields are
    stored with the reminders kept, the other days are untouched and the
    event holds no slot outside the new range; when the call returns, the
    slots of the range hold the event and its other slots are free. *)
Theorem Calendar_update_event_same_date (self self' : Calendar.t)
    (event_id title description : string) (date_ : date)
    (start_at end_at : time) (event : Event.t) (day : Day.t) (r : result unit) :
  Calendar_ok self ->
  dict_get event_id (Calendar.events self) = Some event ->
  Event.id event = event_id ->
  Event.date_ event = date_ ->
  dict_get date_ (Calendar.days self) = Some day ->
  Day.holds event_id day = true ->
  (forall d' day', In (d', day') (Calendar.days self) -> d' <> date_ ->
                   Day.holds event_id day' = false) ->
  Calendar.update_event event_id title description date_ start_at end_at self
  = (self', r) ->
  (range_vacant event_id start_at end_at (Day.slots day) -> r = Ok tt)
  /\ (~ range_vacant event_id start_at end_at (Day.slots day) ->
      r = Raise SlotNotAvailable)
  /\ dict_get event_id (Calendar.events self')
     = Some (Event.mk title description date_ start_at end_at event_id
                      (Event.reminders event))
  /\ (forall d', d' <> date_ ->
        dict_get d' (Calendar.days self') = dict_get d' (Calendar.days self))
  /\ exists day',
       dict_get date_ (Calendar.days self') = Some day'
       /\ (forall slot, dict_get slot (Day.slots day') = Some (Some event_id) ->
                        in_range start_at end_at slot = true)
       /\ (r = Ok tt ->
           forall slot,
             dict_get slot (Day.slots day')
             = match dict_get slot (Day.slots day) with
               | Some v =>
                   Some (if in_range start_at end_at slot then Some event_id
                         else if is_id v event_id then None else v)
               | None => None
               end).
Proof.
  intros [[OKd OKs] OKe] G Ei D Gd Hd Only U.
  assert (Dq : date_eqb (Event.date_ event) date_ = true)
    by now apply date_eqb_eq.
  assert (OKday : dict_ok (Day.slots day))
    by (apply dict_get_In in Gd; eauto).
  rewrite (Calendar_update_event_same _ _ _ _ _ _ _ _ OKd G Dq) in U.
  rewrite Ei in U.
  rewrite (rebook_days_only _ _ _ _ _ _ _ OKd Gd Hd Only) in U.
  rewrite (Day_delete_event_held _ _ OKday Hd) in U.
  rewrite Day_update_event_rebook in U by now apply cleared_ok.
  cbn [fst snd cleared Day.slots Day.date_] in U.
  rewrite map_clear_twice in U.
  set (items := map (clear event_id) (Day.slots day)) in *.
  injection U as <- <-. cbn [Calendar.days Calendar.events].
  assert (V : snd (rebook event_id start_at end_at items) = Ok tt <->
              range_vacant event_id start_at end_at (Day.slots day)).
  { rewrite rebook_Ok_iff. unfold range_vacant, items. split.
    - intros F slot v I R. apply truthy_clear. apply (F slot); [|exact R].
      apply In_map_clear. eauto.
    - intros F slot w I R. apply In_map_clear in I. destruct I as (v & I & ->).
      apply truthy_clear. eauto. }
  split; [apply V|]. split.
  { intros N. destruct (rebook_outcome event_id start_at end_at items) as [O|O];
      [|exact O]. apply V in O. contradiction. }
  split; [apply dict_get_set_same|]. split.
  { intros d' N. apply dict_get_set_other. congruence. }
  eexists. split; [apply dict_get_set_same|]. cbn [Day.slots]. split.
  - intros slot Gs. apply dict_get_In, rebook_in_range in Gs.
    destruct Gs as [I|R]; [|exact R].
    apply clear_holds in I. now destruct I.
  - intros O slot. rewrite rebook_Ok_assign by exact O.
    rewrite dict_get_map_assign. unfold items. rewrite dict_get_map_clear.
    now destruct (dict_get slot (Day.slots day)).
Qed.

(** X14. With well-formed dictionaries, an [update_event] to another date
    raises nothing but [SlotNotAvailable]; when it does, the move is not
    undone: the registry holds under the id a new event with the new date
    and fields and no reminders, and, if the slots of the event were all in
    the [Day] of its former date, no [Day] other than that of the new date
    holds the id. *)
Theorem Calendar_update_event_failed_move (self self' : Calendar.t)
    (event_id title description : string) (date_ : date)
    (start_at end_at : time) (event : Event.t) (e : error) :
  Calendar_ok self ->
  dict_get event_id (Calendar.events self) = Some event ->
  Event.date_ event <> date_ ->
  Calendar.update_event event_id title description date_ start_at end_at self
  = (self', Raise e) ->
  e = SlotNotAvailable
  /\ dict_get event_id (Calendar.events self')
     = Some (Event.mk title description date_ start_at end_at event_id [])
  /\ ((forall d day, In (d, day) (Calendar.days self) ->
                     d <> Event.date_ event ->
                     Day.holds event_id day = false) ->
      forall d day, In (d, day) (Calendar.days self') -> d <> date_ ->
                    Day.holds event_id day = false).
Proof.
  intros [OKd OKe] G N U.
  assert (D : date_eqb (Event.date_ event) date_ = false)
    by now apply date_eqb_false.
  rewrite (Calendar_update_event_new _ _ _ _ _ _ _ _ OKd G D) in U.
  cbv zeta in U.
  set (days1 := clear_first event_id (Calendar.days self)) in *.
  assert (OK1 : days_ok days1) by now apply days_ok_clear_first.
  pose proof (Day_add_event_outcome event_id start_at end_at _
                (day_or_new_ok date_ _ OK1)) as O.
  destruct (Day.add_event event_id start_at end_at (day_or_new date_ days1))
    as [day' r']. cbn [snd] in O. injection U as <- ->.
  cbn [Calendar.days Calendar.events].
  split; [destruct O as [O|O]; congruence|].
  split; [apply dict_get_set_same|].
  intros Only d day I Nd. apply In_dict_set in I.
  destruct I as [[-> _]|I]; [contradiction|].
  exact (clear_first_clears event_id (Event.date_ event) _ (proj1 OKd) Only
           d day I).
Qed.

(** ** Adding events *)

Lemma Calendar_add_event_free today new_id title description date_ start_at
    end_at (self : Calendar.t) :
  date_ltb date_ today = false ->
  dict_ok (Day.slots (day_or_new date_ (Calendar.days self))) ->
  range_free start_at end_at
    (Day.slots (day_or_new date_ (Calendar.days self))) ->
  Calendar.add_event today new_id title description date_ start_at end_at self
  = (Calendar.mk
       (dict_set date_
          (booked new_id start_at end_at (day_or_new date_ (Calendar.days self)))
          (Calendar.days self))
       (dict_set new_id
          (Event.mk title description date_ start_at end_at new_id [])
          (Calendar.events self)),
     Ok new_id).
Proof.
  intros L OK F. rewrite Calendar_add_event_eq by exact L.
  rewrite Day_add_event_book by exact OK.
  now rewrite (book_free new_id _ _ _ F).
Qed.

Lemma Calendar_add_event_conflict today new_id title description date_ start_at
    end_at (self : Calendar.t) :
  date_ltb date_ today = false ->
  dict_ok (Day.slots (day_or_new date_ (Calendar.days self))) ->
  ~ range_free start_at end_at
      (Day.slots (day_or_new date_ (Calendar.days self))) ->
  Calendar.add_event today new_id title description date_ start_at end_at self
  = (Calendar.mk
       (dict_set date_
          (Day.mk (Day.date_ (day_or_new date_ (Calendar.days self)))
             (fst (book new_id start_at end_at
                     (Day.slots (day_or_new date_ (Calendar.days self))))))
          (Calendar.days self))
       (Calendar.events self),
     Raise SlotNotAvailable).
Proof.
  intros L OK NF. rewrite Calendar_add_event_eq by exact L.
  rewrite Day_add_event_book by exact OK.
  destruct (book_outcome new_id start_at end_at
              (Day.slots (day_or_new date_ (Calendar.days self)))) as [O|O].
  - apply book_Ok_free in O. contradiction.
  - now rewrite O.
Qed.

(** X15. With well-formed dictionaries and a date not earlier than the
    current date, [add_event] returns the new id exactly when every slot of
    the range is free in the [Day] of the date (a new [Day] if there is
    none): the slots of the range are then given to the id and the event
    is registered. Otherwise it raises [SlotNotAvailable]: the registry
    and the other days are unchanged, no occupied slot of the [Day] has
    changed, and the new id is not registered. *)
Theorem Calendar_add_event_outcome (self : Calendar.t) (today : date)
    (new_id title description : string) (date_ : date) (start_at end_at : time) :
  Calendar_ok self ->
  date_ltb date_ today = false ->
  (range_free start_at end_at
     (Day.slots (day_or_new date_ (Calendar.days self))) ->
   Calendar.add_event today new_id title description date_ start_at end_at self
   = (Calendar.mk
        (dict_set date_
           (booked new_id start_at end_at
              (day_or_new date_ (Calendar.days self)))
           (Calendar.days self))
        (dict_set new_id
           (Event.mk title description date_ start_at end_at new_id [])
           (Calendar.events self)),
      Ok new_id))
  /\ (~ range_free start_at end_at
          (Day.slots (day_or_new date_ (Calendar.days self))) ->
      exists self' day',
        Calendar.add_event today new_id title description date_ start_at end_at
                           self
        = (self', Raise SlotNotAvailable)
        /\ Calendar.events self' = Calendar.events self
        /\ (forall d, d <> date_ ->
              dict_get d (Calendar.days self') = dict_get d (Calendar.days self))
        /\ dict_get date_ (Calendar.days self') = Some day'
        /\ (forall slot x,
              dict_get slot (Day.slots (day_or_new date_ (Calendar.days self)))
              = Some (Some x) ->
              dict_get slot (Day.slots day') = Some (Some x))).
Proof.
  intros [OKd OKe] L.
  pose proof (day_or_new_ok date_ _ OKd) as OK0. split.
  - intros F. now apply Calendar_add_event_free.
  - intros NF. do 2 eexists.
    split; [now apply Calendar_add_event_conflict|].
    cbn [Calendar.days Calendar.events Day.slots].
    split; [reflexivity|]. split.
    + intros d N. apply dict_get_set_other. congruence.
    + split; [apply dict_get_set_same|]. cbn [Day.slots].
      intros slot x G. apply In_dict_get.
      * unfold dict_ok. now rewrite book_keys.
      * apply book_keeps. now apply dict_get_In.
Qed.

Lemma range_free_grid start_at end_at : range_free start_at end_at grid.
Proof. intros slot v I _. now apply grid_free in I. Qed.

Lemma day_or_new_absent date_ (days : dict date Day.t) :
  dict_get date_ days = None -> day_or_new date_ days = Day.init date_.
Proof. intros G. unfold day_or_new. now rewrite G. Qed.

Lemma Calendar_add_event_new_day today new_id title description date_ start_at
    end_at (self : Calendar.t) :
  dict_get date_ (Calendar.days self) = None ->
  date_ltb date_ today = false ->
  Calendar.add_event today new_id title description date_ start_at end_at self
  = (Calendar.mk
       (Calendar.days self
        ++ [(date_, booked new_id start_at end_at (Day.init date_))])
       (dict_set new_id
          (Event.mk title description date_ start_at end_at new_id [])
          (Calendar.events self)),
     Ok new_id).
Proof.
  intros G L.
  rewrite Calendar_add_event_free; rewrite ?(day_or_new_absent _ _ G).
  - now rewrite (dict_set_new _ _ _ G).
  - exact L.
  - apply Day_init_ok.
  - rewrite Day_init_slots. apply range_free_grid.
Qed.

(** X16. On a date that has no [Day] yet and is not earlier than the
    current date, [add_event] always returns, whatever the range (empty and
    inverted ranges included): a new [Day] is appended after the existing
    ones, its slots of the range holding the new id and the others free,
    and the event is registered without reminders. *)
Theorem Calendar_add_event_first_of_day (self : Calendar.t) (today : date)
    (new_id title description : string) (date_ : date) (start_at end_at : time) :
  dict_get date_ (Calendar.days self) = None ->
  date_ltb date_ today = false ->
  exists self',
    Calendar.add_event today new_id title description date_ start_at end_at self
    = (self', Ok new_id)
    /\ Calendar.days self'
       = Calendar.days self
         ++ [(date_,
              Day.mk date_
                (map (fun item =>
                        (fst item,
                         if in_range start_at end_at (fst item)
                         then Some new_id else None))
                     (Day.slots (Day.init date_))))]
    /\ dict_get new_id (Calendar.events self')
       = Some (Event.mk title description date_ start_at end_at new_id []).
Proof.
  intros G L. eexists.
  split; [now apply Calendar_add_event_new_day|].
  cbn [Calendar.days Calendar.events]. split; [|apply dict_get_set_same].
  unfold booked. change (Day.date_ (Day.init date_)) with date_.
  apply (f_equal (fun items => Calendar.days self ++ [(date_, Day.mk date_ items)])).
  apply map_ext_in.
  intros [k v] I. rewrite Day_init_slots in I. apply grid_free in I. subst v.
  unfold assign. simpl. now destruct (in_range start_at end_at k).
Qed.

Lemma range_free_booked_grid id1 start1 end1 start2 end2 date_ :
  range_free start2 end2
    (Day.slots (booked id1 start1 end1 (Day.init date_)))
  <-> (forall slot, In slot (dict_keys (Day.slots (Day.init date_))) ->
                    in_range start1 end1 slot = true ->
                    in_range start2 end2 slot = false).
Proof.
  unfold booked, range_free. cbn [Day.slots]. rewrite Day_init_slots. split.
  - intros F slot I R1.
    destruct (in_range start2 end2 slot) eqn:R2; [|reflexivity].
    apply in_map_iff in I. destruct I as ([k v] & <- & I). simpl in *.
    assert (A : In (k, Some id1) (map (assign id1 start1 end1) grid)).
    { apply in_map_iff. exists (k, v). split; [|exact I].
      unfold assign. simpl. now rewrite R1. }
    specialize (F k (Some id1) A R2). discriminate.
  - intros D slot w I R2. apply in_map_iff in I.
    destruct I as ([k v] & E & I). unfold assign in E. simpl in E.
    pose proof (grid_free _ _ I) as ->.
    destruct (in_range start1 end1 k) eqn:R1.
    + injection E as <- <-.
      rewrite (D k) in R2; [discriminate | | exact R1].
      now apply (in_map fst) in I.
    + now injection E as <- <-.
Qed.

(** X17. On a date that has no [Day] yet, after a first [add_event] with
    range [start1..end1), a second [add_event] on that date (the date still
    not earlier than the current date) returns when no slot of the grid
    lies in both ranges, and raises [SlotNotAvailable] when some slot
    does. *)
Theorem Calendar_add_event_second_of_day (self : Calendar.t)
    (today1 today2 : date) (id1 title1 description1 : string) (date_ : date)
    (start1 end1 : time) (id2 title2 description2 : string)
    (start2 end2 : time) :
  dict_get date_ (Calendar.days self) = None ->
  date_ltb date_ today1 = false ->
  date_ltb date_ today2 = false ->
  exists self1,
    Calendar.add_event today1 id1 title1 description1 date_ start1 end1 self
    = (self1, Ok id1)
    /\ ((forall slot, In slot (dict_keys (Day.slots (Day.init date_))) ->
                      in_range start1 end1 slot = true ->
                      in_range start2 end2 slot = false) ->
        snd (Calendar.add_event today2 id2 title2 description2 date_
               start2 end2 self1) = Ok id2)
    /\ ((exists slot, In slot (dict_keys (Day.slots (Day.init date_)))
                      /\ in_range start1 end1 slot = true
                      /\ in_range start2 end2 slot = true) ->
        snd (Calendar.add_event today2 id2 title2 description2 date_
               start2 end2 self1) = Raise SlotNotAvailable).
Proof.
  intros G L1 L2. eexists.
  split; [now apply Calendar_add_event_new_day|].
  set (self1 := Calendar.mk _ _).
  assert (D : day_or_new date_ (Calendar.days self1)
              = booked id1 start1 end1 (Day.init date_)).
  { unfold day_or_new, self1. cbn [Calendar.days].
    rewrite <- (dict_set_new _ _ _ G). now rewrite dict_get_set_same. }
  assert (OK : dict_ok (Day.slots (day_or_new date_ (Calendar.days self1)))).
  { rewrite D. unfold booked, dict_ok. cbn [Day.slots].
    rewrite keys_map_assign. apply Day_init_ok. }
  split.
  - intros Dis. rewrite Calendar_add_event_free; [reflexivity | exact L2 | exact OK |].
    rewrite D. now apply range_free_booked_grid.
  - intros (slot & I & R1 & R2).
    rewrite Calendar_add_event_conflict; [reflexivity | exact L2 | exact OK |].
    rewrite D. intros F.
    rewrite (proj1 (range_free_booked_grid _ _ _ _ _ _) F slot I R1) in R2.
    discriminate.
Qed.

(** ** What every reachable [Calendar] satisfies *)

Lemma days_grid_set d day (days : dict date Day.t) :
  days_grid days ->
  dict_keys (Day.slots day) = dict_keys grid -> Day.date_ day = d ->
  days_grid (dict_set d day days).
Proof.
  intros Gr K D d' day' I. apply In_dict_set in I.
  destruct I as [[-> ->]|I]; [auto | now apply Gr].
Qed.

Lemma day_or_new_grid d (days : dict date Day.t) :
  days_grid days ->
  dict_keys (Day.slots (day_or_new d days)) = dict_keys grid
  /\ Day.date_ (day_or_new d days) = d.
Proof.
  intros Gr. unfold day_or_new. destruct (dict_get d days) as [day|] eqn:G.
  - apply dict_get_In in G. now apply Gr.
  - now rewrite Day_init_slots.
Qed.

Lemma Day_add_event_grid event_id start_at end_at day :
  dict_ok (Day.slots day) ->
  dict_keys (Day.slots (fst (Day.add_event event_id start_at end_at day)))
  = dict_keys (Day.slots day)
  /\ Day.date_ (fst (Day.add_event event_id start_at end_at day))
     = Day.date_ day.
Proof.
  intros OK. rewrite Day_add_event_book by exact OK.
  cbn [fst Day.slots Day.date_]. now rewrite book_keys.
Qed.

Lemma Day_delete_event_grid event_id day :
  dict_ok (Day.slots day) ->
  dict_keys (Day.slots (fst (Day.delete_event event_id day)))
  = dict_keys (Day.slots day)
  /\ Day.date_ (fst (Day.delete_event event_id day)) = Day.date_ day.
Proof.
  intros OK. rewrite Day_delete_event_clear by exact OK.
  cbn [fst Day.slots Day.date_]. now rewrite keys_map_clear.
Qed.

Lemma Day_update_event_grid event_id start_at end_at day :
  dict_ok (Day.slots day) ->
  dict_keys (Day.slots (fst (Day.update_event event_id start_at end_at day)))
  = dict_keys (Day.slots day)
  /\ Day.date_ (fst (Day.update_event event_id start_at end_at day))
     = Day.date_ day.
Proof.
  intros OK. rewrite Day_update_event_rebook by exact OK.
  cbn [fst Day.slots Day.date_]. now rewrite rebook_keys, keys_map_clear.
Qed.

Lemma days_grid_clear_first event_id (days : dict date Day.t) :
  days_grid days -> days_grid (clear_first event_id days).
Proof.
  intros Gr d day' I. apply In_clear_first in I.
  destruct I as (day & I & [->| ->]); [now apply Gr|].
  unfold cleared. cbn [Day.slots Day.date_]. rewrite keys_map_clear.
  now apply Gr.
Qed.

Lemma In_cleared event_id day slot id :
  In (slot, Some id) (Day.slots (cleared event_id day)) ->
  In (slot, Some id) (Day.slots day).
Proof. intros I. apply clear_holds in I. now destruct I. Qed.

Lemma Calendar_sound_init : Calendar_sound [] Calendar.init.
Proof.
  split; [exact (proj1 Calendar_inv_init)|].
  split; [intros d day []|]. split; [intros id ev G; discriminate|].
  split; [intros id []|]. split; [intros d day slot id []|].
  intros d day slot id ev [].
Qed.

Lemma Calendar_sound_set_event generated (self : Calendar.t) event_id event
    event' :
  Calendar_sound generated self ->
  dict_get event_id (Calendar.events self) = Some event ->
  Event.date_ event' = Event.date_ event ->
  Event.id event' = Event.id event ->
  Calendar_sound generated
    (Calendar.mk (Calendar.days self)
       (dict_set event_id event' (Calendar.events self))).
Proof.
  intros ((OKd & OKe) & Gr & Ids & Gen & SGen & Dated) G Ed Ei.
  split; [split; [exact OKd | now apply dict_ok_set]|].
  split; [exact Gr|]. split; [|split; [|split; [exact SGen|]]].
  - intros id ev Gi. cbn [Calendar.events] in Gi.
    destruct (String.eqb event_id id) eqn:E.
    + apply String.eqb_eq in E. subst id.
      rewrite dict_get_set_same in Gi. injection Gi as <-.
      rewrite Ei. now apply Ids.
    + apply String.eqb_neq in E. rewrite dict_get_set_other in Gi by exact E.
      now apply Ids.
  - intros id I. cbn [Calendar.events] in I.
    apply dict_keys_set_incl in I. destruct I as [->|I]; [|now apply Gen].
    apply Gen. now apply dict_get_Some_key in G.
  - intros d day slot id ev I Is Gi. cbn [Calendar.days Calendar.events] in *.
    destruct (String.eqb event_id id) eqn:E.
    + apply String.eqb_eq in E. subst id.
      rewrite dict_get_set_same in Gi. injection Gi as <-.
      rewrite Ed. exact (Dated d day slot event_id event I Is G).
    + apply String.eqb_neq in E. rewrite dict_get_set_other in Gi by exact E.
      exact (Dated d day slot id ev I Is Gi).
Qed.

Lemma Calendar_sound_more generated more (self : Calendar.t) :
  Calendar_sound generated self -> Calendar_sound (more ++ generated) self.
Proof.
  intros (OK & Gr & Ids & Gen & SGen & Dated).
  repeat (split; [assumption|]). split; [|split; [|exact Dated]].
  - intros id I. apply in_or_app. right. now apply Gen.
  - intros d day slot id I Is. apply in_or_app. right. eapply SGen; eauto.
Qed.

Lemma Calendar_sound_add_event generated (self : Calendar.t) today new_id title
    description date_ start_at end_at :
  Calendar_sound generated self ->
  (date_ltb date_ today = false -> ~ In new_id generated) ->
  Calendar_sound ((if date_ltb date_ today then [] else [new_id]) ++ generated)
    (fst (Calendar.add_event today new_id title description date_ start_at
            end_at self)).
Proof.
  intros Snd Fresh.
  pose proof (Calendar_add_event_ok today new_id title description date_
                start_at end_at self (proj1 Snd)) as OK'.
  destruct (date_ltb date_ today) eqn:L.
  - unfold Calendar.add_event, raise_if, bind. rewrite L. exact Snd.
  - specialize (Fresh eq_refl).
    destruct Snd as (OK & Gr & Ids & Gen & SGen & Dated).
    rewrite Calendar_add_event_eq in OK' |- * by exact L.
    pose proof (day_or_new_ok date_ _ (proj1 OK)) as OK0.
    pose proof (Day_add_event_grid new_id start_at end_at _ OK0) as [K Dt].
    pose proof (fun slot id =>
                  Day_add_event_holds new_id start_at end_at _ slot id OK0) as Hs.
    pose proof (day_or_new_grid date_ _ Gr) as [K0 Dt0].
    destruct (Day.add_event new_id start_at end_at
                (day_or_new date_ (Calendar.days self))) as [day' r].
    cbn [fst] in K, Dt, Hs.
    set (events' := match r with
                    | Ok _ => dict_set new_id
                                (Event.mk title description date_ start_at
                                   end_at new_id [])
                                (Calendar.events self)
                    | Raise _ => Calendar.events self
                    end).
    assert (St : fst (match r with
                      | Ok _ =>
                          (Calendar.mk
                             (dict_set date_ day' (Calendar.days self))
                             (dict_set new_id
                                (Event.mk title description date_ start_at
                                   end_at new_id [])
                                (Calendar.events self)), Ok new_id)
                      | Raise e =>
                          (Calendar.mk
                             (dict_set date_ day' (Calendar.days self))
                             (Calendar.events self), Raise e)
                      end)
                 = Calendar.mk (dict_set date_ day' (Calendar.days self))
                               events')
      by (now destruct r).
    rewrite St in OK' |- *. clear St.
    assert (Was : forall d day slot id,
               In (d, day) (dict_set date_ day' (Calendar.days self)) ->
               In (slot, Some id) (Day.slots day) ->
               (exists day0, In (d, day0) (Calendar.days self)
                             /\ In (slot, Some id) (Day.slots day0))
               \/ (id = new_id /\ d = date_)).
    { intros d day slot id I Is. apply In_dict_set in I.
      destruct I as [[-> ->]|I]; [|left; eauto].
      apply Hs in Is. destruct Is as [Is| ->]; [|now right].
      left. exists (day_or_new date_ (Calendar.days self)).
      split; [eapply day_or_new_In; exact Is | exact Is]. }
    assert (Other : forall id, id <> new_id ->
               dict_get id events' = dict_get id (Calendar.events self)).
    { intros id N. unfold events'. destruct r; [|reflexivity].
      apply dict_get_set_other. congruence. }
    split; [exact OK'|]. cbn [Calendar.days Calendar.events].
    split; [|split; [|split; [|split]]].
    + apply days_grid_set; [exact Gr | congruence | congruence].
    + intros id ev G. cbn [Calendar.events] in G.
      destruct (String.eqb id new_id) eqn:E.
      * apply String.eqb_eq in E. subst id. unfold events' in G.
        destruct r.
        -- rewrite dict_get_set_same in G. now injection G as <-.
        -- now apply Ids.
      * apply String.eqb_neq in E. rewrite Other in G by exact E.
        now apply Ids.
    + intros id I. cbn [Calendar.events] in I. unfold events' in I.
      destruct r.
      * apply dict_keys_set_incl in I.
        destruct I as [->|I]; [now left | right; now apply Gen].
      * right. now apply Gen.
    + intros d day slot id I Is. cbn [Calendar.days] in I.
      destruct (Was d day slot id I Is) as [(day0 & I0 & Is0)|[-> _]].
      * right. eapply SGen; eauto.
      * now left.
    + intros d day slot id ev I Is G. cbn [Calendar.days Calendar.events] in *.
      destruct (Was d day slot id I Is) as [(day0 & I0 & Is0)|[-> ->]].
      * assert (N : id <> new_id)
          by (intros ->; apply Fresh; eapply SGen; eauto).
        rewrite Other in G by exact N. eapply Dated; eauto.
      * unfold events' in G. destruct r.
        -- rewrite dict_get_set_same in G. now injection G as <-.
        -- exfalso. apply Fresh, Gen. now apply dict_get_Some_key in G.
Qed.

Lemma Calendar_sound_delete_event generated (self : Calendar.t) event_id :
  Calendar_sound generated self ->
  Calendar_sound generated (fst (Calendar.delete_event event_id self)).
Proof.
  intros Snd. pose proof Snd as (OK & Gr & Ids & Gen & SGen & Dated).
  rewrite Calendar_delete_event_eq by exact (proj1 OK).
  destruct (dict_contains event_id (Calendar.events self)); cbn [fst];
    [|exact Snd].
  split; [|split; [|split; [|split; [|split]]]];
    cbn [Calendar.days Calendar.events].
  - split; cbn [Calendar.days Calendar.events].
    + apply days_ok_clear_first. exact (proj1 OK).
    + apply dict_ok_pop. exact (proj2 OK).
  - now apply days_grid_clear_first.
  - intros id ev G. cbn [Calendar.events] in G.
    apply dict_get_In, In_dict_pop in G. apply Ids.
    apply In_dict_get; [exact (proj2 OK) | exact G].
  - intros id I. cbn [Calendar.events] in I.
    apply dict_keys_pop_incl in I. now apply Gen.
  - intros d day' slot id I Is. cbn [Calendar.days] in I.
    apply In_clear_first in I. destruct I as (day & I & [->| ->]).
    + eapply SGen; eauto.
    + apply In_cleared in Is. eapply SGen; eauto.
  - intros d day' slot id ev I Is G. cbn [Calendar.days Calendar.events] in *.
    assert (N : event_id <> id).
    { intros ->. rewrite dict_get_pop_same in G by exact (proj2 OK).
      discriminate. }
    rewrite dict_get_pop_other in G by exact N.
    apply In_clear_first in I. destruct I as (day & I & [->| ->]).
    + eapply Dated; eauto.
    + apply In_cleared in Is. eapply Dated; eauto.
Qed.

Lemma registered_only_day (self : Calendar.t) event_id event :
  registered_dated self ->
  dict_get event_id (Calendar.events self) = Some event ->
  forall d day, In (d, day) (Calendar.days self) -> d <> Event.date_ event ->
                Day.holds event_id day = false.
Proof.
  intros Dated G d day I N.
  destruct (Day.holds event_id day) eqn:Hd; [|reflexivity].
  apply holds_In in Hd. destruct Hd as (slot & Is).
  exfalso. apply N. symmetry. eapply Dated; eauto.
Qed.

Lemma Calendar_sound_rebook_days generated (self : Calendar.t) event_id event
    start_at end_at :
  Calendar_sound generated self ->
  dict_get event_id (Calendar.events self) = Some event ->
  Calendar_sound generated
    (Calendar.mk
       (fst (rebook_days event_id event_id start_at end_at (Calendar.days self)))
       (Calendar.events self)).
Proof.
  intros (OK & Gr & Ids & Gen & SGen & Dated) G.
  assert (Old : forall d day day' slot id,
             In (d, day) (Calendar.days self) ->
             day' = day
             \/ (Day.holds event_id day = true
                 /\ (day' = fst (Day.delete_event event_id day)
                     \/ day' = fst (Day.update_event event_id start_at end_at
                                      (fst (Day.delete_event event_id day))))) ->
             In (slot, Some id) (Day.slots day') ->
             In (slot, Some id) (Day.slots day)
             \/ (id = event_id /\ Day.holds event_id day = true)).
  { intros d day day' slot id I C Is.
    assert (OKs : dict_ok (Day.slots day)) by (apply (proj1 OK) in I; exact I).
    destruct C as [->|[Hd [-> | ->]]]; [now left | |].
    - rewrite Day_delete_event_clear in Is by exact OKs.
      cbn [fst] in Is. left. now apply (In_cleared event_id).
    - rewrite Day_update_event_rebook in Is
        by (now apply Day_delete_event_ok).
      cbn [fst Day.slots] in Is. apply rebook_holds in Is.
      destruct Is as [Is| ->]; [|now right].
      apply clear_holds in Is. destruct Is as [Is _].
      rewrite Day_delete_event_clear in Is by exact OKs.
      cbn [fst] in Is. left. now apply (In_cleared event_id). }
  split; [|split; [|split; [exact Ids|split; [exact Gen|split]]]];
    cbn [Calendar.days Calendar.events].
  - split; [|exact (proj2 OK)]. apply days_ok_rebook_days. exact (proj1 OK).
  - intros d day' I. apply In_rebook_days in I.
    destruct I as (day & I & C).
    assert (OKs : dict_ok (Day.slots day)) by (apply (proj1 OK) in I; exact I).
    destruct (Gr d day I) as [K Dt].
    destruct C as [->|[_ [-> | ->]]]; [auto | |].
    + destruct (Day_delete_event_grid event_id day OKs). split; congruence.
    + destruct (Day_delete_event_grid event_id day OKs).
      destruct (Day_update_event_grid event_id start_at end_at _
                  (Day_delete_event_ok event_id day OKs)).
      split; congruence.
  - intros d day' slot id I Is. apply In_rebook_days in I.
    destruct I as (day & I & C).
    destruct (Old d day day' slot id I C Is) as [Is0|[-> _]].
    + eapply SGen; eauto.
    + apply Gen. now apply dict_get_Some_key in G.
  - intros d day' slot id ev I Is Gi. apply In_rebook_days in I.
    destruct I as (day & I & C).
    destruct (Old d day day' slot id I C Is) as [Is0|[-> Hd]].
    + eapply Dated; eauto.
    + apply holds_In in Hd. destruct Hd as (slot0 & Is0). eapply Dated; eauto.
Qed.

Lemma Calendar_sound_update_event generated (self : Calendar.t) event_id title
    description date_ start_at end_at :
  Calendar_sound generated self ->
  Calendar_sound generated
    (fst (Calendar.update_event event_id title description date_ start_at
            end_at self)).
Proof.
  intros Snd.
  destruct (dict_get event_id (Calendar.events self)) as [event|] eqn:G;
    [|now rewrite Calendar_update_event_missing].
  pose proof Snd as (OK & Gr & Ids & Gen & SGen & Dated).
  destruct (date_eqb (Event.date_ event) date_) eqn:D.
  - rewrite (Calendar_update_event_same _ _ _ _ _ _ _ _ (proj1 (proj1 OK)) G D).
    cbn [fst]. rewrite (Ids _ _ G). apply date_eqb_eq in D.
    set (event' := Event.mk title description date_ start_at end_at event_id
                            (Event.reminders event)).
    apply (Calendar_sound_rebook_days generated
             (Calendar.mk (Calendar.days self)
                (dict_set event_id event' (Calendar.events self)))
             event_id event').
    + apply (Calendar_sound_set_event _ _ _ event);
        [exact Snd | exact G | symmetry; exact D | symmetry; exact (Ids _ _ G)].
    + apply dict_get_set_same.
  - rewrite (Calendar_update_event_new _ _ _ _ _ _ _ _ (proj1 OK) G D).
    cbv zeta.
    set (days1 := clear_first event_id (Calendar.days self)).
    assert (OK1 : days_ok days1) by (apply days_ok_clear_first; exact (proj1 OK)).
    assert (Gr1 : days_grid days1) by now apply days_grid_clear_first.
    assert (U1 : unbooked event_id days1).
    { apply (clear_first_clears event_id (Event.date_ event));
        [exact (proj1 (proj1 OK))|].
      now apply registered_only_day. }
    pose proof (day_or_new_ok date_ _ OK1) as OK0.
    pose proof (day_or_new_grid date_ _ Gr1) as [K0 Dt0].
    pose proof (Day_add_event_ok event_id start_at end_at _ OK0) as OK'.
    pose proof (Day_add_event_grid event_id start_at end_at _ OK0) as [K Dt].
    pose proof (fun slot id =>
                  Day_add_event_holds event_id start_at end_at _ slot id OK0)
      as Hs.
    destruct (Day.add_event event_id start_at end_at (day_or_new date_ days1))
      as [day' r]. cbn [fst] in *.
    assert (Was : forall d day slot id,
               In (d, day) (dict_set date_ day' days1) ->
               In (slot, Some id) (Day.slots day) ->
               (id <> event_id
                /\ exists day0, In (d, day0) (Calendar.days self)
                                /\ In (slot, Some id) (Day.slots day0))
               \/ (id = event_id /\ d = date_)).
    { assert (W1 : forall d day slot id,
                 In (d, day) days1 -> In (slot, Some id) (Day.slots day) ->
                 id <> event_id
                 /\ exists day0, In (d, day0) (Calendar.days self)
                                 /\ In (slot, Some id) (Day.slots day0)).
      { intros d day slot id I Is. split.
        - intros ->. apply (proj1 (holds_false _ _) (U1 d day I) slot Is).
        - apply In_clear_first in I. destruct I as (day0 & I0 & [->| ->]).
          + eauto.
          + apply In_cleared in Is. eauto. }
      intros d day slot id I Is. apply In_dict_set in I.
      destruct I as [[-> ->]|I]; [|left; eauto].
      apply Hs in Is. destruct Is as [Is| ->]; [|now right].
      left. apply (W1 date_ (day_or_new date_ days1));
        [eapply day_or_new_In; exact Is | exact Is]. }
    split; [|split; [|split; [|split; [|split]]]];
      cbn [Calendar.days Calendar.events].
    + split; cbn [Calendar.days Calendar.events].
      * now apply days_ok_set.
      * apply dict_ok_set, dict_ok_pop. exact (proj2 OK).
    + apply days_grid_set; [exact Gr1 | congruence | congruence].
    + intros id ev Gi. cbn [Calendar.events] in Gi.
      destruct (String.eqb event_id id) eqn:E.
      * apply String.eqb_eq in E. subst id.
        rewrite dict_get_set_same in Gi. now injection Gi as <-.
      * apply String.eqb_neq in E.
        rewrite dict_get_set_other in Gi by exact E.
        rewrite dict_get_pop_other in Gi by exact E. now apply Ids.
    + intros id I. cbn [Calendar.events] in I.
      apply dict_keys_set_incl in I. destruct I as [->|I].
      * apply Gen. now apply dict_get_Some_key in G.
      * apply dict_keys_pop_incl in I. now apply Gen.
    + intros d day slot id I Is.
      destruct (Was d day slot id I Is) as [(_ & day0 & I0 & Is0)|[-> _]].
      * eapply SGen; eauto.
      * apply Gen. now apply dict_get_Some_key in G.
    + intros d day slot id ev I Is Gi. cbn [Calendar.days Calendar.events] in *.
      destruct (Was d day slot id I Is) as [(N & day0 & I0 & Is0)|[-> ->]].
      * rewrite dict_get_set_other in Gi by congruence.
        rewrite dict_get_pop_other in Gi by congruence. eapply Dated; eauto.
      * rewrite dict_get_set_same in Gi. now injection Gi as <-.
Qed.

Lemma reachable_sound generated (self : Calendar.t) :
  reachable generated self -> Calendar_sound generated self.
Proof.
  induction 1 as [|generated self c self' err R IH Fresh Run _].
  - exact Calendar_sound_init.
  - destruct c as [today new_id title description date_ start_at end_at
                  | event_id date_time type_
                  | event_id title description date_ start_at end_at
                  | event_id | event_id reminder_index];
      cbn [run_call generates app] in *.
    + pose proof (Calendar_sound_add_event generated self today new_id title
                    description date_ start_at end_at IH) as P.
      destruct (Calendar.add_event today new_id title description date_
                  start_at end_at self) as [s r].
      injection Run as <- <-. cbn [fst] in P. apply P.
      intros L. rewrite L in Fresh. apply Fresh. now left.
    + unfold Calendar.add_reminder in Run.
      unfold bind at 1, get at 1 in Run.
      destruct (dict_get event_id (Calendar.events self)) as [event|] eqn:G.
      * rewrite (on_event_eq _ _ _ _ G) in Run. injection Run as <- <-.
        now apply (Calendar_sound_set_event _ _ _ event).
      * now injection Run as <- <-.
    + pose proof (Calendar_sound_update_event generated self event_id title
                    description date_ start_at end_at IH) as P.
      destruct (Calendar.update_event event_id title description date_
                  start_at end_at self).
      now injection Run as <- <-.
    + pose proof (Calendar_sound_delete_event generated self event_id IH) as P.
      destruct (Calendar.delete_event event_id self).
      now injection Run as <- <-.
    + unfold Calendar.delete_reminder in Run.
      unfold bind at 1, get at 1 in Run.
      destruct (dict_get event_id (Calendar.events self)) as [event|] eqn:G.
      * rewrite (on_event_eq _ _ _ _ G) in Run. injection Run as <- <-.
        apply (Calendar_sound_set_event _ _ _ event); [exact IH | exact G | |];
          unfold Event.delete_reminder;
          destruct ((0 <=? reminder_index)
                    && (reminder_index
                        <? Z.of_nat (List.length (Event.reminders event))));
          reflexivity.
      * now injection Run as <- <-.
Qed.

(** X18. Every [Calendar] reached from an empty one by any sequence of the
    public operations, failed calls included (the generator never repeating
    an id), has dictionaries without repeated keys; each of its [Day]s has
    the 95 keys of the slot grid in order and the date it is stored under;
    each event is registered under its own id, which was handed out by the
    generator, as was every id found in a slot; and the id of a registered
    event is found only in slots of the [Day] of the event's date. *)
Theorem reachable_calendar_sound (generated : list string) (self : Calendar.t) :
  reachable generated self ->
  dict_ok (Calendar.days self)
  /\ dict_ok (Calendar.events self)
  /\ (forall d day, In (d, day) (Calendar.days self) ->
        dict_ok (Day.slots day)
        /\ dict_keys (Day.slots day) = dict_keys (Day.slots (Day.init d))
        /\ Day.date_ day = d)
  /\ (forall id event, dict_get id (Calendar.events self) = Some event ->
        Event.id event = id /\ In id generated)
  /\ (forall d day slot id, In (d, day) (Calendar.days self) ->
        In (slot, Some id) (Day.slots day) -> In id generated)
  /\ (forall d day slot id event, In (d, day) (Calendar.days self) ->
        In (slot, Some id) (Day.slots day) ->
        dict_get id (Calendar.events self) = Some event ->
        Event.date_ event = d).
Proof.
  intros R. apply reachable_sound in R.
  destruct R as (((OKd & OKs) & OKe) & Gr & Ids & Gen & SGen & Dated).
  split; [exact OKd|]. split; [exact OKe|]. split; [|split; [|split]].
  - intros d day I. split; [eauto|]. rewrite Day_init_slots. now apply Gr.
  - intros id event G. split; [now apply Ids|].
    apply Gen. now apply dict_get_Some_key in G.
  - exact SGen.
  - exact Dated.
Qed.

Lemma In_clear_first_kept event_id d day (days : dict date Day.t) :
  In (d, day) days ->
  In (d, day) (clear_first event_id days)
  \/ In (d, cleared event_id day) (clear_first event_id days).
Proof.
  induction days as [|[k dk] rest IH]; simpl; [tauto|].
  destruct (Day.holds event_id dk); simpl.
  - intros [E|I]; [injection E as -> ->; right; now left | left; now right].
  - intros [E|I]; [left; now left|].
    destruct (IH I); [left | right]; now right.
Qed.

(** X19. In every reachable [Calendar], failed calls included, a
    [delete_event(id)] that returns removes the event entirely: [id] is no
    longer a key of [events] and no slot of any [Day] holds it; every other
    registered event and every slot held by another id are as before. *)
Theorem reachable_delete_event_clears (generated : list string)
    (self self' : Calendar.t) (event_id : string) :
  reachable generated self ->
  Calendar.delete_event event_id self = (self', Ok tt) ->
  dict_get event_id (Calendar.events self') = None
  /\ (forall d day slot, In (d, day) (Calendar.days self') ->
        ~ In (slot, Some event_id) (Day.slots day))
  /\ (forall id, id <> event_id ->
        dict_get id (Calendar.events self')
        = dict_get id (Calendar.events self))
  /\ (forall d day slot id, In (d, day) (Calendar.days self) ->
        In (slot, Some id) (Day.slots day) -> id <> event_id ->
        exists day', In (d, day') (Calendar.days self')
                     /\ In (slot, Some id) (Day.slots day')).
Proof.
  intros R D. apply reachable_sound in R.
  destruct R as ((OKd & OKe) & _ & _ & _ & _ & Dated).
  rewrite Calendar_delete_event_eq in D by exact OKd.
  unfold dict_contains in D.
  destruct (dict_get event_id (Calendar.events self)) as [event|] eqn:G;
    [|discriminate].
  injection D as <-. cbn [Calendar.days Calendar.events].
  split; [now apply dict_get_pop_same|]. split; [|split].
  - intros d day slot I.
    apply (proj1 (holds_false event_id day)).
    apply (clear_first_clears event_id (Event.date_ event) _ (proj1 OKd)
             (registered_only_day _ _ _ Dated G) d day I).
  - intros id N. apply dict_get_pop_other. congruence.
  - intros d day slot id I Is N.
    destruct (In_clear_first_kept event_id d day _ I) as [I'|I'].
    + eauto.
    + exists (cleared event_id day). split; [exact I'|].
      apply clear_holds. auto.
Qed.

(** X20. On a slot dictionary in which no slot holds [event_id] yet, after
    an [add_event(event_id, start, end)] that returned,
    [delete_event(event_id)] gives the [Day] back when the range covered
    at least one slot, and raises [EventNotFound] when it covered none
    (the booking had returned all the same). *)
Theorem Day_add_then_delete_event (self self1 : Day.t) (event_id : string)
    (start_at end_at : time) :
  dict_ok (Day.slots self) ->
  Day.holds event_id self = false ->
  Day.add_event event_id start_at end_at self = (self1, Ok tt) ->
  ((exists slot, In slot (dict_keys (Day.slots self))
                 /\ in_range start_at end_at slot = true) ->
   Day.delete_event event_id self1 = (self, Ok tt))
  /\ ((forall slot, In slot (dict_keys (Day.slots self)) ->
                    in_range start_at end_at slot = false) ->
      Day.delete_event event_id self1 = (self, Raise EventNotFound)).
Proof.
  intros OK Hd A. apply Day_add_event_Ok in A; [|exact OK].
  destruct A as [F ->].
  assert (OK1 : dict_ok (Day.slots (booked event_id start_at end_at self)))
    by (unfold booked, dict_ok; cbn [Day.slots]; now rewrite keys_map_assign).
  rewrite Day_delete_event_clear by exact OK1.
  fold (cleared event_id (booked event_id start_at end_at self)).
  rewrite cleared_booked by assumption. split.
  - intros (slot & I & R).
    assert (Hb : Day.holds event_id (booked event_id start_at end_at self) = true).
    { apply holds_In. exists slot. unfold booked. cbn [Day.slots].
      apply in_map_iff in I. destruct I as ([k v] & <- & I).
      apply in_map_iff. exists (k, v). split; [|exact I].
      unfold assign. simpl in *. now rewrite R. }
    now rewrite Hb.
  - intros Out.
    assert (Hb : Day.holds event_id (booked event_id start_at end_at self) = false).
    { apply holds_false. intros slot I. unfold booked in I. cbn [Day.slots] in I.
      apply in_map_iff in I. destruct I as ([k v] & E & I).
      unfold assign in E. simpl in E.
      rewrite (Out k) in E by (now apply (in_map fst) in I).
      injection E as -> ->.
      apply (proj1 (holds_false _ _) Hd slot I). }
    now rewrite Hb.
Qed.

(** ** The further properties at work on the scenario *)

Lemma after_meeting_event :
  dict_get "A"%string (Calendar.events after_meeting) = Some meeting_event.
Proof. vm_compute. reflexivity. Qed.

Lemma after_remind_event :
  dict_get "A"%string (Calendar.events after_remind) = Some meeting_reminded.
Proof. vm_compute. reflexivity. Qed.

Lemma after_remind_day :
  dict_get tuesday (Calendar.days after_remind) = Some meeting_day.
Proof. vm_compute. reflexivity. Qed.

Lemma after_remind_only d day :
  In (d, day) (Calendar.days after_remind) -> d <> tuesday ->
  Day.holds "A" day = false.
Proof.
  rewrite after_remind_days. intros [E|[]] N.
  injection E as <- _. contradiction.
Qed.

Lemma reachable_after_clash : reachable ["B"; "A"]%string after_clash.
Proof.
  apply (reachable_call _ ["A"%string] after_meeting clash after_clash
           (Some SlotNotAvailable)).
  - apply (reachable_call _ [] Calendar.init meeting after_meeting None).
    + constructor.
    + intros id _ [].
    + exact run_meeting.
    + exact I.
  - intros id [<-|[]] [E|[]]. discriminate.
  - exact run_clash.
  - exact I.
Qed.

Lemma idle_ok : Calendar_ok idle.
Proof.
  assert (E : idle
              = fst (Calendar.add_event tuesday "C" "Idle" "Nothing" tuesday
                       (time_of 12 0) (time_of 12 0) Calendar.init))
    by (vm_compute; reflexivity).
  rewrite E. apply Calendar_add_event_ok. exact (proj1 Calendar_inv_init).
Qed.

Lemma idle_days : Calendar.days idle = [(tuesday, Day.init tuesday)].
Proof. vm_compute. reflexivity. Qed.

Lemma two_days_ok : Calendar_ok two_days.
Proof.
  assert (E : two_days
              = fst (Calendar.add_event tuesday "B" "Review" "Code" wednesday
                       (time_of 10 0) (time_of 10 30) after_remind))
    by (vm_compute; reflexivity).
  rewrite E. apply Calendar_add_event_ok. exact after_remind_ok.
Qed.

Lemma Day_delete_event_frees_witness :
  dict_get (time_of 10 0) (Day.slots (Day.init tuesday)) = Some None
  /\ dict_get (time_of 10 15) (Day.slots (Day.init tuesday))
     <> Some (Some "A"%string).
Proof.
  destruct (Day_delete_event_frees meeting_day (Day.init tuesday) "A" (Ok tt))
    as (H & N & _).
  - exact meeting_day_ok.
  - vm_compute. reflexivity.
  - split; [|exact (N (time_of 10 15))].
    rewrite (H (time_of 10 0)). vm_compute. reflexivity.
Defined.

Lemma Day_update_event_outcome_witness :
  dict_get (time_of 11 0)
    (Day.slots (fst (Day.update_event "A" (time_of 11 0) (time_of 12 0)
                       meeting_day)))
  = Some (Some "A"%string)
  /\ dict_get (time_of 10 0)
       (Day.slots (fst (Day.update_event "A" (time_of 11 0) (time_of 12 0)
                          meeting_day)))
     = Some None.
Proof.
  destruct (Day_update_event_outcome meeting_day
              (fst (Day.update_event "A" (time_of 11 0) (time_of 12 0)
                      meeting_day))
              "A" (time_of 11 0) (time_of 12 0) (Ok tt))
    as (_ & _ & H).
  - exact meeting_day_ok.
  - vm_compute. reflexivity.
  - split.
    + rewrite (H eq_refl (time_of 11 0)). vm_compute. reflexivity.
    + rewrite (H eq_refl (time_of 10 0)). vm_compute. reflexivity.
Defined.

Lemma Day_update_event_drops_old_witness :
  in_range (time_of 9 45) (time_of 10 15) (time_of 10 0) = true.
Proof.
  apply (Day_update_event_drops_old meeting_day "A").
  - exact meeting_day_ok.
  - vm_compute. reflexivity.
Defined.

Lemma Day_methods_keep_keys_witness :
  dict_keys (Day.slots (fst (Day.add_event "B" (time_of 9 45) (time_of 10 15)
                               meeting_day)))
  = dict_keys (Day.slots meeting_day).
Proof.
  apply (Day_methods_keep_keys meeting_day "B" (time_of 9 45) (time_of 10 15)).
  exact meeting_day_ok.
Defined.

Lemma find_available_slots_after_add_witness :
  Calendar.find_available_slots tuesday after_meeting
  = filter (fun slot => negb (in_range (time_of 10 0) (time_of 10 30) slot))
           (dict_keys (Day.slots (Day.init tuesday)))
  /\ Calendar.find_available_slots tuesday Calendar.init = [].
Proof.
  destruct (find_available_slots_after_add Calendar.init after_meeting tuesday
              "A" "Meeting" "Weekly" tuesday (time_of 10 0) (time_of 10 30) "A")
    as (H & _ & N).
  - exact (proj1 Calendar_inv_init).
  - vm_compute. reflexivity.
  - split; [exact H | apply N; reflexivity].
Defined.

Lemma Calendar_unregistered_id_witness :
  Calendar.delete_event "Z" after_meeting = (after_meeting, Raise EventNotFound)
  /\ Calendar.list_reminders "Z" after_meeting
     = (after_meeting, Raise EventNotFound).
Proof.
  destruct (Calendar_unregistered_id after_meeting "Z"
              (mk_datetime tuesday (time_of 9 0)) Reminder.EMAIL "T" "D"
              tuesday (time_of 8 0) (time_of 9 0) 0)
    as (_ & _ & D & _ & L).
  - vm_compute. reflexivity.
  - split; assumption.
Defined.

Lemma Calendar_add_reminder_listed_witness :
  exists self',
    Calendar.add_reminder "A" (mk_datetime tuesday (time_of 9 0))
      Reminder.EMAIL after_meeting = (self', Ok tt)
    /\ Calendar.list_reminders "A" self'
       = (self',
          Ok [Reminder.mk (mk_datetime tuesday (time_of 9 0)) Reminder.EMAIL]).
Proof.
  destruct (Calendar_add_reminder_listed after_meeting "A"
              (mk_datetime tuesday (time_of 9 0)) Reminder.EMAIL meeting_event
              after_meeting_event)
    as (self' & A & L & _).
  exists self'. split; [exact A | exact L].
Defined.

Lemma Calendar_delete_reminder_listed_witness :
  (exists self',
      Calendar.delete_reminder "A" 0 after_remind = (self', Ok tt)
      /\ Calendar.list_reminders "A" self' = (self', Ok []))
  /\ Calendar.delete_reminder "A" 1 after_remind
     = (after_remind, Raise ReminderNotFound).
Proof.
  split.
  - destruct (proj1 (Calendar_delete_reminder_listed after_remind "A" 0
                       meeting_reminded after_remind_event))
      as (self' & D & L & _).
    + cbn. lia.
    + exists self'. split; [exact D | exact L].
  - apply (proj2 (Calendar_delete_reminder_listed after_remind "A" 1
                    meeting_reminded after_remind_event)).
    cbn. lia.
Defined.

Lemma Calendar_add_delete_reminder_witness :
  exists self1,
    Calendar.add_reminder "A" (mk_datetime tuesday (time_of 9 45))
      Reminder.SYSTEM after_remind = (self1, Ok tt)
    /\ Calendar.delete_reminder "A" 1 self1 = (after_remind, Ok tt).
Proof.
  exact (Calendar_add_delete_reminder after_remind "A"
           (mk_datetime tuesday (time_of 9 45)) Reminder.SYSTEM
           meeting_reminded after_remind_event).
Defined.

Lemma Calendar_delete_event_twice_witness :
  Calendar.delete_event "A"
    (fst (Calendar.delete_event "A" after_meeting))
  = (fst (Calendar.delete_event "A" after_meeting), Raise EventNotFound).
Proof.
  apply (Calendar_delete_event_twice after_meeting
           (fst (Calendar.delete_event "A" after_meeting)) "A").
  - exact (proj1 after_meeting_inv).
  - vm_compute. reflexivity.
Defined.

Lemma Calendar_update_event_unbooked_witness :
  Calendar.update_event "C" "Idle" "Still" tuesday (time_of 12 0) (time_of 13 0)
    idle
  = (Calendar.mk (Calendar.days idle)
       (dict_set "C"%string
          (Event.mk "Idle" "Still" tuesday (time_of 12 0) (time_of 13 0) "C" [])
          (Calendar.events idle)),
     Ok tt).
Proof.
  apply (Calendar_update_event_unbooked idle "C" "Idle" "Still" tuesday
           (time_of 12 0) (time_of 13 0)
           (Event.mk "Idle" "Nothing" tuesday (time_of 12 0) (time_of 12 0)
                     "C" [])).
  - exact idle_ok.
  - vm_compute. reflexivity.
  - reflexivity.
  - intros d day I. rewrite idle_days in I. destruct I as [E|[]].
    injection E as _ <-. apply Day_init_unheld.
Defined.

Lemma Calendar_update_event_same_date_witness :
  dict_get "A"%string
    (Calendar.events
       (fst (Calendar.update_event "A" "Meeting" "Later" tuesday
               (time_of 11 0) (time_of 12 0) after_remind)))
  = Some (Event.mk "Meeting" "Later" tuesday (time_of 11 0) (time_of 12 0) "A"
            [Reminder.mk (mk_datetime tuesday (time_of 9 0)) Reminder.EMAIL]).
Proof.
  destruct (Calendar_update_event_same_date after_remind
              (fst (Calendar.update_event "A" "Meeting" "Later" tuesday
                      (time_of 11 0) (time_of 12 0) after_remind))
              "A" "Meeting" "Later" tuesday (time_of 11 0) (time_of 12 0)
              meeting_reminded meeting_day (Ok tt))
    as (_ & _ & G & _).
  - exact after_remind_ok.
  - exact after_remind_event.
  - reflexivity.
  - reflexivity.
  - exact after_remind_day.
  - vm_compute. reflexivity.
  - exact after_remind_only.
  - vm_compute. reflexivity.
  - exact G.
Defined.

Lemma Calendar_update_event_failed_move_witness :
  dict_get "A"%string
    (Calendar.events
       (fst (Calendar.update_event "A" "Meeting" "Moved" wednesday
               (time_of 10 0) (time_of 10 30) two_days)))
  = Some (Event.mk "Meeting" "Moved" wednesday (time_of 10 0) (time_of 10 30)
            "A" []).
Proof.
  destruct (Calendar_update_event_failed_move two_days
              (fst (Calendar.update_event "A" "Meeting" "Moved" wednesday
                      (time_of 10 0) (time_of 10 30) two_days))
              "A" "Meeting" "Moved" wednesday (time_of 10 0) (time_of 10 30)
              meeting_reminded SlotNotAvailable)
    as (_ & G & _).
  - exact two_days_ok.
  - vm_compute. reflexivity.
  - cbn. discriminate.
  - vm_compute. reflexivity.
  - exact G.
Defined.

Lemma Calendar_add_event_outcome_witness :
  exists self',
    Calendar.add_event tuesday "B" "Review" "Code" tuesday
      (time_of 9 45) (time_of 10 15) after_meeting
    = (self', Raise SlotNotAvailable)
    /\ Calendar.events self' = Calendar.events after_meeting.
Proof.
  destruct (proj2 (Calendar_add_event_outcome after_meeting tuesday
                     "B" "Review" "Code" tuesday (time_of 9 45) (time_of 10 15)
                     (proj1 after_meeting_inv) eq_refl))
    as (self' & day' & A & E & _).
  - intros F.
    assert (N : Some "A"%string = None).
    { apply (F (time_of 10 0)); [|reflexivity].
      apply (nth_error_In _ 40). vm_compute. reflexivity. }
    discriminate N.
  - exists self'. split; [exact A | exact E].
Defined.

Lemma Calendar_add_event_first_of_day_witness :
  exists self',
    Calendar.add_event tuesday "A" "Meeting" "Weekly" wednesday
      (time_of 10 30) (time_of 10 0) Calendar.init
    = (self', Ok "A"%string)
    /\ dict_get "A"%string (Calendar.events self')
       = Some (Event.mk "Meeting" "Weekly" wednesday (time_of 10 30)
                 (time_of 10 0) "A" []).
Proof.
  destruct (Calendar_add_event_first_of_day Calendar.init tuesday
              "A" "Meeting" "Weekly" wednesday (time_of 10 30) (time_of 10 0))
    as (self' & A & _ & G).
  - reflexivity.
  - reflexivity.
  - exists self'. split; [exact A | exact G].
Defined.

Lemma Calendar_add_event_second_of_day_witness :
  exists self1,
    Calendar.add_event tuesday "A" "Meeting" "Weekly" tuesday
      (time_of 10 0) (time_of 10 30) Calendar.init
    = (self1, Ok "A"%string)
    /\ snd (Calendar.add_event tuesday "B" "Review" "Code" tuesday
              (time_of 10 15) (time_of 11 0) self1)
       = Raise SlotNotAvailable.
Proof.
  destruct (Calendar_add_event_second_of_day Calendar.init tuesday tuesday
              "A" "Meeting" "Weekly" tuesday (time_of 10 0) (time_of 10 30)
              "B" "Review" "Code" (time_of 10 15) (time_of 11 0))
    as (self1 & A & _ & C).
  - reflexivity.
  - reflexivity.
  - reflexivity.
  - exists self1. split; [exact A|]. apply C.
    exists (time_of 10 15). split; [|split; reflexivity].
    apply existsb_eqb_In. vm_compute. reflexivity.
Defined.

Lemma reachable_calendar_sound_witness :
  dict_ok (Calendar.days after_clash) /\ dict_ok (Calendar.events after_clash).
Proof.
  destruct (reachable_calendar_sound ["B"; "A"]%string after_clash
              reachable_after_clash) as (D & E & _).
  split; assumption.
Defined.

Lemma reachable_delete_event_clears_witness :
  dict_get "A"%string
    (Calendar.events (fst (Calendar.delete_event "A" after_clash)))
  = None.
Proof.
  apply (reachable_delete_event_clears ["B"; "A"]%string after_clash
           (fst (Calendar.delete_event "A" after_clash)) "A").
  - exact reachable_after_clash.
  - vm_compute. reflexivity.
Defined.

Lemma Day_add_then_delete_event_witness :
  Day.delete_event "A" meeting_day = (Day.init tuesday, Ok tt).
Proof.
  apply (proj1 (Day_add_then_delete_event (Day.init tuesday) meeting_day "A"
                  (time_of 10 0) (time_of 10 30)
                  (Day_init_ok tuesday) (Day_init_unheld "A" tuesday)
                  ltac:(vm_compute; reflexivity))).
  exists (time_of 10 0). split; [|reflexivity].
  apply existsb_eqb_In. vm_compute. reflexivity.
Defined.
